(** * VIDNet-Pytorch-Reimplementation: dataset indexing and training-script glue

    A shallow embedding of
      - [misc/config.py]   (the global [cfg], [db_read_sequences]),
      - [src/dataloader/davis2017.py] ([DAVISLoader]),
      - [train.py]         ([parse_args], [prepare_logger], [train]),
    followed by the properties established about them.

    Python exceptions are values of [exn]; a computation that may raise
    returns a [result].  Mutable objects ([cfg], the loader, the lazy
    [filter] iterators) are threaded explicitly. *)

From stdpp Require Import base list strings pretty gmap sorting.
From Stdlib Require Import ZArith Ascii String Lia.

Open Scope string_scope.
Open Scope Z_scope.

(** ** Exceptions and the error monad *)

Inductive exn : Type :=
  | AssertionError
  | AttributeError
  | Exception_          (* [raise Exception(...)] *)
  | FileNotFoundError
  | IndexError
  | KeyError
  | NameError
  | NotImplementedError
  | OSError
  | TypeError
  | ValueError
  | YAMLError
  | ZeroDivisionError.

Global Instance exn_eq_dec : EqDecision exn.
Proof. solve_decision. Defined.

Inductive result (A : Type) : Type :=
  | Ok (a : A)
  | Raise (e : exn).
Arguments Ok {A} a.
Arguments Raise {A} e.

Definition rbind {A B} (m : result A) (k : A → result B) : result B :=
  match m with
  | Ok a => k a
  | Raise e => Raise e
  end.

Notation "'let*' x ':=' m 'in' k" := (rbind m (fun x => k))
  (at level 10, x pattern, m at level 100, k at level 200).

Definition is_Ok {A} (r : result A) : Prop := ∃ a, r = Ok a.

(** ** Python values that cross the interfaces modelled here *)

(** [class phase(Enum)] of misc/config.py. *)
Inductive phase : Type := TRAIN | VAL | TESTDEV | TRAINVAL.

Global Instance phase_eq_dec : EqDecision phase.
Proof. solve_decision. Defined.

Definition phase_value (p : phase) : string :=
  match p with
  | TRAIN => "train"
  | VAL => "val"
  | TESTDEV => "test-dev"
  | TRAINVAL => "train-val"
  end.

(** The dynamically typed values that are passed as [split], [db_phase],
    [s.set] and as the [key] of [get_raw_sample]. *)
Inductive pyval : Type :=
  | PNone
  | PBool (b : bool)
  | PInt (z : Z)
  | PStr (s : string)
  | PPhase (p : phase).

Global Instance pyval_eq_dec : EqDecision pyval.
Proof. solve_decision. Defined.

(** Python [==] on the values that are compared in the source: a [str] is
    compared with a [str], or with a member of the plain [Enum] [phase], which
    is equal to members of [phase] only. *)
Definition py_eq (a b : pyval) : bool :=
  match a, b with
  | PNone, PNone => true
  | PStr s, PStr t => bool_decide (s = t)
  | PPhase p, PPhase q => bool_decide (p = q)
  | PInt x, PInt y => bool_decide (x = y)
  | PBool x, PBool y => bool_decide (x = y)
  | PBool x, PInt y | PInt y, PBool x => bool_decide (Z.b2z x = y)
  | _, _ => false
  end.

(** [isinstance(key, str)] and [isinstance(key, int)]; [bool] is a subclass
    of [int]. *)
Definition isinstance_str (v : pyval) : bool :=
  match v with PStr _ => true | _ => false end.

Definition isinstance_int (v : pyval) : bool :=
  match v with PInt _ | PBool _ => true | _ => false end.

(** The integer an [int] instance denotes when used as a list index. *)
Definition int_value (v : pyval) : Z :=
  match v with
  | PInt z => z
  | PBool b => Z.b2z b
  | _ => 0
  end.

(** ** Lists: [l[i]] with Python's negative indices *)

Definition py_index {A} (l : list A) (i : Z) : result A :=
  let n := Z.of_nat (List.length l) in
  let j := if i <? 0 then i + n else i in
  if (0 <=? j) && (j <? n) then
    match l !! Z.to_nat j with
    | Some x => Ok x
    | None => Raise IndexError
    end
  else Raise IndexError.

(** ** Strings: the pieces of [str] and [os.path] that the loader calls *)

(** [s.rfind(c)]: highest index of [c], or [-1]. *)
Fixpoint rfind_from (c : ascii) (s : string) (i last : Z) : Z :=
  match s with
  | EmptyString => last
  | String a r => rfind_from c r (i + 1) (if Ascii.eqb a c then i else last)
  end.

Definition rfind (c : ascii) (s : string) : Z := rfind_from c s 0 (-1).

(** [s[:n]] and [s[n:]] for [0 <= n]. *)
Fixpoint str_take (n : nat) (s : string) : string :=
  match n, s with
  | S n', String a r => String a (str_take n' r)
  | _, _ => EmptyString
  end.

Fixpoint str_drop (n : nat) (s : string) : string :=
  match n, s with
  | S n', String _ r => str_drop n' r
  | _, _ => s
  end.

(** [posixpath.basename]: [i = p.rfind('/') + 1; return p[i:]]. *)
Definition basename (p : string) : string :=
  let i := rfind "/" p + 1 in
  str_drop (Z.to_nat i) p.

(** The [while] loop of [genericpath._splitext]: is there a character other
    than the extension separator in [p[from:dot]]? *)
Fixpoint has_non_dot (p : string) (skip len : nat) : bool :=
  match p with
  | EmptyString => false
  | String a r =>
      match skip with
      | S k => has_non_dot r k len
      | O =>
          match len with
          | O => false
          | S l => if Ascii.eqb a "." then has_non_dot r O l else true
          end
      end
  end.

(** [posixpath.splitext]: the extension starts at the last dot of the last
    path component, leading dots of that component not counting. *)
Definition splitext (p : string) : string * string :=
  let sepIndex := rfind "/" p in
  let dotIndex := rfind "." p in
  if (sepIndex <? dotIndex)
     && has_non_dot p (Z.to_nat (sepIndex + 1)) (Z.to_nat (dotIndex - (sepIndex + 1)))
  then (str_take (Z.to_nat dotIndex) p, str_drop (Z.to_nat dotIndex) p)
  else (p, EmptyString).

(** [posixpath.join(a, b)]. *)
Fixpoint ends_with_slash (s : string) : bool :=
  match s with
  | EmptyString => false
  | String a EmptyString => Ascii.eqb a "/"
  | String _ r => ends_with_slash r
  end.

Definition osp_join (a b : string) : string :=
  match b with
  | String "/" _ => b
  | _ =>
      match a with
      | EmptyString => b
      | _ => if ends_with_slash a then a +:+ b else a +:+ "/" +:+ b
      end
  end.

(** [int(s)] on a [str], base 10, for ASCII input: surrounding white space
    (tab, line feed, vertical tab, form feed, carriage return, space) is
    stripped, one sign is allowed, and the digits may be grouped by single
    underscores.  Digits and spaces outside ASCII are not modelled (they are
    rejected here). *)
Definition is_space (a : ascii) : bool :=
  let n := Z.of_N (N_of_ascii a) in
  ((9 <=? n) && (n <=? 13)) || (n =? 32).

Definition digit_value (a : ascii) : option Z :=
  let n := Z.of_N (N_of_ascii a) in
  if (48 <=? n) && (n <=? 57) then Some (n - 48) else None.

Fixpoint lstrip (s : string) : string :=
  match s with
  | String a r => if is_space a then lstrip r else s
  | EmptyString => EmptyString
  end.

Fixpoint all_space (s : string) : bool :=
  match s with
  | String a r => is_space a && all_space r
  | EmptyString => true
  end.

Fixpoint rstrip (s : string) : string :=
  match s with
  | String a r => if all_space s then EmptyString else String a (rstrip r)
  | EmptyString => EmptyString
  end.

Fixpoint parse_digits (s : string) (acc : Z) (after_digit : bool) : option Z :=
  match s with
  | EmptyString => if after_digit then Some acc else None
  | String a r =>
      match digit_value a with
      | Some d => parse_digits r (10 * acc + d) true
      | None =>
          if Ascii.eqb a "_" && after_digit then parse_digits r acc false
          else None
      end
  end.

Definition py_int (s : string) : result Z :=
  let t := rstrip (lstrip s) in
  let '(neg, body) :=
    match t with
    | String "-" r => (true, r)
    | String "+" r => (false, r)
    | _ => (false, t)
    end in
  match parse_digits body 0 false with
  | Some n => Ok (if neg : bool then - n else n)
  | None => Raise ValueError
  end.

(** [int(osp.splitext(osp.basename(path))[0])], the frame number a file name
    stands for (davis2017.py, lines 165, 173, 184, 196 and 206). *)
Definition frame_number (path : string) : result Z :=
  py_int (fst (splitext (basename path))).

(** [int(a / b)] on two [int]s: true division, then truncation towards zero.
    The quotient goes through a double; it is the exact truncated quotient
    whenever both operands are below [2^53], which a count of files is. *)
Definition int_truediv (a b : Z) : result Z :=
  if b =? 0 then Raise ZeroDivisionError else Ok (Z.quot a b).

(** ** misc/config.py *)

(** One entry of the [sequences] list of the db-info YAML file; of its fields
    the program reads [name], [year] and [set]. *)
Record DbSequence : Type := {
  s_name : string;
  s_year : Z;
  s_set : pyval;
  s_num_frames : Z
}.

Global Instance DbSequence_eq_dec : EqDecision DbSequence.
Proof. solve_decision. Defined.

(** The global [cfg] (an [EasyDict]); one record per nested [edict]. *)
Record CfgPath : Type := {
  PATH_ROOT : string;
  PATH_DATA : string;
  PATH_ORIGINAL : string;
  PATH_SEQUENCES2 : string;
  PATH_SEQUENCES : string;
  PATH_FLOW : string;
  PATH_ANNOTATIONS : string;
  PATH_PALETTE : string
}.

Record CfgFiles : Type := { FILES_DB_INFO : string }.

Record CfgEval : Type := {
  EVAL_METRICS : list string;
  EVAL_STATISTICS : list string
}.

Record Cfg : Type := {
  N_JOBS : Z;
  PATH : CfgPath;
  RESOLUTION : string;
  YEAR : string;
  PHASE : phase;
  MULTIOBJECT : bool;
  FILES : CfgFiles;
  EVAL : CfgEval;
  SEQUENCES : gmap string DbSequence;
  palette : list (Z * Z * Z)
}.

(** [cfg.PATH.SEQUENCES = path]: the one assignment to [cfg] made outside
    config.py. *)
Definition set_PATH_SEQUENCES (path : string) (c : Cfg) : Cfg :=
  {| N_JOBS := N_JOBS c;
     PATH := {| PATH_ROOT := PATH_ROOT (PATH c);
                PATH_DATA := PATH_DATA (PATH c);
                PATH_ORIGINAL := PATH_ORIGINAL (PATH c);
                PATH_SEQUENCES2 := PATH_SEQUENCES2 (PATH c);
                PATH_SEQUENCES := path;
                PATH_FLOW := PATH_FLOW (PATH c);
                PATH_ANNOTATIONS := PATH_ANNOTATIONS (PATH c);
                PATH_PALETTE := PATH_PALETTE (PATH c) |};
     RESOLUTION := RESOLUTION c;
     YEAR := YEAR c;
     PHASE := PHASE c;
     MULTIOBJECT := MULTIOBJECT c;
     FILES := FILES c;
     EVAL := EVAL c;
     SEQUENCES := SEQUENCES c;
     palette := palette c |}.

(** Objects of the classes of [dataloader/base.py] ([Sequence] and
    [Annotation], both [BaseLoader]s), through the attributes read by
    davis2017.py. *)
Record BaseLoader : Type := {
  name : string;
  files : list string;
  _numframes : Z
}.

Global Instance BaseLoader_eq_dec : EqDecision BaseLoader.
Proof. solve_decision. Defined.

(** A Python value this model does not look into (a float, a pair of floats). *)
Inductive pyobj : Type := PyObj (id : Z).

Global Instance pyobj_eq_dec : EqDecision pyobj.
Proof. solve_decision. Defined.

(** What the program observes of its environment: the file system, the
    db-info file, and the constructors of [dataloader/base.py] and
    [dataloader/transforms/transforms.py], whose source is not part of the
    modelled files. *)
Record World : Type := {
  (** [osp.isdir] *)
  isdir : string → bool;
  (** [glob.glob(osp.join(dir, '*.png'))], in the order the OS lists it *)
  glob_png : string → list string;
  (** [db_read_info().sequences] for the file at [cfg.FILES.DB_INFO] *)
  read_db_info : string → result (list DbSequence);
  (** [Sequence(phase, name, regex=..., lmdb_env=...)] *)
  new_Sequence : pyval → string → string → option string → result BaseLoader;
  (** [Annotation(phase, name, single_object, lmdb_env=...)] *)
  new_Annotation : pyval → string → bool → option string → result BaseLoader;
  (** [SequenceClip_simple(seq, starting_frame)._numframes] *)
  SequenceClip_simple_numframes : BaseLoader → Z → Z;
  (** [AnnotationClip_simple(annot, starting_frame)._numframes] *)
  AnnotationClip_simple_numframes : BaseLoader → Z → Z;
  (** [RandomAffine(rotation_range=r, translation_range=t, shear_range=s,
      zoom_range=(z, max(z*2, 1.0)), interp='nearest', lazy=...)], the
      arithmetic on [z] included: whether it raises *)
  new_RandomAffine : pyobj → pyobj → pyobj → pyobj → bool → result unit
}.

(** [int(v)] for the values that can be passed as [year]. *)
Definition py_int_of (v : pyval) : result Z :=
  match v with
  | PStr s => py_int s
  | PInt z => Ok z
  | PBool b => Ok (Z.b2z b)
  | PNone | PPhase _ => Raise TypeError
  end.

(** The three [lambda]s of [db_read_sequences], with the variable each
    captures. *)
Inductive lambda_ : Type :=
  | LamYear (year : pyval)
      (* lambda s: int(s.year) <= int(year) *)
  | LamTrainVal
      (* lambda s: (s.set == phase.VAL) or (s.set == phase.TRAIN) *)
  | LamPhase (db_phase : pyval).
      (* lambda s: s.set == db_phase and osp.isdir(osp.join(__C.PATH.SEQUENCES, s.name)) *)

(** Calling a lambda.  [__C.PATH.SEQUENCES] and the file system are read at
    the time of the call, not when the lambda is created. *)
Definition call_lambda (w : World) (c : Cfg) (f : lambda_) (s : DbSequence) : result bool :=
  match f with
  | LamYear year =>
      let* y := py_int_of year in
      Ok (s_year s <=? y)
  | LamTrainVal =>
      Ok (py_eq (s_set s) (PPhase VAL) || py_eq (s_set s) (PPhase TRAIN))
  | LamPhase db_phase =>
      Ok (py_eq (s_set s) db_phase
          && isdir w (osp_join (PATH_SEQUENCES (PATH c)) (s_name s)))
  end.

(** A [filter] object.  [filter(f2, filter(f1, lst))] is kept flat: [fi_funs]
    lists the lambdas innermost first and [fi_rest] is what the underlying list
    iterator has not produced yet.  An element is yielded when every lambda
    accepts it; an outer lambda is only called on what the inner filter
    yields. *)
Record FilterObj : Type := {
  fi_funs : list lambda_;
  fi_rest : list DbSequence
}.

Fixpoint accepts (w : World) (c : Cfg) (fs : list lambda_) (s : DbSequence) : result bool :=
  match fs with
  | [] => Ok true
  | f :: fs' =>
      let* b := call_lambda w c f s in
      if b : bool then accepts w c fs' s else Ok false
  end.

(** [next(it)]: [None] stands for [StopIteration]; the iterator is returned
    in its new state. *)
Fixpoint filter_next (w : World) (c : Cfg) (fs : list lambda_) (rest : list DbSequence)
  : result (option DbSequence * list DbSequence) :=
  match rest with
  | [] => Ok (None, [])
  | s :: rest' =>
      let* b := accepts w c fs s in
      if b : bool then Ok (Some s, rest') else filter_next w c fs rest'
  end.

(** What [db_read_sequences] returns: the YAML list itself, or a [filter]. *)
Inductive pyseq : Type :=
  | PyList (l : list DbSequence)
  | PyFilter (it : FilterObj).

(** [filter(f, sequences)] *)
Definition py_filter (f : lambda_) (sequences : pyseq) : pyseq :=
  match sequences with
  | PyList l => PyFilter {| fi_funs := [f]; fi_rest := l |}
  | PyFilter it => PyFilter {| fi_funs := (fi_funs it ++ [f])%list; fi_rest := fi_rest it |}
  end.

(** [db_read_info().sequences] *)
Definition db_read_info_sequences (w : World) (c : Cfg) : result (list DbSequence) :=
  read_db_info w (FILES_DB_INFO (FILES c)).

(** [db_read_sequences(year=None, db_phase=None)], config.py lines 98-113. *)
Definition db_read_sequences (w : World) (c : Cfg) (year db_phase : pyval) : result pyseq :=
  let* info := db_read_info_sequences w c in
  let sequences := PyList info in
  let sequences :=
    if bool_decide (year ≠ PNone) then py_filter (LamYear year) sequences
    else sequences in
  let sequences :=
    if bool_decide (db_phase ≠ PNone) then
      if py_eq db_phase (PPhase TRAINVAL) then py_filter LamTrainVal sequences
      else py_filter (LamPhase db_phase) sequences
    else sequences in
  Ok sequences.

(** Running a filter to its end, as a [for] loop over it does: the elements
    it yields (or the exception a lambda raised), and the input the filter has
    left afterwards. *)
Fixpoint drain (w : World) (c : Cfg) (fs : list lambda_) (rest : list DbSequence)
  : result (list DbSequence) * list DbSequence :=
  match rest with
  | [] => (Ok [], [])
  | s :: rest' =>
      match accepts w c fs s with
      | Raise e => (Raise e, rest')
      | Ok b =>
          let '(r, remaining) := drain w c fs rest' in
          (let* tl := r in Ok (if b : bool then s :: tl else tl), remaining)
      end
  end.

(** The elements an iterable yields when it is iterated to its end. *)
Definition yields (w : World) (c : Cfg) (sequences : pyseq) : result (list DbSequence) :=
  match sequences with
  | PyList l => Ok l
  | PyFilter it => fst (drain w c (fi_funs it) (fi_rest it))
  end.

(** ** src/dataloader/davis2017.py: [DAVISLoader] *)

(** Clip objects, identified by the constructor call that made them. *)
Inductive SequenceClipObj : Type :=
  | SequenceClip_simple (seq : BaseLoader) (starting_frame : Z)
  | SequenceClip (phase_ : pyval) (name_ : string) (starting_frame : Z)
                 (regex : string) (lmdb_env : option string).

Inductive AnnotationClipObj : Type :=
  | AnnotationClip_simple (annot : BaseLoader) (starting_frame : Z).

Global Instance SequenceClipObj_eq_dec : EqDecision SequenceClipObj.
Proof. solve_decision. Defined.
Global Instance AnnotationClipObj_eq_dec : EqDecision AnnotationClipObj.
Proof. solve_decision. Defined.

(** The attributes [name] and [starting_frame] of a sequence clip, read when
    [_keys_clips] is built (line 212). *)
Definition clip_name (cl : SequenceClipObj) : string :=
  match cl with
  | SequenceClip_simple seq _ => name seq
  | SequenceClip _ n _ _ _ => n
  end.

Definition clip_starting_frame (cl : SequenceClipObj) : Z :=
  match cl with
  | SequenceClip_simple _ sf => sf
  | SequenceClip _ _ sf _ _ => sf
  end.

Definition annotation_clip_starting_frame (cl : AnnotationClipObj) : Z :=
  match cl with AnnotationClip_simple _ sf => sf end.

(** A [RandomAffine] object, by the arguments it was constructed with
    ([zoom_range] by the [args.zoom] it is computed from). *)
Record RandomAffine : Type := {
  ra_rotation_range : pyobj;
  ra_translation_range : pyobj;
  ra_shear_range : pyobj;
  ra_zoom : pyobj;
  ra_interp : string;
  ra_lazy : bool
}.

(** The fields of [args] read by [__init__]; all of them are set. *)
Record Args : Type := {
  arg_year : pyval;
  arg_single_object : bool;
  arg_length_clip : Z;
  arg_gt_maxseqlen : Z;
  arg_dataset : string;
  arg_rotation : pyobj;
  arg_translation : pyobj;
  arg_shear : pyobj;
  arg_zoom : pyobj
}.

(** Keys of the dict [_keys]: it is built with the [Sequence] objects
    themselves as keys and is looked up with whatever the caller passes. *)
Inductive dict_key : Type :=
  | KObj (o : BaseLoader)
  | KVal (v : pyval).

Global Instance dict_key_eq_dec : EqDecision dict_key.
Proof. solve_decision. Defined.

(** The state of a [DAVISLoader].  The opaque objects [transform],
    [target_transform], [inputRes] and [color_palette] are stored and never
    read by the methods below; they are left out. *)
Record DAVISLoader : Type := {
  _year : pyval;
  _phase : pyval;
  _single_object : bool;
  _length_clip : Z;
  split : pyval;
  video_mode : bool;
  max_seq_len : Z;
  dataset : string;
  flip : bool;
  use_prev_mask : bool;
  ela : bool;
  augmentation_transform : option RandomAffine;
  _db_sequences : pyseq;
  sequences : list BaseLoader;
  annotations : list BaseLoader;
  sequence_clips : list SequenceClipObj;
  annotation_clips : list AnnotationClipObj;
  _keys : list (dict_key * Z);
  _keys_clips : gmap string Z
}.

(** Iterating [self._db_sequences]: a list gets a fresh iterator each time
    and is left as it is; a [filter] object is its own iterator and keeps the
    position it was advanced to. *)
Definition iter_of (sequences : pyseq) : FilterObj :=
  match sequences with
  | PyList l => {| fi_funs := []; fi_rest := l |}
  | PyFilter it => it
  end.

Definition advanced_to (sequences : pyseq) (rest : list DbSequence) : pyseq :=
  match sequences with
  | PyList l => PyList l
  | PyFilter it => PyFilter {| fi_funs := fi_funs it; fi_rest := rest |}
  end.

(** [[body(s) for s in it]] *)
Fixpoint comprehension {B} (w : World) (c : Cfg) (body : DbSequence → result B)
    (fs : list lambda_) (rest : list DbSequence) : result (list B) :=
  match rest with
  | [] => Ok []
  | s :: rest' =>
      let* b := accepts w c fs s in
      if b : bool then
        let* x := body s in
        let* xs := comprehension w c body fs rest' in
        Ok (x :: xs)
      else comprehension w c body fs rest'
  end.

(** Lines 171-174 and 204-207:
    [for idx in range(num_clips - 1): starting_frame_idx += L; ...append(...)] *)
Fixpoint more_clips {C} (mk : Z → C) (images : list string) (L : Z)
    (iterations : nat) (starting_frame_idx : Z) (clips : list C) : result (list C) :=
  match iterations with
  | O => Ok clips
  | S n =>
      let starting_frame_idx := starting_frame_idx + L in
      let* path := py_index images starting_frame_idx in
      let* starting_frame := frame_number path in
      more_clips mk images L n starting_frame_idx (clips ++ [mk starting_frame])%list
  end.

(** Lines 161-174 (sequence clips, [use_prev_mask == False]) and 193-207
    (annotation clips): the two loop bodies are the same text up to the
    class that is instantiated. *)
Definition simple_clips {C} (mk : BaseLoader → Z → C) (numframes : BaseLoader → Z → Z)
    (L : Z) (obj : BaseLoader) (clips : list C) : result (list C) :=
  let images := files obj in
  let starting_frame_idx := 0 in
  let* path := py_index images starting_frame_idx in
  let* starting_frame := frame_number path in
  let clips := (clips ++ [mk obj starting_frame])%list in
  let num_frames := numframes obj starting_frame in
  let* num_clips := int_truediv num_frames L in
  more_clips (mk obj) images L (Z.to_nat (num_clips - 1)) starting_frame_idx clips.

(** [annotations.sort()] on a list of [str]. *)
Definition str_le (a b : string) : Prop := String.leb a b = true.

Global Instance str_le_dec a b : Decision (str_le a b).
Proof. unfold str_le. apply _. Defined.

Definition sort_strings (l : list string) : list string := merge_sort str_le l.

(** Lines 178-186, the [use_prev_mask] branch. *)
Definition prev_mask_clip (w : World) (c : Cfg) (phase_ : pyval) (lmdb_env_seq : option string)
    (s : DbSequence) (clips : list SequenceClipObj) : result (list SequenceClipObj) :=
  let annot_seq_dir := osp_join (PATH_ANNOTATIONS (PATH c)) (s_name s) in
  let annotations := sort_strings (glob_png w annot_seq_dir) in
  let* path := py_index annotations 0 in
  let* starting_frame := frame_number path in
  Ok (clips ++ [SequenceClip phase_ (s_name s) starting_frame "*.png" lmdb_env_seq])%list.

(** Lines 157-186: [for seq, s in zip(self.sequences, self._db_sequences)].
    [zip] asks the list first and stops without touching the filter once the
    list is used up.  Returns the clips and the filter's remaining input. *)
Fixpoint sequence_clips_loop (w : World) (c : Cfg) (phase_ : pyval) (L : Z)
    (prev_mask : bool) (lmdb_env_seq : option string)
    (seqs : list BaseLoader) (fs : list lambda_) (rest : list DbSequence)
    (clips : list SequenceClipObj) : result (list SequenceClipObj * list DbSequence) :=
  match seqs with
  | [] => Ok (clips, rest)
  | seq :: seqs' =>
      let* (nxt, rest') := filter_next w c fs rest in
      match nxt with
      | None => Ok (clips, rest')
      | Some s =>
          let* clips' :=
            if negb prev_mask
            then simple_clips SequenceClip_simple (SequenceClip_simple_numframes w) L seq clips
            else prev_mask_clip w c phase_ lmdb_env_seq s clips in
          sequence_clips_loop w c phase_ L prev_mask lmdb_env_seq seqs' fs rest' clips'
      end
  end.

(** Lines 191-207: [for annot, s in zip(self.annotations, self._db_sequences)]. *)
Fixpoint annotation_clips_loop (w : World) (c : Cfg) (L : Z)
    (annots : list BaseLoader) (fs : list lambda_) (rest : list DbSequence)
    (clips : list AnnotationClipObj) : result (list AnnotationClipObj * list DbSequence) :=
  match annots with
  | [] => Ok (clips, rest)
  | annot :: annots' =>
      let* (nxt, rest') := filter_next w c fs rest in
      match nxt with
      | None => Ok (clips, rest')
      | Some s =>
          let* clips' :=
            simple_clips AnnotationClip_simple (AnnotationClip_simple_numframes w) L annot clips in
          annotation_clips_loop w c L annots' fs rest' clips'
      end
  end.

(** [range(len(l))] *)
Definition range_len {A} (l : list A) : list Z := Z.of_nat <$> seq 0 (List.length l).

(** [dict(zip(keys, values))] with [str] keys: a later pair replaces an
    earlier one with the same key. *)
Definition dict_of_zip (keys : list string) (values : list Z) : gmap string Z :=
  foldl (λ d kv, <[kv.1 := kv.2]> d) ∅ (zip keys values).

(** [d[key]] on the items of a dict. *)
Definition dict_getitem (d : list (dict_key * Z)) (key : pyval) : result Z :=
  match list_find (λ kv, kv.1 = KVal key) d with
  | Some (_, (_, v)) => Ok v
  | None => Raise KeyError
  end.

(** The two values [__init__] assigns to [cfg.PATH.SEQUENCES]. *)
Definition SEQUENCES_val : string :=
  "/vulcan/scratch/pengzhou/model/Deep-Video-Inpainting/results/vi_davis/val".
Definition SEQUENCES_train : string :=
  "/vulcan/scratch/pengzhou/model/opn-demo/vi_davis/train".

(** Lines 98-114: the augmentation transform, lazy unless the clip length
    is one. *)
Definition make_augmentation (w : World) (args : Args) (augment : bool)
  : result (option RandomAffine) :=
  if augment then
    let lazy := negb (arg_length_clip args =? 1) in
    let* _ := new_RandomAffine w (arg_rotation args) (arg_translation args)
                (arg_shear args) (arg_zoom args) lazy in
    Ok (Some {| ra_rotation_range := arg_rotation args;
                ra_translation_range := arg_translation args;
                ra_shear_range := arg_shear args;
                ra_zoom := arg_zoom args;
                ra_interp := "nearest";
                ra_lazy := lazy |})
  else Ok None.

(** [DAVISLoader.__init__], lines 54-219, for an [args] that has every
    attribute read.  The global [cfg] is an input and an output: the assignment
    of lines 66-76 happens before anything can raise.  The augmentation
    transform is constructed before the year is asserted. *)
Definition DAVISLoader_init (w : World) (c : Cfg) (args : Args) (augment : bool)
    (split_ : pyval) (video_mode_ use_prev_mask_ use_ela : bool)
  : Cfg * result DAVISLoader :=
  let c :=
    if py_eq split_ (PStr "val") then set_PATH_SEQUENCES SEQUENCES_val c
    else set_PATH_SEQUENCES SEQUENCES_train c in
  (c,
   let year_ := arg_year args in
   let phase_ := split_ in
   let single := arg_single_object args in
   let L := arg_length_clip args in
   let* augmentation := make_augmentation w args augment in
   if negb (py_eq year_ (PStr "2017") || py_eq year_ (PStr "2016")) then Raise AssertionError
   else if single && negb (py_eq year_ (PStr "2016")) then Raise Exception_
   else
     let* db1 := db_read_sequences w c year_ phase_ in
     let lmdb_env_seq_dir := osp_join (PATH_DATA (PATH c)) "lmdb_seq" in
     let lmdb_env_annot_dir := osp_join (PATH_DATA (PATH c)) "lmdb_annot" in
     let '(lmdb_env_seq, lmdb_env_annot) :=
       if isdir w lmdb_env_seq_dir && isdir w lmdb_env_annot_dir
       then (Some lmdb_env_seq_dir, Some lmdb_env_annot_dir)
       else (None, None) in
     let* sequences_ :=
       comprehension w c (λ s, new_Sequence w phase_ (s_name s) "*.png" lmdb_env_seq)
         (fi_funs (iter_of db1)) (fi_rest (iter_of db1)) in
     let* db2 := db_read_sequences w c year_ phase_ in
     let* annotations_ :=
       comprehension w c (λ s, new_Annotation w phase_ (s_name s) single lmdb_env_annot)
         (fi_funs (iter_of db2)) (fi_rest (iter_of db2)) in
     let* db3 := db_read_sequences w c year_ phase_ in
     let* (sequence_clips_, _) :=
       sequence_clips_loop w c phase_ L use_prev_mask_ lmdb_env_seq sequences_
         (fi_funs (iter_of db3)) (fi_rest (iter_of db3)) [] in
     let* db4 := db_read_sequences w c year_ phase_ in
     let* (annotation_clips_, rest4) :=
       annotation_clips_loop w c L annotations_
         (fi_funs (iter_of db4)) (fi_rest (iter_of db4)) [] in
     Ok {| _year := year_;
           _phase := phase_;
           _single_object := single;
           _length_clip := L;
           split := split_;
           video_mode := video_mode_;
           max_seq_len := arg_gt_maxseqlen args;
           dataset := arg_dataset args;
           flip := augment;
           use_prev_mask := use_prev_mask_;
           ela := use_ela;
           augmentation_transform := augmentation;
           _db_sequences := advanced_to db4 rest4;
           sequences := sequences_;
           annotations := annotations_;
           sequence_clips := sequence_clips_;
           annotation_clips := annotation_clips_;
           _keys := zip (KObj <$> sequences_) (range_len sequences_);
           _keys_clips :=
             dict_of_zip ((λ cl, clip_name cl +:+ pretty (clip_starting_frame cl)) <$> sequence_clips_)
                         (range_len sequence_clips_) |}).

(** *** Methods.  A method takes the loader and returns its outcome together
    with the loader as the call leaves it. *)
Definition Method (A : Type) : Type := DAVISLoader → result A * DAVISLoader.

(** The [edict] with keys ['images'] and ['annotations']. *)
Record Sample (I A : Type) : Type := {
  images : I;
  sample_annotations : A
}.
Arguments images {I A} _.
Arguments sample_annotations {I A} _.

(** Names bound at module level in davis2017.py (assignments, imports and the
    class statement), and the exception classes among Python's builtins. *)
Definition davis2017_globals : list string :=
  [ "__author__"; "__version__"; "namedtuple"; "np"; "Image"; "Sequence"; "SequenceClip";
    "Annotation"; "AnnotationClip"; "BaseLoader"; "Segmentation"; "SequenceClip_simple";
    "AnnotationClip_simple"; "cfg"; "phase"; "db_read_sequences"; "RandomAffine"; "edict";
    "lmdb"; "osp"; "time"; "glob"; "MyDataset"; "pdb"; "DAVISLoader" ].

Definition builtin_exceptions : list string :=
  [ "BaseException"; "Exception"; "ArithmeticError"; "AssertionError"; "AttributeError";
    "BlockingIOError"; "BrokenPipeError"; "BufferError"; "ChildProcessError";
    "ConnectionAbortedError"; "ConnectionError"; "ConnectionRefusedError";
    "ConnectionResetError"; "EOFError"; "EnvironmentError"; "FileExistsError";
    "FileNotFoundError"; "FloatingPointError"; "GeneratorExit"; "IOError"; "ImportError";
    "IndentationError"; "IndexError"; "InterruptedError"; "IsADirectoryError"; "KeyError";
    "KeyboardInterrupt"; "LookupError"; "MemoryError"; "ModuleNotFoundError"; "NameError";
    "NotADirectoryError"; "NotImplementedError"; "OSError"; "OverflowError";
    "PermissionError"; "ProcessLookupError"; "RecursionError"; "ReferenceError";
    "RuntimeError"; "StopAsyncIteration"; "StopIteration"; "SyntaxError"; "SystemError";
    "SystemExit"; "TabError"; "TimeoutError"; "TypeError"; "UnboundLocalError";
    "UnicodeDecodeError"; "UnicodeEncodeError"; "UnicodeError"; "UnicodeTranslateError";
    "ValueError"; "ZeroDivisionError" ].

(** Evaluating a global name inside a method of davis2017.py. *)
Definition eval_name (n : string) : result unit :=
  if bool_decide (n ∈ davis2017_globals ++ builtin_exceptions)%list then Ok ()
  else Raise NameError.

(** [raise InputError()]: the name is evaluated first. *)
Definition raise_InputError {A} : result A :=
  let* _ := eval_name "InputError" in
  Raise Exception_.

(** [get_raw_sample], lines 221-233. *)
Definition get_raw_sample (key : pyval) : Method (Sample BaseLoader BaseLoader) :=
  λ self,
    (let* sid :=
       if isinstance_str key then dict_getitem (_keys self) key
       else if isinstance_int key then Ok (int_value key)
       else raise_InputError in
     let* i := py_index (sequences self) sid in
     let* a := py_index (annotations self) sid in
     Ok {| images := i; sample_annotations := a |},
     self).

(** [self._keys_clips[key]] *)
Definition keys_clips_getitem (d : gmap string Z) (key : pyval) : result Z :=
  match key with
  | PStr k => match d !! k with Some v => Ok v | None => Raise KeyError end
  | _ => Raise KeyError
  end.

(** [get_raw_sample_clip], lines 235-247. *)
Definition get_raw_sample_clip (key : pyval) : Method (Sample SequenceClipObj AnnotationClipObj) :=
  λ self,
    (let* sid :=
       if isinstance_str key then keys_clips_getitem (_keys_clips self) key
       else if isinstance_int key then Ok (int_value key)
       else raise_InputError in
     let* i := py_index (sequence_clips self) sid in
     let* a := py_index (annotation_clips self) sid in
     Ok {| images := i; sample_annotations := a |},
     self).

(** [self._db_sequences[sid]]: a list can be subscripted, a filter cannot. *)
Definition pyseq_getitem (sequences : pyseq) (sid : Z) : result DbSequence :=
  match sequences with
  | PyList l => py_index l sid
  | PyFilter _ => Raise TypeError
  end.

(** [sequence_id_to_name], lines 257-259. *)
Definition sequence_id_to_name (sid : Z) : Method string :=
  λ self, (let* s := pyseq_getitem (_db_sequences self) sid in Ok (s_name s), self).

Definition with_db_sequences (db : pyseq) (self : DAVISLoader) : DAVISLoader :=
  {| _year := _year self;
     _phase := _phase self;
     _single_object := _single_object self;
     _length_clip := _length_clip self;
     split := split self;
     video_mode := video_mode self;
     max_seq_len := max_seq_len self;
     dataset := dataset self;
     flip := flip self;
     use_prev_mask := use_prev_mask self;
     ela := ela self;
     augmentation_transform := augmentation_transform self;
     _db_sequences := db;
     sequences := sequences self;
     annotations := annotations self;
     sequence_clips := sequence_clips self;
     annotation_clips := annotation_clips self;
     _keys := _keys self;
     _keys_clips := _keys_clips self |}.

(** [iternames], lines 265-268, run to its end: everything the generator
    yields.  Iterating a filter advances it. *)
Definition iternames (w : World) (c : Cfg) : Method (list DbSequence) :=
  λ self,
    match _db_sequences self with
    | PyList l => (Ok l, self)
    | PyFilter it =>
        let '(r, remaining) := drain w c (fi_funs it) (fi_rest it) in
        (r, with_db_sequences (PyFilter {| fi_funs := fi_funs it; fi_rest := remaining |}) self)
    end.

(** ** train.py *)

(** A parsed YAML document (mappings with [str] keys). *)
#[local] Set Warnings "-register-all".
Inductive yaml : Type :=
  | YNull
  | YBool (b : bool)
  | YInt (z : Z)
  | YFloat (repr : string)
  | YStr (s : string)
  | YBinary (bytes : string)
  | YDate (iso : string)
  | YList (l : list yaml)
  | YSet (l : list yaml)
  | YMap (m : gmap string yaml).

(** [v[key]] with a [str] key. *)
Definition yaml_getitem (v : yaml) (key : string) : result yaml :=
  match v with
  | YMap m => match m !! key with Some x => Ok x | None => Raise KeyError end
  | _ => Raise TypeError
  end.

(** [--gpus]: the default [-1], or a list of device numbers. *)
Inductive gpus_arg : Type :=
  | GpusDefault
  | GpusList (l : list Z).

(** The [argparse.Namespace] built by [main] and extended by [parse_args];
    an attribute that has not been set yet is [None] here. *)
Record Namespace : Type := {
  config : string;
  prev_ckpt : option string;
  resume : bool;
  version : string;
  log_dir : option string;
  fast_dev_run : bool;
  pre : string;
  gpus : gpus_arg;
  logger : option string;
  uid : option string;
  model_args : option yaml;
  training_args : option yaml;
  max_epochs : option yaml
}.

(** What train.py observes of its environment. *)
Record TrainEnv : Type := {
  (** [os.path.exists], [os.path.isdir], [os.makedirs], [os.getcwd] *)
  path_exists : string → bool;
  path_isdir : string → bool;
  makedirs : string → result unit;
  getcwd : string;
  (** [open(path, "r")] followed by [yaml.safe_load] *)
  load_yaml : string → result yaml;
  (** [wandb.util.generate_id()] *)
  generate_id : string;
  (** [rich.print_json(data=args.__dict__)]: it raises when the namespace
      holds a value that JSON cannot encode (a date, bytes, a set) *)
  print_json : Namespace → result unit;
  (** [EncoderConfig], [DecoderConfig] and [TrainingConfig] called with the
      entries of a mapping as keyword arguments, and
      the construction of the model, from a checkpoint or afresh
      ([vidnet_plwrapper], not part of the modelled files) *)
  new_EncoderConfig : yaml → result unit;
  new_DecoderConfig : yaml → result unit;
  new_TrainingConfig : yaml → result unit;
  new_VIDNetPLWrapper : option string → result unit
}.

(** Truth value of an optional [str]: [None] and [''] are false. *)
Definition truthy (o : option string) : bool :=
  match o with
  | Some (String _ _) => true
  | _ => false
  end.

(** How an optional [str] is formatted inside an f-string. *)
Definition fmt (o : option string) : string := default "None" o.

(** [parse_args], lines 118-136. *)
Definition parse_args (env : TrainEnv) (args : Namespace) : result Namespace :=
  if negb (path_exists env (config args)) then Raise FileNotFoundError
  else if truthy (prev_ckpt args) && negb (path_exists env (fmt (prev_ckpt args)))
  then Raise FileNotFoundError
  else
    let* _ :=
      if truthy (log_dir args) && negb (path_isdir env (fmt (log_dir args)))
      then makedirs env (fmt (log_dir args))
      else Ok () in
    if resume args && negb (truthy (prev_ckpt args)) then Raise ValueError
    else
      let* cfg_ := load_yaml env (config args) in
      let* m := yaml_getitem cfg_ "model_args" in
      let* t := yaml_getitem cfg_ "training_args" in
      let* t' := yaml_getitem cfg_ "training_args" in
      let* e := yaml_getitem t' "max_epochs" in
      let args' :=
        {| config := config args;
           prev_ckpt := prev_ckpt args;
           resume := resume args;
           version := version args;
           log_dir := log_dir args;
           fast_dev_run := fast_dev_run args;
           pre := pre args;
           gpus := gpus args;
           logger := logger args;
           uid := uid args;
           model_args := Some m;
           training_args := Some t;
           max_epochs := Some e |} in
      let* _ := print_json env args' in
      Ok args'.

(** [args["model_args"]] on [args.__dict__]: an attribute that was never set
    is a missing key. *)
Definition dict_attr (o : option yaml) : result yaml :=
  match o with
  | Some v => Ok v
  | None => Raise KeyError
  end.

(** [args.max_epochs]: reading an attribute that was never set. *)
Definition getattr_ (o : option yaml) : result yaml :=
  match o with
  | Some v => Ok v
  | None => Raise AttributeError
  end.

(** [prepare_model], lines 28-39. *)
Definition prepare_model (env : TrainEnv) (args : Namespace) : result unit :=
  let prev := prev_ckpt args in
  let* m := dict_attr (model_args args) in
  let* enc := yaml_getitem m "encoder" in
  let* encoder_config := new_EncoderConfig env enc in
  let* m' := dict_attr (model_args args) in
  let* dec := yaml_getitem m' "decoder" in
  let* decoder_config := new_DecoderConfig env dec in
  let* tr := dict_attr (training_args args) in
  let* training_config := new_TrainingConfig env tr in
  if truthy prev then new_VIDNetPLWrapper env prev
  else new_VIDNetPLWrapper env None.

Inductive Logger : Type :=
  | TensorBoardLogger (save_dir version_ : string) (name_ : option string) (log_graph : bool)
  | WandbLogger (project save_dir version_ name_ log_model : string).

(** [prepare_logger], lines 42-78. *)
Definition prepare_logger (env : TrainEnv) (args : Namespace)
  : result (option Logger * option string) :=
  if fast_dev_run args then Ok (None, None)
  else
    let logger_method := default "tensorboard" (logger args) in
    let args_log_dir := fmt (log_dir args) in
    let args_version := version args in
    if bool_decide (logger_method = "tensorboard") then
      let lg := TensorBoardLogger (getcwd env) ("version_" +:+ args_version) (log_dir args) true in
      let log_path := args_log_dir +:+ "/version_" +:+ args_version in
      Ok (Some lg, Some log_path)
    else if bool_decide (logger_method = "wandb") then
      let log_path := args_log_dir +:+ "/version_" +:+ args_version in
      let wandb_path := log_path +:+ "/wandb" in
      let* _ := if negb (path_exists env wandb_path) then makedirs env wandb_path else Ok () in
      let run_uid := if truthy (uid args) then fmt (uid args) else generate_id env in
      let lg := WandbLogger "vidnet" log_path
                  ("version_" +:+ args_version +:+ "_" +:+ run_uid)
                  ("vidnet_" +:+ args_version +:+ "_" +:+ run_uid) "all" in
      Ok (Some lg, Some wandb_path)
    else Raise NotImplementedError.

(** The callbacks and the [Trainer], as the keyword arguments they are
    constructed with. *)
Record ModelCheckpoint : Type := {
  dirpath : string;
  monitor : string;
  filename : string;
  verbose : bool;
  save_last : bool;
  save_top_k : Z;
  mode : string
}.

Inductive Callback : Type :=
  | ModelSummary (max_depth : Z)
  | TQDMProgressBar (refresh_rate : Z)
  | ModelCheckpointCb (mc : ModelCheckpoint)
  | LearningRateMonitor (logging_interval : string).

Inductive devices_arg : Type :=
  | DevicesInt (n : Z)
  | DevicesAuto
  | DevicesList (l : list Z).

Record Trainer : Type := {
  accelerator : string;
  devices : devices_arg;
  tr_max_epochs : option yaml;
  tr_logger : option Logger;
  callbacks : list Callback;
  tr_fast_dev_run : bool;
  enable_checkpointing : bool;
  log_every_n_steps : Z
}.

(** [train], lines 81-115, up to the call of [trainer.fit]: the [Trainer]
    that is constructed and the [ckpt_path] that [fit] is called with. *)
Definition train (env : TrainEnv) (args : Namespace) : result (Trainer * option string) :=
  let* model := prepare_model env args in
  let* (logger_, log_path) := prepare_logger env args in
  let lr_monitor := LearningRateMonitor "step" in
  let model_ckpt :=
    {| dirpath := fmt log_path +:+ "/checkpoints";
       monitor := "val_f1";
       filename := (if negb (bool_decide (pre args = "")) then pre args +:+ "-" else "")
                   +:+ "{epoch:02d}-{val_f1:.4f}-{val_jaccard:.4f}";
       verbose := true;
       save_last := true;
       save_top_k := 2;
       mode := "max" |} in
  let callbacks_ :=
    if fast_dev_run args then []
    else [ModelSummary (-1); TQDMProgressBar 1; ModelCheckpointCb model_ckpt; lr_monitor] in
  let num_gpus :=
    if fast_dev_run args then DevicesInt 1
    else match gpus args with
         | GpusDefault => DevicesAuto
         | GpusList l => DevicesList l
         end in
  let* max_epochs_ := getattr_ (max_epochs args) in
  let trainer :=
    {| accelerator := "auto";
       devices := num_gpus;
       tr_max_epochs := Some max_epochs_;
       tr_logger := logger_;
       callbacks := callbacks_;
       tr_fast_dev_run := fast_dev_run args;
       enable_checkpointing := negb (fast_dev_run args);
       log_every_n_steps := 10 |} in
  Ok (trainer, if resume args then prev_ckpt args else None).

(** ** Vocabulary of the statements *)

Global Instance result_eq_dec {A} `{EqDecision A} : EqDecision (result A).
Proof. solve_decision. Defined.

(** [f x] for each [x] of [l] in turn, stopping at the first exception. *)
Fixpoint result_mapM {A B} (f : A → result B) (l : list A) : result (list B) :=
  match l with
  | [] => Ok []
  | x :: l' =>
      let* y := f x in
      let* ys := result_mapM f l' in
      Ok (y :: ys)
  end.

(** The elements of the underlying list that a filter with lambdas [fs]
    lets through. *)
Definition accepted (w : World) (c : Cfg) (fs : list lambda_) (s : DbSequence) : Prop :=
  accepts w c fs s = Ok true.

Global Instance accepted_dec w c fs s : Decision (accepted w c fs s).
Proof. unfold accepted. apply _. Defined.

(** No lambda raises on any element of [rest]. *)
Definition total_on (w : World) (c : Cfg) (fs : list lambda_) (rest : list DbSequence) : Prop :=
  Forall (λ s, is_Ok (accepts w c fs s)) rest.

(** The frame number written in the name of the file at index [i]. *)
Definition frame_at (images : list string) (i : Z) : result Z :=
  let* path := py_index images i in
  frame_number path.

(** The starting frames "parsed from the file basenames at indices
    [0], [L], [2L], ..., [(n - 1) * L]". *)
Definition expected_starting_frames (images : list string) (L : Z) (n : nat) : result (list Z) :=
  result_mapM (λ i : nat, frame_at images (Z.of_nat i * L)) (seq 0 n).

(** The number of clips one sequence with [num_frames] frames gives rise to. *)
Definition clip_count (num_frames L : Z) : nat := Z.to_nat (Z.max 1 (num_frames / L)).

(** The starting frames of the clips of one object, in the order in which
    they are appended. *)
Definition clip_starting_frames (numframes : BaseLoader → Z → Z) (L : Z) (obj : BaseLoader)
  : result (list Z) :=
  let* sf0 := frame_at (files obj) 0 in
  let* q := int_truediv (numframes obj sf0) L in
  let* more := result_mapM (λ i : nat, frame_at (files obj) (Z.of_nat i * L))
                           (seq 1 (Z.to_nat (q - 1))) in
  Ok (sf0 :: more).

(** A sequence and its annotation are cut into clips alike. *)
Definition aligned (w : World) (L : Z) (seq_ annot : BaseLoader) : Prop :=
  clip_starting_frames (SequenceClip_simple_numframes w) L seq_
  = clip_starting_frames (AnnotationClip_simple_numframes w) L annot.

Global Instance aligned_dec w L seq_ annot : Decision (aligned w L seq_ annot).
Proof. unfold aligned. apply _. Defined.

(** The sequences [db_read_sequences(y, p)] is meant to select: those of
    year at most [int(y)] in set [p] whose directory exists, and, for
    [phase.TRAINVAL], those of year at most [int(y)] in set [phase.VAL] or
    [phase.TRAIN]. *)
Definition selected_by_phase (w : World) (c : Cfg) (y : Z) (p : pyval) (s : DbSequence) : Prop :=
  s_year s ≤ y
  ∧ py_eq (s_set s) p = true
  ∧ isdir w (osp_join (PATH_SEQUENCES (PATH c)) (s_name s)) = true.

Definition selected_trainval (y : Z) (s : DbSequence) : Prop :=
  s_year s ≤ y
  ∧ (py_eq (s_set s) (PPhase VAL) = true ∨ py_eq (s_set s) (PPhase TRAIN) = true).

Global Instance selected_by_phase_dec w c y p s : Decision (selected_by_phase w c y p s).
Proof. unfold selected_by_phase. apply _. Defined.

Global Instance selected_trainval_dec y s : Decision (selected_trainval y s).
Proof. unfold selected_trainval. apply _. Defined.

(** [parse_args]: the two files whose absence is checked for, the log
    directory being there or creatable, and the namespace that is returned. *)
Definition missing_file (env : TrainEnv) (args : Namespace) : bool :=
  negb (path_exists env (config args))
  || (truthy (prev_ckpt args) && negb (path_exists env (fmt (prev_ckpt args)))).

Definition log_dir_ready (env : TrainEnv) (args : Namespace) : Prop :=
  truthy (log_dir args) && negb (path_isdir env (fmt (log_dir args))) = true →
  makedirs env (fmt (log_dir args)) = Ok ().

(** The config file parses to a mapping with [model_args = m],
    [training_args = t] and [training_args.max_epochs = e]. *)
Definition config_has (env : TrainEnv) (args : Namespace) (m t e : yaml) : Prop :=
  ∃ cfg_, load_yaml env (config args) = Ok cfg_
    ∧ yaml_getitem cfg_ "model_args" = Ok m
    ∧ yaml_getitem cfg_ "training_args" = Ok t
    ∧ yaml_getitem t "max_epochs" = Ok e.

Definition extended (args : Namespace) (m t e : yaml) : Namespace :=
  {| config := config args;
     prev_ckpt := prev_ckpt args;
     resume := resume args;
     version := version args;
     log_dir := log_dir args;
     fast_dev_run := fast_dev_run args;
     pre := pre args;
     gpus := gpus args;
     logger := logger args;
     uid := uid args;
     model_args := Some m;
     training_args := Some t;
     max_epochs := Some e |}.

(** ** Further methods and module-level code *)

(** [d[key]] on the items of a dict, for any hashable key: a key matches when
    it is [==] to the one looked up (equal values hash alike); a [Sequence]
    object is equal to itself only. *)
Definition key_matches (key : pyval) (k : dict_key) : bool :=
  match k with
  | KVal v => py_eq v key
  | KObj _ => false
  end.

Definition dict_getitem_any (d : list (dict_key * Z)) (key : pyval) : result Z :=
  match list_find (λ kv, key_matches key kv.1 = true) d with
  | Some (_, (_, v)) => Ok v
  | None => Raise KeyError
  end.

(** [l[i]] where [i] is any value: only an [int] can index a list. *)
Definition list_getitem {A} (l : list A) (i : pyval) : result A :=
  if isinstance_int i then py_index l (int_value i) else Raise TypeError.

(** [sequence_name_to_id], davis2017.py lines 249-251. *)
Definition sequence_name_to_id (name_ : pyval) : Method Z :=
  λ self, (dict_getitem_any (_keys self) name_, self).

(** [sequence_name_to_id_clip], lines 253-255. *)
Definition sequence_name_to_id_clip (name_ : pyval) : Method Z :=
  λ self, (keys_clips_getitem (_keys_clips self) name_, self).

(** [sequence_id_to_name_clip], lines 261-263: it returns the clip object. *)
Definition sequence_id_to_name_clip (sid : pyval) : Method SequenceClipObj :=
  λ self, (list_getitem (sequence_clips self) sid, self).

(** [iternames_clips], lines 270-273, run to its end. *)
Definition iternames_clips : Method (list SequenceClipObj) :=
  λ self, (Ok (sequence_clips self), self).

(** The key under which a clip is entered in [_keys_clips] (line 212):
    [s.name + str(s.starting_frame)]. *)
Definition clip_key (cl : SequenceClipObj) : string :=
  clip_name cl +:+ pretty (clip_starting_frame cl).

(** config.py line 117:
    [dict([(sequence.name, sequence) for sequence in db_read_sequences()])]. *)
Definition load_SEQUENCES (w : World) (c : Cfg) : result (gmap string DbSequence) :=
  let* sq := db_read_sequences w c PNone PNone in
  let* l := yields w c sq in
  Ok (foldl (λ d s, <[s_name s := s]> d) ∅ l).

(** *** misc/timer.py.  [time.time()] is a reading of the clock handed to the
    method that takes it; the type [T] of readings and their subtraction
    [fsub] (floating-point in Python) are left open. *)
Record Timer (T : Type) : Type := { _start : option T }.
Arguments _start {T} _.

(** [Timer.__init__] *)
Definition Timer_init {T} : Timer T := {| _start := None |}.

(** [tic]: [self._start = time.time(); return self] *)
Definition tic {T} (now : T) (self : Timer T) : Timer T := {| _start := Some now |}.

(** [toc]: [assert self._start != None]; [return time.time() - self._start] *)
Definition toc {T} (fsub : T → T → T) (now : T) (self : Timer T) : result T :=
  match _start self with
  | None => Raise AssertionError
  | Some t0 => Ok (fsub now t0)
  end.

(** ** Concrete inputs used by the examples below *)

(** The configuration as config.py sets it up (paths shortened). *)
Definition demo_cfg : Cfg :=
  {| N_JOBS := 32;
     PATH := {| PATH_ROOT := "/VIDNet";
                PATH_DATA := "/databases/DAVIS2016";
                PATH_ORIGINAL := "/databases/DAVIS2016/JPEGImages/480p";
                PATH_SEQUENCES2 := "/#FIXME/model/Deep-Video-Inpainting/results/vi_davis";
                PATH_SEQUENCES := "/#FIXME/model/opn-demo/vi_davis";
                PATH_FLOW := "../../flownet2-pytorch/result/inference/run.epoch-0-flow-field";
                PATH_ANNOTATIONS := "/databases/DAVIS2016/Annotations/480p";
                PATH_PALETTE := "/VIDNet/src/dataloader/palette.txt" |};
     RESOLUTION := "480p";
     YEAR := "2016";
     PHASE := VAL;
     MULTIOBJECT := true;
     FILES := {| FILES_DB_INFO := "/VIDNet/src/dataloader/db_info.yaml" |};
     EVAL := {| EVAL_METRICS := ["J"; "F"]; EVAL_STATISTICS := ["mean"; "recall"; "decay"] |};
     SEQUENCES := ∅;
     palette := [(0, 0, 0); (128, 0, 0)] |}.

Definition bear : DbSequence :=
  {| s_name := "bear"; s_year := 2016; s_set := PStr "train"; s_num_frames := 4 |}.
Definition cows : DbSequence :=
  {| s_name := "cows"; s_year := 2016; s_set := PStr "val"; s_num_frames := 3 |}.
Definition camel : DbSequence :=
  {| s_name := "camel"; s_year := 2017; s_set := PStr "train"; s_num_frames := 2 |}.
Definition demo_info : list DbSequence := [bear; cows; camel].

(** [dir/00000.png], [dir/00001.png], ... *)
Definition frame_files (dir : string) (n : nat) : list string :=
  (λ i : nat, dir +:+ "/0000" +:+ pretty i +:+ ".png") <$> seq 0 n.

(** A data set in which [bear] has four frames of which only the first two
    are annotated, and [camel] has two annotated frames. *)
Definition demo_frames (n : string) : nat :=
  if bool_decide (n = "bear") then 4%nat
  else if bool_decide (n = "camel") then 2%nat
  else 3%nat.

Definition demo_annotated (n : string) : nat :=
  if bool_decide (n = "bear") then 2%nat
  else if bool_decide (n = "camel") then 2%nat
  else 3%nat.

Definition demo_world : World :=
  {| isdir := λ p, bool_decide (p ∈ [osp_join SEQUENCES_train "bear";
                                     osp_join SEQUENCES_train "camel";
                                     osp_join SEQUENCES_val "cows"]);
     glob_png := λ d, reverse (frame_files d 2);
     read_db_info := λ _, Ok demo_info;
     new_Sequence := λ _ n _ _,
       Ok {| name := n;
             files := frame_files ("/seq/" +:+ n) (demo_frames n);
             _numframes := Z.of_nat (demo_frames n) |};
     new_Annotation := λ _ n _ _,
       Ok {| name := n;
             files := frame_files ("/ann/" +:+ n) (demo_annotated n);
             _numframes := Z.of_nat (demo_annotated n) |};
     SequenceClip_simple_numframes := λ seq _, _numframes seq;
     AnnotationClip_simple_numframes := λ annot _, _numframes annot;
     new_RandomAffine := λ _ _ _ _ _, Ok () |}.

Definition demo_args (L : Z) : Args :=
  {| arg_year := PStr "2017";
     arg_single_object := false;
     arg_length_clip := L;
     arg_gt_maxseqlen := 10;
     arg_dataset := "davis2017";
     arg_rotation := PyObj 1;
     arg_translation := PyObj 2;
     arg_shear := PyObj 3;
     arg_zoom := PyObj 4 |}.

(** [DAVISLoader(args, split='train')] with the defaults of the other
    keyword arguments. *)
Definition demo_init (L : Z) : Cfg * result DAVISLoader :=
  DAVISLoader_init demo_world demo_cfg (demo_args L) false (PStr "train") true false false.

(** The objects [demo_world] constructs. *)
Definition bear_seq : BaseLoader :=
  {| name := "bear"; files := frame_files "/seq/bear" 4; _numframes := 4 |}.
Definition camel_seq : BaseLoader :=
  {| name := "camel"; files := frame_files "/seq/camel" 2; _numframes := 2 |}.
Definition bear_annot : BaseLoader :=
  {| name := "bear"; files := frame_files "/ann/bear" 2; _numframes := 2 |}.
Definition camel_annot : BaseLoader :=
  {| name := "camel"; files := frame_files "/ann/camel" 2; _numframes := 2 |}.

(** A data set in which every frame is annotated. *)
Definition full_world : World :=
  {| isdir := isdir demo_world;
     glob_png := glob_png demo_world;
     read_db_info := read_db_info demo_world;
     new_Sequence := new_Sequence demo_world;
     new_Annotation := λ _ n _ _,
       Ok {| name := n;
             files := frame_files ("/ann/" +:+ n) (demo_frames n);
             _numframes := Z.of_nat (demo_frames n) |};
     SequenceClip_simple_numframes := λ seq _, _numframes seq;
     AnnotationClip_simple_numframes := λ annot _, _numframes annot;
     new_RandomAffine := new_RandomAffine demo_world |}.

Definition full_init (L : Z) : Cfg * result DAVISLoader :=
  DAVISLoader_init full_world demo_cfg (demo_args L) false (PStr "train") true false false.

(** The loader a call of the constructor returned (an empty loader if it
    raised). *)
Definition empty_loader : DAVISLoader :=
  {| _year := PStr "2017"; _phase := PStr "train"; _single_object := false;
     _length_clip := 1; split := PStr "train"; video_mode := true; max_seq_len := 1;
     dataset := "davis2017"; flip := false; use_prev_mask := false; ela := false;
     augmentation_transform := None; _db_sequences := PyList [];
     sequences := []; annotations := []; sequence_clips := []; annotation_clips := [];
     _keys := []; _keys_clips := ∅ |}.

Definition loader_of (r : Cfg * result DAVISLoader) : DAVISLoader :=
  match snd r with
  | Ok self => self
  | Raise _ => empty_loader
  end.

(** A working directory with a config file and a checkpoint. *)
Definition demo_model_args : yaml :=
  YMap (list_to_map [("encoder", YMap ∅); ("decoder", YMap ∅)]).
Definition demo_training_args : yaml :=
  YMap (list_to_map [("max_epochs", YInt 50)]).
Definition demo_yaml : yaml :=
  YMap (list_to_map [("model_args", demo_model_args); ("training_args", demo_training_args)]).

Definition demo_env : TrainEnv :=
  {| path_exists := λ p, bool_decide (p ∈ ["config.yaml"; "last.ckpt"; "lightning_logs/vidnet"]);
     path_isdir := λ p, bool_decide (p = "lightning_logs/vidnet");
     makedirs := λ _, Ok ();
     getcwd := "/work";
     load_yaml := λ p, if bool_decide (p = "config.yaml") then Ok demo_yaml
                       else Raise FileNotFoundError;
     generate_id := "a1b2c3d4";
     print_json := λ _, Ok ();
     new_EncoderConfig := λ _, Ok ();
     new_DecoderConfig := λ _, Ok ();
     new_TrainingConfig := λ _, Ok ();
     new_VIDNetPLWrapper := λ _, Ok () |}.

(** The namespace [main] builds for
    [train.py -c config_ [-p prev] [-r] [-f]]. *)
Definition demo_namespace (config_ : string) (prev : option string) (resume_ fast : bool)
  : Namespace :=
  {| config := config_;
     prev_ckpt := prev;
     resume := resume_;
     version := "0";
     log_dir := Some "lightning_logs/vidnet";
     fast_dev_run := fast;
     pre := "";
     gpus := GpusDefault;
     logger := Some "tensorboard";
     uid := None;
     model_args := None;
     training_args := None;
     max_epochs := None |}.

(** [DAVISLoader(args, split='train', use_prev_mask=True)] on [demo_world]. *)
Definition prev_mask_init (L : Z) : Cfg * result DAVISLoader :=
  DAVISLoader_init demo_world demo_cfg (demo_args L) false (PStr "train") true true false.

(** The [Trainer] that [train] constructs in [demo_env] for a run that is
    not a [fast_dev_run]. *)
Definition demo_trainer : Trainer :=
  {| accelerator := "auto"; devices := DevicesAuto; tr_max_epochs := Some (YInt 50);
     tr_logger := Some (TensorBoardLogger "/work" "version_0"
                          (Some "lightning_logs/vidnet") true);
     callbacks :=
       [ModelSummary (-1); TQDMProgressBar 1;
        ModelCheckpointCb
          {| dirpath := "lightning_logs/vidnet/version_0/checkpoints";
             monitor := "val_f1";
             filename := "{epoch:02d}-{val_f1:.4f}-{val_jaccard:.4f}";
             verbose := true; save_last := true; save_top_k := 2; mode := "max" |};
        LearningRateMonitor "step"];
     tr_fast_dev_run := false; enable_checkpointing := true;
     log_every_n_steps := 10 |}.

(** A world in which the value [PyObj 0] is no number ([None], say):
    [args.zoom*2] raises. *)
Definition no_zoom_world : World :=
  {| isdir := isdir demo_world;
     glob_png := glob_png demo_world;
     read_db_info := read_db_info demo_world;
     new_Sequence := new_Sequence demo_world;
     new_Annotation := new_Annotation demo_world;
     SequenceClip_simple_numframes := SequenceClip_simple_numframes demo_world;
     AnnotationClip_simple_numframes := AnnotationClip_simple_numframes demo_world;
     new_RandomAffine := λ _ _ _ z _,
       if bool_decide (z = PyObj 0) then Raise TypeError else Ok () |}.

(** A data set with the directories [train/bear] and [val/ghost], in which
    the db-info file lists [ghost] after [bear], both in the set ['train']. *)
Definition ghost : DbSequence :=
  {| s_name := "ghost"; s_year := 2016; s_set := PStr "train"; s_num_frames := 3 |}.

Definition ghost_world : World :=
  {| isdir := λ p, bool_decide (p ∈ [osp_join SEQUENCES_train "bear";
                                     osp_join SEQUENCES_val "ghost"]);
     glob_png := glob_png demo_world;
     read_db_info := λ _, Ok [bear; ghost];
     new_Sequence := new_Sequence demo_world;
     new_Annotation := new_Annotation demo_world;
     SequenceClip_simple_numframes := SequenceClip_simple_numframes demo_world;
     AnnotationClip_simple_numframes := AnnotationClip_simple_numframes demo_world;
     new_RandomAffine := new_RandomAffine demo_world |}.

(** [DAVISLoader(args, split='train')], and then, with the [cfg] it left,
    [DAVISLoader(args, split='val')]. *)
Definition ghost_init_train : Cfg * result DAVISLoader :=
  DAVISLoader_init ghost_world demo_cfg (demo_args 2) false (PStr "train") true false false.

Definition ghost_init_val : Cfg * result DAVISLoader :=
  DAVISLoader_init ghost_world (fst ghost_init_train) (demo_args 2) false (PStr "val")
    true false false.

(** A config file whose [training_args] hold a date, which the YAML loader
    reads as a [datetime.date], and a [print_json] that, like [json.dumps],
    does not serialize a date among the training arguments. *)
Definition dated_training_args : yaml :=
  YMap (list_to_map [("max_epochs", YInt 50); ("started", YDate "2024-01-01")]).
Definition dated_yaml : yaml :=
  YMap (list_to_map [("model_args", demo_model_args); ("training_args", dated_training_args)]).

Definition is_date (y : yaml) : bool :=
  match y with YDate _ => true | _ => false end.

Definition dated_env : TrainEnv :=
  {| path_exists := path_exists demo_env;
     path_isdir := path_isdir demo_env;
     makedirs := makedirs demo_env;
     getcwd := getcwd demo_env;
     load_yaml := λ _, Ok dated_yaml;
     generate_id := generate_id demo_env;
     print_json := λ ns,
       match training_args ns with
       | Some (YMap m) =>
           if existsb (λ kv, is_date (snd kv)) (map_to_list m) then Raise TypeError
           else Ok ()
       | _ => Ok ()
       end;
     new_EncoderConfig := new_EncoderConfig demo_env;
     new_DecoderConfig := new_DecoderConfig demo_env;
     new_TrainingConfig := new_TrainingConfig demo_env;
     new_VIDNetPLWrapper := new_VIDNetPLWrapper demo_env |}.

(** * Properties *)

(** ** Sanity checks of the string and list primitives *)

Example basename_ex : basename "/data/bear/00012.png" = "00012.png".
Proof. reflexivity. Qed.
Example splitext_ex : splitext "00012.png" = ("00012", ".png").
Proof. reflexivity. Qed.
Example splitext_hidden : splitext "/a.b/.bashrc" = ("/a.b/.bashrc", "").
Proof. reflexivity. Qed.
Example splitext_dots : splitext "..x.tar.gz" = ("..x.tar", ".gz").
Proof. reflexivity. Qed.
Example frame_number_ex : frame_number "/data/bear/00012.png" = Ok 12.
Proof. reflexivity. Qed.
Example frame_number_bad : frame_number "/data/bear/frame.png" = Raise ValueError.
Proof. reflexivity. Qed.
Example py_int_ex : py_int " -1_000 " = Ok (-1000) ∧ py_int "1__0" = Raise ValueError
                    ∧ py_int "" = Raise ValueError ∧ py_int "2017" = Ok 2017.
Proof. repeat split; reflexivity. Qed.
Example py_int_separators :
  py_int (String "011" (String "012" "2017")) = Ok 2017
  ∧ py_int (String "028" "2017") = Raise ValueError
  ∧ py_int (String "031" "2017") = Raise ValueError.
Proof. repeat split; reflexivity. Qed.
Example osp_join_ex : osp_join "/a/b" "c" = "/a/b/c" ∧ osp_join "/a/" "c" = "/a/c"
                      ∧ osp_join "/a" "/c" = "/c".
Proof. repeat split; reflexivity. Qed.
Example py_index_ex : py_index [10; 20; 30] (-1) = Ok 30 ∧ py_index [10; 20; 30] 3 = Raise IndexError.
Proof. split; reflexivity. Qed.

(** ** The error monad *)

Lemma rbind_Ok {A B} (m : result A) (k : A → result B) (b : B) :
  rbind m k = Ok b ↔ ∃ a, m = Ok a ∧ k a = Ok b.
Proof.
  destruct m as [a|e]; simpl; split.
  - intros H. by exists a.
  - by intros (a' & [= <-] & H).
  - done.
  - by intros (a' & [=] & _).
Qed.

Lemma py_index_Ok {A} (l : list A) (i : Z) (x : A) :
  py_index l i = Ok x ↔
  ∃ j : nat, l !! j = Some x ∧
             (Z.of_nat j = if i <? 0 then i + Z.of_nat (List.length l) else i).
Proof.
  unfold py_index. set (n := Z.of_nat (List.length l)).
  set (j := if i <? 0 then i + n else i). split.
  - destruct (Z.leb_spec 0 j); simpl; [|done].
    destruct (Z.ltb_spec j n); simpl; [|done].
    destruct (l !! Z.to_nat j) eqn:Hl; [|done].
    intros [= <-]. exists (Z.to_nat j). split; [done|]. lia.
  - intros (k & Hk & Hj). rewrite <- Hj.
    pose proof (lookup_lt_Some _ _ _ Hk) as Hlt.
    destruct (Z.leb_spec 0 (Z.of_nat k)); [|lia].
    destruct (Z.ltb_spec (Z.of_nat k) n); [|unfold n in *; lia].
    simpl. by rewrite Nat2Z.id, Hk.
Qed.

Lemma py_index_nat {A} (l : list A) (j : nat) :
  py_index l (Z.of_nat j) = match l !! j with Some x => Ok x | None => Raise IndexError end.
Proof.
  unfold py_index.
  destruct (Z.ltb_spec (Z.of_nat j) 0); [lia|].
  destruct (Z.leb_spec 0 (Z.of_nat j)); [|lia].
  rewrite Nat2Z.id. simpl.
  destruct (l !! j) eqn:Hl.
  - apply lookup_lt_Some in Hl.
    by destruct (Z.ltb_spec (Z.of_nat j) (Z.of_nat (List.length l))); [|lia].
  - by destruct (Z.of_nat j <? _).
Qed.

(** ** [cfg] after [__init__] *)

(** C9.  [DAVISLoader.__init__] writes [cfg.PATH.SEQUENCES] and nothing else
    of the global [cfg]: the new value is the [.../vi_davis/val] path when
    [split == 'val'] and the [.../vi_davis/train] path for every other split
    (whether or not the constructor goes on to raise), and every other field,
    among them [cfg.PATH.ANNOTATIONS], [cfg.PATH.DATA] and [cfg.SEQUENCES], keeps
    its value. *)
Theorem init_writes_only_PATH_SEQUENCES (w : World) (c : Cfg) (args : Args)
    (augment : bool) (split_ : pyval) (vm pm ue : bool) :
  let c' := fst (DAVISLoader_init w c args augment split_ vm pm ue) in
  PATH_SEQUENCES (PATH c') =
    (if py_eq split_ (PStr "val")
     then "/vulcan/scratch/pengzhou/model/Deep-Video-Inpainting/results" +:+ "/vi_davis/val"
     else "/vulcan/scratch/pengzhou/model/opn-demo" +:+ "/vi_davis/train")
  ∧ c' = set_PATH_SEQUENCES (PATH_SEQUENCES (PATH c')) c
  ∧ PATH_ROOT (PATH c') = PATH_ROOT (PATH c)
  ∧ PATH_DATA (PATH c') = PATH_DATA (PATH c)
  ∧ PATH_ORIGINAL (PATH c') = PATH_ORIGINAL (PATH c)
  ∧ PATH_SEQUENCES2 (PATH c') = PATH_SEQUENCES2 (PATH c)
  ∧ PATH_FLOW (PATH c') = PATH_FLOW (PATH c)
  ∧ PATH_ANNOTATIONS (PATH c') = PATH_ANNOTATIONS (PATH c)
  ∧ PATH_PALETTE (PATH c') = PATH_PALETTE (PATH c)
  ∧ N_JOBS c' = N_JOBS c
  ∧ RESOLUTION c' = RESOLUTION c
  ∧ YEAR c' = YEAR c
  ∧ PHASE c' = PHASE c
  ∧ MULTIOBJECT c' = MULTIOBJECT c
  ∧ FILES c' = FILES c
  ∧ EVAL c' = EVAL c
  ∧ SEQUENCES c' = SEQUENCES c
  ∧ palette c' = palette c.
Proof.
  unfold DAVISLoader_init. cbv zeta. cbn [fst].
  destruct (py_eq split_ (PStr "val")); cbn; repeat split; reflexivity.
Qed.

(** ** [get_raw_sample] and [get_raw_sample_clip] *)

Lemma InputError_unbound : eval_name "InputError" = Raise NameError.
Proof. reflexivity. Qed.

(** C8.  With a key that is neither a [str] nor an [int], [get_raw_sample] and
    [get_raw_sample_clip] do not return: evaluating [raise InputError()] raises
    [NameError], the name [InputError] being bound neither in the module nor
    among the builtins. *)
Theorem get_raw_sample_bad_key_NameError (self : DAVISLoader) (key : pyval) :
  isinstance_str key = false →
  isinstance_int key = false →
  fst (get_raw_sample key self) = Raise NameError
  ∧ fst (get_raw_sample_clip key self) = Raise NameError.
Proof.
  intros Hs Hi. unfold get_raw_sample, get_raw_sample_clip. cbn [fst].
  rewrite Hs, Hi. unfold raise_InputError. rewrite InputError_unbound. done.
Qed.

Lemma get_raw_sample_bad_key_NameError_witness :
  fst (get_raw_sample PNone (loader_of (demo_init 2))) = Raise NameError
  ∧ fst (get_raw_sample_clip PNone (loader_of (demo_init 2))) = Raise NameError.
Proof.
  apply (get_raw_sample_bad_key_NameError (loader_of (demo_init 2)) PNone); reflexivity.
Defined.

(** ** Filters *)

Lemma result_mapM_Ok {A B} (f : A → result B) (l : list A) (ys : list B) :
  result_mapM f l = Ok ys ↔ Forall2 (λ x y, f x = Ok y) l ys.
Proof.
  revert ys. induction l as [|x l IH]; intros ys; simpl.
  - split; [intros [= <-]; constructor | by inversion 1].
  - rewrite rbind_Ok. split.
    + intros (y & Hy & H). apply rbind_Ok in H as (ys' & Hys & [= <-]).
      constructor; [done | by apply IH].
    + inversion 1 as [|? y ? ys' Hy Hys]; subst. exists y. split; [done|].
      apply rbind_Ok. exists ys'. split; [by apply IH | done].
Qed.

Lemma result_mapM_length {A B} (f : A → result B) (l : list A) (ys : list B) :
  result_mapM f l = Ok ys → List.length ys = List.length l.
Proof. rewrite result_mapM_Ok. intros H. symmetry. by eapply Forall2_length. Qed.

Lemma filter_accepted_cons (w : World) (c : Cfg) (fs : list lambda_) (s : DbSequence)
    (rest : list DbSequence) (b : bool) :
  accepts w c fs s = Ok b →
  filter (accepted w c fs) (s :: rest)
  = if b then s :: filter (accepted w c fs) rest else filter (accepted w c fs) rest.
Proof.
  intros Hb. destruct b.
  - by rewrite filter_cons_True.
  - rewrite filter_cons_False; [done|]. unfold accepted. by rewrite Hb.
Qed.

Lemma drain_total (w : World) (c : Cfg) (fs : list lambda_) (rest : list DbSequence) :
  total_on w c fs rest →
  drain w c fs rest = (Ok (filter (accepted w c fs) rest), []).
Proof.
  induction 1 as [|s rest [b Hb] _ IH]; simpl; [done|].
  rewrite Hb, IH. simpl. rewrite (filter_accepted_cons _ _ _ _ _ _ Hb). by destruct b.
Qed.

Lemma drain_Ok_total (w : World) (c : Cfg) (fs : list lambda_) (rest ss : list DbSequence) :
  fst (drain w c fs rest) = Ok ss → total_on w c fs rest.
Proof.
  revert ss. induction rest as [|s rest IH]; intros ss; simpl; [constructor|].
  destruct (accepts w c fs s) as [b|e] eqn:Hb; [|done].
  destruct (drain w c fs rest) as [r remaining] eqn:Hd. simpl.
  intros H. apply rbind_Ok in H as (tl & -> & _).
  constructor; [by exists b | by eapply IH].
Qed.

Lemma filter_next_total (w : World) (c : Cfg) (fs : list lambda_) (rest : list DbSequence) :
  total_on w c fs rest →
  match filter (accepted w c fs) rest with
  | [] => ∃ rest', filter_next w c fs rest = Ok (None, rest')
                   ∧ filter (accepted w c fs) rest' = [] ∧ total_on w c fs rest'
  | s :: tl => ∃ rest', filter_next w c fs rest = Ok (Some s, rest')
                   ∧ filter (accepted w c fs) rest' = tl ∧ total_on w c fs rest'
  end.
Proof.
  induction 1 as [|s rest [b Hb] Hrest IH]; simpl.
  - exists []. repeat split. constructor.
  - rewrite (filter_accepted_cons _ _ _ _ _ _ Hb), Hb. simpl.
    destruct b; [|done]. by exists rest.
Qed.

Lemma comprehension_Ok {B} (w : World) (c : Cfg) (body : DbSequence → result B)
    (fs : list lambda_) (rest : list DbSequence) (xs : list B) :
  comprehension w c body fs rest = Ok xs →
  total_on w c fs rest
  ∧ Forall2 (λ s x, body s = Ok x) (filter (accepted w c fs) rest) xs.
Proof.
  revert xs. induction rest as [|s rest IH]; intros xs; simpl.
  - intros [= <-]. split; constructor.
  - rewrite rbind_Ok. intros (b & Hb & H).
    rewrite (filter_accepted_cons _ _ _ _ _ _ Hb). destruct b.
    + apply rbind_Ok in H as (x & Hx & H). apply rbind_Ok in H as (xs' & Hxs & [= <-]).
      destruct (IH _ Hxs) as [Ht HF].
      split; constructor; eauto. by exists true.
    + destruct (IH _ H) as [Ht HF].
      split; [constructor|]; eauto. by exists false.
Qed.

(** ** [db_read_sequences] *)

Lemma py_eq_TRAINVAL (p : pyval) : py_eq p (PPhase TRAINVAL) = true ↔ p = PPhase TRAINVAL.
Proof.
  destruct p as [|b|z|s|q]; simpl; try (split; [done | discriminate]).
  rewrite bool_decide_eq_true. split; congruence.
Qed.

Lemma accepts_year_phase (w : World) (c : Cfg) (y p : pyval) (yz : Z) (s : DbSequence) :
  py_int_of y = Ok yz →
  accepts w c [LamYear y; LamPhase p] s
  = Ok ((s_year s <=? yz)
        && (py_eq (s_set s) p && isdir w (osp_join (PATH_SEQUENCES (PATH c)) (s_name s)))).
Proof.
  intros Hy. simpl. rewrite Hy. simpl.
  destruct (s_year s <=? yz); simpl; [|done].
  by destruct (py_eq _ _), (isdir _ _).
Qed.

Lemma accepts_year_trainval (w : World) (c : Cfg) (y : pyval) (yz : Z) (s : DbSequence) :
  py_int_of y = Ok yz →
  accepts w c [LamYear y; LamTrainVal] s
  = Ok ((s_year s <=? yz)
        && (py_eq (s_set s) (PPhase VAL) || py_eq (s_set s) (PPhase TRAIN))).
Proof.
  intros Hy. simpl. rewrite Hy. simpl.
  destruct (s_year s <=? yz); simpl; [|done].
  by destruct (py_eq _ (PPhase VAL)), (py_eq _ (PPhase TRAIN)).
Qed.

(** C3 (amended).  With a year [y] that [int] accepts (hence not [None])
    and a [db_phase] [p] other than [None]: if [p != phase.TRAINVAL],
    iterating [db_read_sequences(y, p)] yields, in the order of the db-info
    file, exactly the sequences [s] with [int(s.year) <= int(y)],
    [s.set == p] and an existing directory [cfg.PATH.SEQUENCES/s.name]; if
    [p == phase.TRAINVAL] it yields exactly those with
    [int(s.year) <= int(y)] whose set is [phase.VAL] or [phase.TRAIN],
    whatever directories exist. *)
Theorem db_read_sequences_yields (w : World) (c : Cfg) (y p : pyval) (yz : Z)
    (info : list DbSequence) :
  read_db_info w (FILES_DB_INFO (FILES c)) = Ok info →
  py_int_of y = Ok yz →
  p ≠ PNone →
  ∃ sq, db_read_sequences w c y p = Ok sq
    ∧ (py_eq p (PPhase TRAINVAL) = false →
       yields w c sq = Ok (filter (selected_by_phase w c yz p) info))
    ∧ (p = PPhase TRAINVAL →
       yields w c sq = Ok (filter (selected_trainval yz) info)).
Proof.
  intros Hinfo Hy Hp.
  assert (y ≠ PNone) as Hy' by (intros ->; discriminate).
  unfold db_read_sequences, db_read_info_sequences. rewrite Hinfo. simpl.
  rewrite !bool_decide_eq_true_2 by done.
  eexists; split; [reflexivity|]. split.
  - intros Hne. rewrite Hne. simpl.
    rewrite drain_total.
    + simpl. f_equal. apply list_filter_iff. intros s. unfold accepted, selected_by_phase.
      rewrite (accepts_year_phase _ _ _ _ _ _ Hy).
      destruct (Z.leb_spec (s_year s) yz); simpl.
      * destruct (py_eq (s_set s) p), (isdir w _); simpl; intuition (done || congruence).
      * split; [done | lia].
    + apply Forall_forall. intros s _. rewrite (accepts_year_phase _ _ _ _ _ _ Hy). by eexists.
  - intros ->. simpl.
    rewrite drain_total.
    + simpl. f_equal. apply list_filter_iff. intros s. unfold accepted, selected_trainval.
      rewrite (accepts_year_trainval _ _ _ _ _ Hy).
      destruct (Z.leb_spec (s_year s) yz); simpl.
      * destruct (py_eq (s_set s) (PPhase VAL)), (py_eq (s_set s) (PPhase TRAIN)); simpl;
          intuition (done || congruence).
      * split; [done | lia].
    + apply Forall_forall. intros s _. rewrite (accepts_year_trainval _ _ _ _ _ Hy). by eexists.
Qed.

Lemma db_read_sequences_yields_witness :
  ∃ sq, db_read_sequences demo_world (set_PATH_SEQUENCES SEQUENCES_train demo_cfg)
          (PStr "2017") (PStr "train") = Ok sq
    ∧ (py_eq (PStr "train") (PPhase TRAINVAL) = false →
       yields demo_world (set_PATH_SEQUENCES SEQUENCES_train demo_cfg) sq
       = Ok (filter (selected_by_phase demo_world (set_PATH_SEQUENCES SEQUENCES_train demo_cfg)
                       2017 (PStr "train")) demo_info))
    ∧ (PStr "train" = PPhase TRAINVAL →
       yields demo_world (set_PATH_SEQUENCES SEQUENCES_train demo_cfg) sq
       = Ok (filter (selected_trainval 2017) demo_info)).
Proof.
  apply (db_read_sequences_yields demo_world (set_PATH_SEQUENCES SEQUENCES_train demo_cfg)
           (PStr "2017") (PStr "train") 2017 demo_info); [reflexivity | reflexivity | discriminate].
Defined.

(** C3 as stated, for every year, fails: with the default year [None] the
    sequences are not compared by year at all ([int(None)] is a [TypeError],
    yet ['train'] yields [bear] and [camel]); and with a year that is a
    [str] [int] rejects, [db_read_sequences] returns an iterable that yields
    nothing: iterating it raises [ValueError]. *)
Lemma db_read_sequences_year_counterexample :
  let c := set_PATH_SEQUENCES SEQUENCES_train demo_cfg in
  (py_int_of PNone = Raise TypeError
   ∧ ∃ sq, db_read_sequences demo_world c PNone (PStr "train") = Ok sq
       ∧ yields demo_world c sq = Ok [bear; camel])
  ∧ (py_int_of (PStr "DAVIS-2017") = Raise ValueError
     ∧ ∃ sq, db_read_sequences demo_world c (PStr "DAVIS-2017") (PStr "train") = Ok sq
         ∧ yields demo_world c sq = Raise ValueError).
Proof.
  split; (split; [reflexivity|]); eexists; (split; [reflexivity|]); vm_compute; reflexivity.
Qed.

Example db_read_sequences_train :
  filter (selected_by_phase demo_world (set_PATH_SEQUENCES SEQUENCES_train demo_cfg)
            2017 (PStr "train")) demo_info = [bear; camel].
Proof. vm_compute. reflexivity. Qed.

(** ** Cutting one sequence into clips *)

Lemma result_mapM_ext {A B} (f g : A → result B) (l : list A) :
  (∀ x, x ∈ l → f x = g x) → result_mapM f l = result_mapM g l.
Proof.
  induction l as [|x l IH]; intros H; simpl; [done|].
  rewrite (H x) by left. rewrite IH; [done|]. intros y Hy. apply H. by right.
Qed.

Lemma result_mapM_fmap {A B C} (f : B → result C) (g : A → B) (l : list A) :
  result_mapM f (g <$> l) = result_mapM (f ∘ g) l.
Proof. induction l as [|x l IH]; csimpl; [done|]. by rewrite IH. Qed.

Lemma more_clips_spec {C} (mk : Z → C) (images : list string) (L : Z) (n : nat)
    (idx : Z) (clips : list C) :
  more_clips mk images L n idx clips
  = let* more := result_mapM (λ i : nat, frame_at images (idx + Z.of_nat i * L)) (seq 1 n) in
    Ok (clips ++ (mk <$> more))%list.
Proof.
  revert idx clips. induction n as [|n IH]; intros idx clips.
  - simpl. by rewrite app_nil_r.
  - cbn [more_clips seq result_mapM].
    replace (idx + Z.of_nat 1 * L) with (idx + L) by lia. unfold frame_at at 1.
    destruct (py_index images (idx + L)) as [path|e]; simpl; [|done].
    destruct (frame_number path) as [sf|e]; simpl; [|done].
    rewrite IH. rewrite <- (fmap_S_seq 1 n), result_mapM_fmap.
    rewrite (result_mapM_ext (λ i : nat, frame_at images (idx + L + Z.of_nat i * L))
               ((λ i : nat, frame_at images (idx + Z.of_nat i * L)) ∘ S)).
    2:{ intros i _. simpl. f_equal. lia. }
    destruct (result_mapM _ _) as [more|e]; simpl; [|done].
    by rewrite <- app_assoc.
Qed.

Lemma simple_clips_spec {C} (mk : BaseLoader → Z → C) (numframes : BaseLoader → Z → Z)
    (L : Z) (obj : BaseLoader) (clips : list C) :
  simple_clips mk numframes L obj clips
  = let* starts := clip_starting_frames numframes L obj in
    Ok (clips ++ (mk obj <$> starts))%list.
Proof.
  unfold simple_clips, clip_starting_frames, frame_at at 1.
  destruct (py_index (files obj) 0) as [path|e]; simpl; [|done].
  destruct (frame_number path) as [sf0|e]; simpl; [|done].
  destruct (int_truediv _ L) as [q|e]; simpl; [|done].
  rewrite more_clips_spec.
  erewrite (result_mapM_ext _ (λ i : nat, frame_at (files obj) (Z.of_nat i * L))).
  2:{ intros i _. f_equal. }
  destruct (result_mapM _ _) as [more|e]; simpl; [|done].
  by rewrite <- app_assoc.
Qed.

Lemma clip_count_quot (num_frames L : Z) :
  1 ≤ L → clip_count num_frames L = S (Z.to_nat (Z.quot num_frames L - 1)).
Proof.
  intros HL. unfold clip_count.
  destruct (Z.le_gt_cases 0 num_frames) as [Hn|Hn].
  - rewrite Z.quot_div_nonneg by lia.
    pose proof (Z.div_pos num_frames L Hn ltac:(lia)). lia.
  - assert (num_frames / L < 1) by (apply Z.div_lt_upper_bound; lia).
    assert (Z.quot num_frames L ≤ 0).
    { rewrite <- (Z.opp_involutive num_frames), Z.quot_opp_l by lia.
      pose proof (Z.quot_pos (- num_frames) L ltac:(lia) ltac:(lia)). lia. }
    lia.
Qed.

(** For a clip length of at least one, the clips of one object start at the
    frames named by the files at indices [0], [L], ..., and there are
    [max(1, floor(num_frames / L))] of them. *)
Lemma clip_starting_frames_expected (numframes : BaseLoader → Z → Z) (L : Z)
    (obj : BaseLoader) (sf0 : Z) :
  1 ≤ L →
  frame_at (files obj) 0 = Ok sf0 →
  clip_starting_frames numframes L obj
  = expected_starting_frames (files obj) L (clip_count (numframes obj sf0) L).
Proof.
  intros HL H0. unfold clip_starting_frames, expected_starting_frames.
  rewrite H0. simpl. unfold int_truediv.
  destruct (Z.eqb_spec L 0); [lia|]. simpl.
  rewrite clip_count_quot by done. cbn [seq result_mapM].
  replace (Z.of_nat 0 * L) with 0 by lia. rewrite H0. done.
Qed.

Lemma expected_starting_frames_lookup (images : list string) (L : Z) (n : nat)
    (starts : list Z) :
  expected_starting_frames images L n = Ok starts →
  List.length starts = n
  ∧ ∀ i : nat, (i < n)%nat →
      ∃ path z, py_index images (Z.of_nat i * L) = Ok path
                ∧ frame_number path = Ok z ∧ starts !! i = Some z.
Proof.
  unfold expected_starting_frames. intros H.
  pose proof (result_mapM_length _ _ _ H) as Hlen. rewrite length_seq in Hlen.
  split; [done|]. intros i Hi.
  apply result_mapM_Ok in H.
  destruct (Forall2_lookup_l _ _ _ i i H) as (z & Hz & Hf).
  { by apply lookup_seq. }
  unfold frame_at in Hf. apply rbind_Ok in Hf as (path & Hp & Hfn). eauto.
Qed.

(** ** The two [zip] loops of [__init__] *)

Lemma sequence_clips_loop_simple (w : World) (c : Cfg) (ph : pyval) (L : Z)
    (lmdb : option string) (fs : list lambda_) (seqs : list BaseLoader) :
  ∀ (rest : list DbSequence) (clips clips' : list SequenceClipObj) (rest' : list DbSequence),
  total_on w c fs rest →
  List.length seqs = List.length (filter (accepted w c fs) rest) →
  sequence_clips_loop w c ph L false lmdb seqs fs rest clips = Ok (clips', rest') →
  ∃ startss,
    Forall2 (λ seq_ starts,
               clip_starting_frames (SequenceClip_simple_numframes w) L seq_ = Ok starts)
            seqs startss
    ∧ clips' = (clips ++ List.concat (zip_with (λ seq_ starts, SequenceClip_simple seq_ <$> starts)
                                         seqs startss))%list
    ∧ filter (accepted w c fs) rest' = [] ∧ total_on w c fs rest'.
Proof.
  induction seqs as [|seq_ seqs IH]; intros rest clips clips' rest' Ht Hlen; simpl.
  - intros [= <- <-]. exists []. simpl. rewrite app_nil_r.
    split; [constructor|]. split; [done|]. split; [|done].
    symmetry in Hlen. by apply nil_length_inv in Hlen.
  - pose proof (filter_next_total w c fs rest Ht) as Hn.
    destruct (filter (accepted w c fs) rest) as [|s tl]; [done|].
    destruct Hn as (rest1 & -> & Htl & Ht1). simpl.
    rewrite simple_clips_spec.
    destruct (clip_starting_frames _ L seq_) as [starts|e] eqn:Hst; simpl; [|done].
    intros H. simpl in Hlen.
    destruct (IH rest1 _ _ _ Ht1 ltac:(rewrite Htl; lia) H) as (startss & HF & -> & Hr & Hr').
    exists (starts :: startss). split; [by constructor|].
    split; [|done]. simpl. by rewrite <- !app_assoc.
Qed.

Lemma annotation_clips_loop_spec (w : World) (c : Cfg) (L : Z)
    (fs : list lambda_) (annots : list BaseLoader) :
  ∀ (rest : list DbSequence) (clips clips' : list AnnotationClipObj) (rest' : list DbSequence),
  total_on w c fs rest →
  List.length annots = List.length (filter (accepted w c fs) rest) →
  annotation_clips_loop w c L annots fs rest clips = Ok (clips', rest') →
  ∃ startss,
    Forall2 (λ annot starts,
               clip_starting_frames (AnnotationClip_simple_numframes w) L annot = Ok starts)
            annots startss
    ∧ clips' = (clips ++ List.concat (zip_with (λ annot starts, AnnotationClip_simple annot <$> starts)
                                         annots startss))%list
    ∧ filter (accepted w c fs) rest' = [] ∧ total_on w c fs rest'.
Proof.
  induction annots as [|annot annots IH]; intros rest clips clips' rest' Ht Hlen; simpl.
  - intros [= <- <-]. exists []. simpl. rewrite app_nil_r.
    split; [constructor|]. split; [done|]. split; [|done].
    symmetry in Hlen. by apply nil_length_inv in Hlen.
  - pose proof (filter_next_total w c fs rest Ht) as Hn.
    destruct (filter (accepted w c fs) rest) as [|s tl]; [done|].
    destruct Hn as (rest1 & -> & Htl & Ht1). simpl.
    rewrite simple_clips_spec.
    destruct (clip_starting_frames _ L annot) as [starts|e] eqn:Hst; simpl; [|done].
    intros H. simpl in Hlen.
    destruct (IH rest1 _ _ _ Ht1 ltac:(rewrite Htl; lia) H) as (startss & HF & -> & Hr & Hr').
    exists (starts :: startss). split; [by constructor|].
    split; [|done]. simpl. by rewrite <- !app_assoc.
Qed.

(** ** What [__init__] establishes *)

Lemma db_read_sequences_filter (w : World) (c : Cfg) (year p : pyval) (sq : pyseq) :
  year ≠ PNone →
  db_read_sequences w c year p = Ok sq →
  ∃ fs info, sq = PyFilter {| fi_funs := fs; fi_rest := info |}.
Proof.
  intros Hy. unfold db_read_sequences. rewrite rbind_Ok. intros (info & _ & H).
  rewrite !(bool_decide_eq_true_2 (year ≠ PNone)) in H by done. simpl in H.
  destruct (bool_decide (p ≠ PNone)); [destruct (py_eq p _)|]; injection H as <-; eauto.
Qed.

(** The facts about a loader that came out of [__init__]. *)
Lemma init_Ok (w : World) (c : Cfg) (args : Args) (augment : bool) (split_ : pyval)
    (vm pm ue : bool) (c' : Cfg) (self : DAVISLoader) :
  DAVISLoader_init w c args augment split_ vm pm ue = (c', Ok self) →
  ∃ fs info rest' lmdb_s lmdb_a,
    total_on w c' fs info
    ∧ Forall2 (λ s x, new_Sequence w split_ (s_name s) "*.png" lmdb_s = Ok x)
              (filter (accepted w c' fs) info) (sequences self)
    ∧ Forall2 (λ s x, new_Annotation w split_ (s_name s) (arg_single_object args) lmdb_a = Ok x)
              (filter (accepted w c' fs) info) (annotations self)
    ∧ (pm = false →
       ∃ startss,
         Forall2 (λ seq_ starts,
                    clip_starting_frames (SequenceClip_simple_numframes w)
                      (arg_length_clip args) seq_ = Ok starts)
                 (sequences self) startss
         ∧ sequence_clips self
           = List.concat (zip_with (λ seq_ starts, SequenceClip_simple seq_ <$> starts)
                              (sequences self) startss))
    ∧ (∃ startss,
         Forall2 (λ annot starts,
                    clip_starting_frames (AnnotationClip_simple_numframes w)
                      (arg_length_clip args) annot = Ok starts)
                 (annotations self) startss
         ∧ annotation_clips self
           = List.concat (zip_with (λ annot starts, AnnotationClip_simple annot <$> starts)
                              (annotations self) startss))
    ∧ _db_sequences self = PyFilter {| fi_funs := fs; fi_rest := rest' |}
    ∧ filter (accepted w c' fs) rest' = []
    ∧ total_on w c' fs rest'
    ∧ _keys self = zip (KObj <$> sequences self) (range_len (sequences self)).
Proof.
  unfold DAVISLoader_init. intros [= Hc H]. rewrite Hc in H.
  apply rbind_Ok in H as (aug & _ & H).
  destruct (negb _) eqn:Hassert; [done|].
  destruct (_ && _) eqn:Hsingle in H; [done|].
  apply rbind_Ok in H as (db & Hdb & H).
  assert (arg_year args ≠ PNone) as Hy.
  { intros Hn. rewrite Hn in Hassert. done. }
  destruct (db_read_sequences_filter _ _ _ _ _ Hy Hdb) as (fs & info & ->).
  rewrite Hdb in H. exists fs, info.
  destruct (isdir w _ && isdir w _);
    (apply rbind_Ok in H as (seqs & Hseqs & H);
     apply rbind_Ok in H as (db2 & [= <-] & H);
     apply rbind_Ok in H as (annots & Hannots & H);
     apply rbind_Ok in H as (db3 & [= <-] & H);
     apply rbind_Ok in H as ([sclips rest3] & Hsc & H);
     apply rbind_Ok in H as (db4 & [= <-] & H);
     apply rbind_Ok in H as ([aclips rest4] & Hac & H);
     injection H as <-; cbn -[clip_starting_frames];
     simpl in Hseqs, Hannots, Hsc, Hac;
     apply comprehension_Ok in Hseqs as [Ht HFs];
     apply comprehension_Ok in Hannots as [_ HFa];
     pose proof (Forall2_length _ _ _ HFs) as Hls;
     pose proof (Forall2_length _ _ _ HFa) as Hla;
     apply annotation_clips_loop_spec in Hac as (ast & HFast & -> & Hr & Hr'); [|done|done];
     exists rest4; eexists; eexists;
     split; [done|]; split; [exact HFs|]; split; [exact HFa|];
     split; [|split; [by exists ast|done]];
     intros ->;
     apply sequence_clips_loop_simple in Hsc as (sst & HFsst & -> & _); [|done|done];
     by exists sst).
Qed.

(** ** Clips per sequence *)

Lemma clip_starting_frames_Ok (numframes : BaseLoader → Z → Z) (L : Z) (obj : BaseLoader)
    (starts : list Z) :
  1 ≤ L →
  clip_starting_frames numframes L obj = Ok starts →
  ∃ sf0, frame_at (files obj) 0 = Ok sf0
    ∧ expected_starting_frames (files obj) L (clip_count (numframes obj sf0) L) = Ok starts
    ∧ List.length starts = clip_count (numframes obj sf0) L.
Proof.
  intros HL H.
  destruct (frame_at (files obj) 0) as [sf0|e] eqn:H0.
  - rewrite (clip_starting_frames_expected _ _ _ sf0 HL H0) in H.
    exists sf0. split; [done|]. split; [done|].
    by apply expected_starting_frames_lookup in H as [? _].
  - unfold clip_starting_frames in H. by rewrite H0 in H.
Qed.

(** C1 (amended).  When [__init__] returns, with [use_prev_mask = False] and a
    clip length [L >= 1], [self.sequence_clips] is, sequence after sequence, the
    list of [SequenceClip_simple] objects of that sequence whose starting frames
    are the integers parsed from the file basenames at indices [0], [L], [2L],
    ... of the sequence's file list, and there are [max(1, floor(num_frames /
    L))] of them for each sequence; likewise [self.annotation_clips] with the
    annotations and [AnnotationClip_simple]. *)
Theorem init_clips_per_sequence (w : World) (c : Cfg) (args : Args) (augment : bool)
    (split_ : pyval) (vm ue : bool) (c' : Cfg) (self : DAVISLoader) :
  1 ≤ arg_length_clip args →
  DAVISLoader_init w c args augment split_ vm false ue = (c', Ok self) →
  let L := arg_length_clip args in
  (∃ startss,
     Forall2 (λ seq_ starts,
                ∃ sf0, frame_at (files seq_) 0 = Ok sf0
                  ∧ expected_starting_frames (files seq_) L
                      (clip_count (SequenceClip_simple_numframes w seq_ sf0) L) = Ok starts
                  ∧ List.length starts = clip_count (SequenceClip_simple_numframes w seq_ sf0) L)
             (sequences self) startss
     ∧ sequence_clips self
       = List.concat (zip_with (λ seq_ starts, SequenceClip_simple seq_ <$> starts)
                          (sequences self) startss))
  ∧ (∃ startss,
     Forall2 (λ annot starts,
                ∃ sf0, frame_at (files annot) 0 = Ok sf0
                  ∧ expected_starting_frames (files annot) L
                      (clip_count (AnnotationClip_simple_numframes w annot sf0) L) = Ok starts
                  ∧ List.length starts = clip_count (AnnotationClip_simple_numframes w annot sf0) L)
             (annotations self) startss
     ∧ annotation_clips self
       = List.concat (zip_with (λ annot starts, AnnotationClip_simple annot <$> starts)
                          (annotations self) startss)).
Proof.
  intros HL Hinit L.
  destruct (init_Ok _ _ _ _ _ _ _ _ _ _ Hinit)
    as (fs & info & rest' & ls & la & _ & _ & _ & Hs & Ha & _).
  destruct (Hs eq_refl) as (sst & HFs & Hsc). destruct Ha as (ast & HFa & Hac).
  split.
  - exists sst. split; [|done].
    eapply Forall2_impl; [exact HFs|]. intros seq_ starts H.
    by apply clip_starting_frames_Ok.
  - exists ast. split; [|done].
    eapply Forall2_impl; [exact HFa|]. intros annot starts H.
    by apply clip_starting_frames_Ok.
Qed.

Lemma init_clips_per_sequence_witness :
  let self := loader_of (demo_init 2) in
  (∃ startss,
     Forall2 (λ seq_ starts,
                ∃ sf0, frame_at (files seq_) 0 = Ok sf0
                  ∧ expected_starting_frames (files seq_) 2
                      (clip_count (SequenceClip_simple_numframes demo_world seq_ sf0) 2) = Ok starts
                  ∧ List.length starts = clip_count (SequenceClip_simple_numframes demo_world seq_ sf0) 2)
             (sequences self) startss
     ∧ sequence_clips self
       = List.concat (zip_with (λ seq_ starts, SequenceClip_simple seq_ <$> starts)
                          (sequences self) startss))
  ∧ (∃ startss,
     Forall2 (λ annot starts,
                ∃ sf0, frame_at (files annot) 0 = Ok sf0
                  ∧ expected_starting_frames (files annot) 2
                      (clip_count (AnnotationClip_simple_numframes demo_world annot sf0) 2) = Ok starts
                  ∧ List.length starts = clip_count (AnnotationClip_simple_numframes demo_world annot sf0) 2)
             (annotations self) startss
     ∧ annotation_clips self
       = List.concat (zip_with (λ annot starts, AnnotationClip_simple annot <$> starts)
                          (annotations self) startss)).
Proof.
  apply (init_clips_per_sequence demo_world demo_cfg (demo_args 2) false (PStr "train")
           true false (fst (demo_init 2)) (loader_of (demo_init 2))).
  - simpl. lia.
  - vm_compute. reflexivity.
Defined.

Example demo_sequence_clips :
  sequence_clips (loader_of (demo_init 2))
  = [SequenceClip_simple bear_seq 0; SequenceClip_simple bear_seq 2;
     SequenceClip_simple camel_seq 0].
Proof. vm_compute. reflexivity. Qed.

(** C1 as stated fails: with a clip length of 5, the four-frame sequence
    [bear] (and the two-frame sequence [camel]) still gets one clip, while
    [floor(4 / 5) = 0]. *)
Lemma floor_clip_count_counterexample :
  (let* self := snd (demo_init 5) in Ok (sequences self, sequence_clips self))
  = Ok ([bear_seq; camel_seq], [SequenceClip_simple bear_seq 0; SequenceClip_simple camel_seq 0])
  ∧ SequenceClip_simple_numframes demo_world bear_seq 0 = 4
  ∧ 4 / 5 = 0
  ∧ simple_clips SequenceClip_simple (SequenceClip_simple_numframes demo_world) 5 bear_seq []
    = Ok [SequenceClip_simple bear_seq 0].
Proof. split_and!; vm_compute; reflexivity. Qed.

(** ** Pairs of clips *)

Lemma starts_functional (w : World) (L : Z) (seqs annots : list BaseLoader)
    (sst ast : list (list Z)) :
  Forall2 (aligned w L) seqs annots →
  Forall2 (λ seq_ starts,
             clip_starting_frames (SequenceClip_simple_numframes w) L seq_ = Ok starts)
          seqs sst →
  Forall2 (λ annot starts,
             clip_starting_frames (AnnotationClip_simple_numframes w) L annot = Ok starts)
          annots ast →
  sst = ast.
Proof.
  intros Hal. revert sst ast.
  induction Hal as [|seq_ annot seqs annots Ha _ IH]; intros sst ast Hs Ht.
  - inversion Hs. by inversion Ht.
  - inversion Hs as [|? s1 ? sst' Hs1 Hs']; subst.
    inversion Ht as [|? a1 ? ast' Ha1 Ha']; subst.
    f_equal; [|by apply IH]. unfold aligned in Ha. congruence.
Qed.

Lemma paired_concat_length (seqs annots : list BaseLoader) (sst : list (list Z)) :
  List.length seqs = List.length annots →
  List.length (List.concat (zip_with (λ seq_ starts, SequenceClip_simple seq_ <$> starts) seqs sst))
  = List.length (List.concat (zip_with (λ annot starts, AnnotationClip_simple annot <$> starts)
                                   annots sst)).
Proof.
  revert annots sst. induction seqs as [|seq_ seqs IH]; intros [|annot annots] [|starts sst];
    simpl; try done.
  intros [= Hlen]. rewrite !length_app, !length_fmap. f_equal. by apply IH.
Qed.

Lemma paired_concat_lookup (seqs annots : list BaseLoader) (sst : list (list Z)) (n : nat)
    (i : SequenceClipObj) :
  List.length seqs = List.length annots →
  List.concat (zip_with (λ seq_ starts, SequenceClip_simple seq_ <$> starts) seqs sst) !! n
  = Some i →
  ∃ (j : nat) seq_ annot sf,
    seqs !! j = Some seq_ ∧ annots !! j = Some annot
    ∧ i = SequenceClip_simple seq_ sf
    ∧ List.concat (zip_with (λ annot starts, AnnotationClip_simple annot <$> starts) annots sst)
      !! n = Some (AnnotationClip_simple annot sf).
Proof.
  revert annots sst n. induction seqs as [|seq_ seqs IH]; intros [|annot annots] [|starts sst] n;
    simpl; try done.
  intros [= Hlen] Hn. apply lookup_app_Some in Hn as [Hn|[Hge Hn]].
  - apply list_lookup_fmap_Some in Hn as (sf & -> & Hsf).
    exists 0%nat, seq_, annot, sf. repeat split.
    apply lookup_app_l_Some. by rewrite list_lookup_fmap, Hsf.
  - rewrite length_fmap in Hge, Hn.
    destruct (IH annots sst _ Hlen Hn) as (j & s & a & sf & Hs & Ha & -> & Hl).
    exists (S j), s, a, sf. repeat split; try done.
    rewrite lookup_app_r; rewrite length_fmap; done.
Qed.

(** C2 (amended).  For a loader that [__init__] returned with
    [use_prev_mask = False], on a data set in which every sequence and its
    annotation are cut into clips alike (as many clips, starting at the same
    frame numbers), and for every [int] key [k] that is a valid index of
    [self.sequence_clips]: [get_raw_sample_clip(k)] returns the record whose
    ['images'] field is [self.sequence_clips[k]] and whose ['annotations'] field
    is [self.annotation_clips[k]], and these two clips were made from the
    [Sequence] and the [Annotation] of the same db-info entry and have the same
    starting frame. *)
Theorem get_raw_sample_clip_pairs (w : World) (c : Cfg) (args : Args) (augment : bool)
    (split_ : pyval) (vm ue : bool) (c' : Cfg) (self : DAVISLoader)
    (k : pyval) (i : SequenceClipObj) :
  DAVISLoader_init w c args augment split_ vm false ue = (c', Ok self) →
  Forall2 (aligned w (arg_length_clip args)) (sequences self) (annotations self) →
  isinstance_int k = true →
  py_index (sequence_clips self) (int_value k) = Ok i →
  ∃ a,
    py_index (annotation_clips self) (int_value k) = Ok a
    ∧ get_raw_sample_clip k self = (Ok {| images := i; sample_annotations := a |}, self)
    ∧ ∃ (j : nat) s seq_ annot sf lmdb_s lmdb_a,
        sequences self !! j = Some seq_
        ∧ annotations self !! j = Some annot
        ∧ new_Sequence w split_ (s_name s) "*.png" lmdb_s = Ok seq_
        ∧ new_Annotation w split_ (s_name s) (arg_single_object args) lmdb_a = Ok annot
        ∧ i = SequenceClip_simple seq_ sf
        ∧ a = AnnotationClip_simple annot sf.
Proof.
  intros Hinit Hal Hk Hi.
  destruct (init_Ok _ _ _ _ _ _ _ _ _ _ Hinit)
    as (fs & info & rest' & ls & la & _ & HFs & HFa & Hs & Ha & _).
  destruct (Hs eq_refl) as (sst & HFsst & Hsc). destruct Ha as (ast & HFast & Hac).
  assert (sst = ast) as -> by (by eapply starts_functional).
  assert (List.length (sequences self) = List.length (annotations self)) as Hlen
    by (by eapply Forall2_length).
  apply py_index_Ok in Hi as (n & Hn & Hnk).
  rewrite Hsc in Hn.
  destruct (paired_concat_lookup _ _ _ _ _ Hlen Hn) as (j & seq_ & annot & sf & Hj & Hj' & -> & Hl).
  rewrite <- Hac in Hl.
  assert (py_index (annotation_clips self) (int_value k) = Ok (AnnotationClip_simple annot sf))
    as Hpa.
  { apply py_index_Ok. exists n. split; [done|].
    rewrite Hnk, Hsc, Hac. by rewrite (paired_concat_length _ _ _ Hlen). }
  assert (py_index (sequence_clips self) (int_value k) = Ok (SequenceClip_simple seq_ sf))
    as Hps.
  { apply py_index_Ok. exists n. split; [by rewrite Hsc | done]. }
  exists (AnnotationClip_simple annot sf). split; [done|]. split.
  - unfold get_raw_sample_clip.
    destruct k; try done; cbn [isinstance_str isinstance_int rbind]; by rewrite Hps, Hpa.
  - destruct (Forall2_lookup_r _ _ _ _ _ HFs Hj) as (s & Hsj & Hns).
    destruct (Forall2_lookup_r _ _ _ _ _ HFa Hj') as (s' & Hsj' & Hna).
    assert (s' = s) as -> by congruence.
    exists j, s, seq_, annot, sf, ls, la. done.
Qed.

Lemma get_raw_sample_clip_pairs_witness :
  let self := loader_of (full_init 2) in
  ∃ a,
    py_index (annotation_clips self) (int_value (PInt 1)) = Ok a
    ∧ get_raw_sample_clip (PInt 1) self
      = (Ok {| images := SequenceClip_simple bear_seq 2; sample_annotations := a |}, self)
    ∧ ∃ (j : nat) s seq_ annot sf lmdb_s lmdb_a,
        sequences self !! j = Some seq_
        ∧ annotations self !! j = Some annot
        ∧ new_Sequence full_world (PStr "train") (s_name s) "*.png" lmdb_s = Ok seq_
        ∧ new_Annotation full_world (PStr "train") (s_name s)
            (arg_single_object (demo_args 2)) lmdb_a = Ok annot
        ∧ SequenceClip_simple bear_seq 2 = SequenceClip_simple seq_ sf
        ∧ a = AnnotationClip_simple annot sf.
Proof.
  apply (get_raw_sample_clip_pairs full_world demo_cfg (demo_args 2) false (PStr "train")
           true false (fst (full_init 2)) (loader_of (full_init 2)) (PInt 1)
           (SequenceClip_simple bear_seq 2)).
  - vm_compute. reflexivity.
  - apply (bool_decide_unpack _). vm_compute. exact I.
  - reflexivity.
  - vm_compute. reflexivity.
Defined.

(** C2 as stated fails when frames and annotations are not in step: [bear]
    has four frames and two annotated frames, so with clips of length two the
    clip at index 1 is the second clip of [bear] while the annotation clip at
    index 1 is the first one of [camel]. *)
Lemma clip_pairs_counterexample :
  fst (get_raw_sample_clip (PInt 1) (loader_of (demo_init 2)))
  = Ok {| images := SequenceClip_simple bear_seq 2;
          sample_annotations := AnnotationClip_simple camel_annot 0 |}
  ∧ snd (demo_init 2) = Ok (loader_of (demo_init 2))
  ∧ py_index (sequence_clips (loader_of (demo_init 2))) 1 = Ok (SequenceClip_simple bear_seq 2)
  ∧ py_index (annotation_clips (loader_of (demo_init 2))) 1
    = Ok (AnnotationClip_simple camel_annot 0)
  ∧ name bear_seq ≠ name camel_annot
  ∧ clip_starting_frame (SequenceClip_simple bear_seq 2)
    ≠ annotation_clip_starting_frame (AnnotationClip_simple camel_annot 0).
Proof.
  split_and!; try (vm_compute; reflexivity).
  - vm_compute. discriminate.
  - vm_compute. discriminate.
Qed.

(** ** [self._db_sequences] after [__init__] *)

(** C7 (amended).  After [__init__] has returned, [self._db_sequences] is
    the filter object created last, advanced by the [zip] that built
    [annotation_clips] past everything it lets through: as long as
    [cfg.PATH.SEQUENCES] and the directories are what they were when
    [__init__] returned, [iternames()] yields no element (also when it is
    called again); and [sequence_id_to_name(sid)] raises [TypeError] for every
    [sid], before and after such a call, a filter object not being
    subscriptable. *)
Theorem db_sequences_used_up (w : World) (c : Cfg) (args : Args) (augment : bool)
    (split_ : pyval) (vm pm ue : bool) (c' : Cfg) (self : DAVISLoader) :
  DAVISLoader_init w c args augment split_ vm pm ue = (c', Ok self) →
  (∃ it, _db_sequences self = PyFilter it)
  ∧ fst (iternames w c' self) = Ok []
  ∧ fst (iternames w c' (snd (iternames w c' self))) = Ok []
  ∧ ∀ sid, fst (sequence_id_to_name sid self) = Raise TypeError
           ∧ fst (sequence_id_to_name sid (snd (iternames w c' self))) = Raise TypeError.
Proof.
  intros Hinit.
  destruct (init_Ok _ _ _ _ _ _ _ _ _ _ Hinit)
    as (fs & info & rest' & ls & la & _ & _ & _ & _ & _ & Hdb & Hnone & Htot & _).
  split; [by eexists|].
  unfold iternames, sequence_id_to_name. rewrite Hdb. simpl.
  rewrite (drain_total _ _ _ _ Htot), Hnone. simpl.
  repeat split; done.
Qed.

Lemma db_sequences_used_up_witness :
  let self := loader_of (demo_init 2) in
  let c' := fst (demo_init 2) in
  (∃ it, _db_sequences self = PyFilter it)
  ∧ fst (iternames demo_world c' self) = Ok []
  ∧ fst (iternames demo_world c' (snd (iternames demo_world c' self))) = Ok []
  ∧ ∀ sid, fst (sequence_id_to_name sid self) = Raise TypeError
           ∧ fst (sequence_id_to_name sid (snd (iternames demo_world c' self)))
             = Raise TypeError.
Proof.
  apply (db_sequences_used_up demo_world demo_cfg (demo_args 2) false (PStr "train")
           true false false (fst (demo_init 2)) (loader_of (demo_init 2))).
  vm_compute. reflexivity.
Defined.

(** C7 as stated, for every state reachable from [__init__], fails: the
    [zip] stops with the list of annotations, so the filter keeps the db-info
    entries after the last one it let through, and its [lambda] reads
    [cfg.PATH.SEQUENCES] when it is called.  With [bear] and [ghost] in the
    set ['train'] and the directories [train/bear] and [val/ghost], the loader
    for ['train'] holds [bear] only; once a second loader, for ['val'], has
    rewritten [cfg.PATH.SEQUENCES], [iternames()] of the first yields
    [ghost]. *)
Lemma db_sequences_counterexample :
  let self := loader_of ghost_init_train in
  snd ghost_init_train = Ok self
  ∧ name <$> sequences self = ["bear"]
  ∧ fst (iternames ghost_world (fst ghost_init_train) self) = Ok []
  ∧ is_Ok (snd ghost_init_val)
  ∧ PATH_SEQUENCES (PATH (fst ghost_init_val)) = SEQUENCES_val
  ∧ fst (iternames ghost_world (fst ghost_init_val) self) = Ok [ghost].
Proof.
  split_and!; try (vm_compute; reflexivity).
  eexists. vm_compute. reflexivity.
Qed.

(** ** Pairs of sequences *)

Lemma dict_getitem_Ok (d : list (dict_key * Z)) (key : pyval) (sid : Z) :
  dict_getitem d key = Ok sid → (KVal key, sid) ∈ d.
Proof.
  unfold dict_getitem.
  destruct (list_find _ d) as [[n [k v]]|] eqn:Hf; [|done].
  intros [= <-]. apply list_find_Some in Hf as (Hn & Hk & _). simpl in Hk. subst k.
  by eapply list_elem_of_lookup_2.
Qed.

(** The dict [_keys] that [__init__] builds has the [Sequence] objects as
    keys: no [str] is a key of it. *)
Lemma init_keys_no_str (w : World) (c : Cfg) (args : Args) (augment : bool)
    (split_ : pyval) (vm pm ue : bool) (c' : Cfg) (self : DAVISLoader) (s : string) :
  DAVISLoader_init w c args augment split_ vm pm ue = (c', Ok self) →
  fst (get_raw_sample (PStr s) self) = Raise KeyError.
Proof.
  intros Hinit.
  destruct (init_Ok _ _ _ _ _ _ _ _ _ _ Hinit)
    as (fs & info & rest' & ls & la & _ & _ & _ & _ & _ & _ & _ & _ & Hkeys).
  unfold get_raw_sample. simpl.
  destruct (dict_getitem (_keys self) (PStr s)) as [sid|e] eqn:Hd.
  - apply dict_getitem_Ok in Hd. rewrite Hkeys in Hd.
    apply elem_of_zip_l in Hd. apply list_elem_of_fmap in Hd as (o & [=] & _).
  - unfold dict_getitem in Hd. by destruct (list_find _ _) as [[? [? ?]]|]; simplify_eq.
Qed.

(** C5.  For every loader state and every key that is a [str] present in
    [self._keys] or an [int] that is a valid index: [get_raw_sample(key)]
    returns the record whose ['images'] field is [self.sequences[sid]] and whose
    ['annotations'] field is [self.annotations[sid]] for one and the same [sid]
    ([self._keys[key]] for a [str], the key itself for an [int]).  In a loader
    that [__init__] returned, the sequence and the annotation at one index were
    constructed for the same db-info entry, so the two fields belong to the same
    sequence. *)
Theorem get_raw_sample_same_index :
  (∀ (self : DAVISLoader) (key : pyval) (sid : Z) (i a : BaseLoader),
     (isinstance_str key = true ∧ dict_getitem (_keys self) key = Ok sid)
     ∨ (isinstance_int key = true ∧ sid = int_value key) →
     py_index (sequences self) sid = Ok i →
     py_index (annotations self) sid = Ok a →
     get_raw_sample key self = (Ok {| images := i; sample_annotations := a |}, self))
  ∧
  (∀ (w : World) (c : Cfg) (args : Args) (augment : bool) (split_ : pyval) (vm pm ue : bool)
     (c' : Cfg) (self : DAVISLoader) (sid : Z) (i : BaseLoader),
     DAVISLoader_init w c args augment split_ vm pm ue = (c', Ok self) →
     py_index (sequences self) sid = Ok i →
     ∃ a s lmdb_s lmdb_a,
       py_index (annotations self) sid = Ok a
       ∧ new_Sequence w split_ (s_name s) "*.png" lmdb_s = Ok i
       ∧ new_Annotation w split_ (s_name s) (arg_single_object args) lmdb_a = Ok a).
Proof.
  split.
  - intros self key sid i a Hkey Hi Ha. unfold get_raw_sample.
    destruct Hkey as [[Hs Hd]|[Hint ->]].
    + rewrite Hs, Hd. simpl. by rewrite Hi, Ha.
    + destruct key; try done; cbn [isinstance_str isinstance_int rbind]; by rewrite Hi, Ha.
  - intros w c args augment split_ vm pm ue c' self sid i Hinit Hi.
    destruct (init_Ok _ _ _ _ _ _ _ _ _ _ Hinit)
      as (fs & info & rest' & ls & la & _ & HFs & HFa & _).
    pose proof (Forall2_length _ _ _ HFs) as Hls.
    pose proof (Forall2_length _ _ _ HFa) as Hla.
    apply py_index_Ok in Hi as (n & Hn & Hnk).
    destruct (Forall2_lookup_r _ _ _ _ _ HFs Hn) as (s & Hsn & Hns).
    destruct (Forall2_lookup_l _ _ _ _ _ HFa Hsn) as (a & Han & Hna).
    exists a, s, ls, la. split; [|done].
    apply py_index_Ok. exists n. split; [done|]. rewrite Hnk. by rewrite <- Hla, Hls.
Qed.

Lemma get_raw_sample_same_index_witness :
  get_raw_sample (PInt (-1)) (loader_of (demo_init 2))
  = (Ok {| images := camel_seq; sample_annotations := camel_annot |}, loader_of (demo_init 2))
  ∧ get_raw_sample (PStr "bear")
      (with_db_sequences (PyList []) {|
         _year := PStr "2017"; _phase := PStr "train"; _single_object := false;
         _length_clip := 1; split := PStr "train"; video_mode := true; max_seq_len := 1;
         dataset := "davis2017"; flip := false; use_prev_mask := false; ela := false;
         augmentation_transform := None; _db_sequences := PyList [];
         sequences := [camel_seq; bear_seq]; annotations := [camel_annot; bear_annot];
         sequence_clips := []; annotation_clips := [];
         _keys := [(KVal (PStr "camel"), 0); (KVal (PStr "bear"), 1)]; _keys_clips := ∅ |})
    = (Ok {| images := bear_seq; sample_annotations := bear_annot |},
       with_db_sequences (PyList []) {|
         _year := PStr "2017"; _phase := PStr "train"; _single_object := false;
         _length_clip := 1; split := PStr "train"; video_mode := true; max_seq_len := 1;
         dataset := "davis2017"; flip := false; use_prev_mask := false; ela := false;
         augmentation_transform := None; _db_sequences := PyList [];
         sequences := [camel_seq; bear_seq]; annotations := [camel_annot; bear_annot];
         sequence_clips := []; annotation_clips := [];
         _keys := [(KVal (PStr "camel"), 0); (KVal (PStr "bear"), 1)]; _keys_clips := ∅ |})
  ∧ ∃ a s lmdb_s lmdb_a,
      py_index (annotations (loader_of (demo_init 2))) 0 = Ok a
      ∧ new_Sequence demo_world (PStr "train") (s_name s) "*.png" lmdb_s = Ok bear_seq
      ∧ new_Annotation demo_world (PStr "train") (s_name s)
          (arg_single_object (demo_args 2)) lmdb_a = Ok a.
Proof.
  split; [|split].
  - apply (proj1 get_raw_sample_same_index _ (PInt (-1)) (-1)).
    + right. split; reflexivity.
    + vm_compute. reflexivity.
    + vm_compute. reflexivity.
  - apply (proj1 get_raw_sample_same_index _ (PStr "bear") 1).
    + left. split; reflexivity.
    + reflexivity.
    + reflexivity.
  - apply (proj2 get_raw_sample_same_index demo_world demo_cfg (demo_args 2) false
             (PStr "train") true false false (fst (demo_init 2)) (loader_of (demo_init 2)) 0).
    + vm_compute. reflexivity.
    + vm_compute. reflexivity.
Defined.

(** ** [parse_args] *)

Lemma parse_args_missing (env : TrainEnv) (args : Namespace) :
  missing_file env args = true → parse_args env args = Raise FileNotFoundError.
Proof.
  unfold missing_file, parse_args. intros H.
  destruct (negb (path_exists env (config args))); [done|]. simpl in H. by rewrite H.
Qed.

Lemma parse_args_present (env : TrainEnv) (args : Namespace) :
  missing_file env args = false →
  log_dir_ready env args →
  parse_args env args
  = if resume args && negb (truthy (prev_ckpt args)) then Raise ValueError
    else
      let* cfg_ := load_yaml env (config args) in
      let* m := yaml_getitem cfg_ "model_args" in
      let* t := yaml_getitem cfg_ "training_args" in
      let* t' := yaml_getitem cfg_ "training_args" in
      let* e := yaml_getitem t' "max_epochs" in
      let* _ := print_json env (extended args m t e) in
      Ok (extended args m t e).
Proof.
  unfold missing_file, log_dir_ready, parse_args. intros H Hlog.
  apply orb_false_iff in H as [-> ->].
  destruct (truthy (log_dir args) && _); [rewrite Hlog by done|]; done.
Qed.

(** C4 (amended).  [parse_args] raises [FileNotFoundError] if the config
    path does not exist or a [prev_ckpt] is given whose path does not exist.
    If both files are there and the log directory exists or can be created, it
    raises [ValueError] when [resume] is set and no [prev_ckpt] is given, and
    otherwise, the YAML config being a mapping with [model_args] and
    [training_args], the latter with [max_epochs], and the extended args being
    printed as JSON without an exception, it returns the args extended with
    these, [args.max_epochs] being [config['training_args']['max_epochs']].
    With a log directory that exists or can be created, such a config and such
    a printing these are the only ways to the two exceptions:
    [FileNotFoundError] is raised if and only if one of the two files is
    missing, and [ValueError] if and only if no file is missing, [resume] is
    set and no [prev_ckpt] is given. *)
Theorem parse_args_outcome (env : TrainEnv) (args : Namespace) :
  (missing_file env args = true → parse_args env args = Raise FileNotFoundError)
  ∧ (missing_file env args = false → log_dir_ready env args →
     resume args = true → truthy (prev_ckpt args) = false →
     parse_args env args = Raise ValueError)
  ∧ (∀ m t e,
       missing_file env args = false → log_dir_ready env args →
       resume args = false ∨ truthy (prev_ckpt args) = true →
       config_has env args m t e →
       print_json env (extended args m t e) = Ok () →
       parse_args env args = Ok (extended args m t e)
       ∧ max_epochs (extended args m t e) = Some e)
  ∧ (∀ m t e,
       log_dir_ready env args → config_has env args m t e →
       print_json env (extended args m t e) = Ok () →
       (parse_args env args = Raise FileNotFoundError ↔ missing_file env args = true)
       ∧ (parse_args env args = Raise ValueError ↔
          missing_file env args = false ∧ resume args = true
          ∧ truthy (prev_ckpt args) = false)).
Proof.
  assert (∀ m t e, missing_file env args = false → log_dir_ready env args →
            config_has env args m t e →
            print_json env (extended args m t e) = Ok () →
            parse_args env args
            = if resume args && negb (truthy (prev_ckpt args)) then Raise ValueError
              else Ok (extended args m t e)) as Hpresent.
  { intros m t e Hm Hlog (cfg_ & Hl & Hma & Hta & He) Hprint.
    rewrite parse_args_present by done. rewrite Hl. simpl. rewrite Hma. simpl.
    rewrite Hta. simpl. rewrite He. simpl. by rewrite Hprint. }
  split_and!.
  - apply parse_args_missing.
  - intros Hm Hlog Hr Hp. rewrite parse_args_present by done. by rewrite Hr, Hp.
  - intros m t e Hm Hlog Hrp Hc Hprint. rewrite (Hpresent m t e) by done.
    split; [|done]. by destruct Hrp as [-> | ->]; [|rewrite andb_false_r].
  - intros m t e Hlog Hc Hprint.
    destruct (missing_file env args) eqn:Hm.
    + rewrite parse_args_missing by done. split; split; try done. by intros [? _].
    + rewrite (Hpresent m t e) by done.
      destruct (resume args), (truthy (prev_ckpt args)); simpl; split; split; try done;
        by intros (_ & ? & ?).
Qed.

Lemma parse_args_outcome_witness :
  let env := demo_env in
  let args := demo_namespace "config.yaml" (Some "last.ckpt") true false in
  parse_args env args = Ok (extended args demo_model_args demo_training_args (YInt 50))
  ∧ max_epochs (extended args demo_model_args demo_training_args (YInt 50)) = Some (YInt 50).
Proof.
  apply (proj1 (proj2 (proj2 (parse_args_outcome demo_env
           (demo_namespace "config.yaml" (Some "last.ckpt") true false))))).
  - reflexivity.
  - intros _. reflexivity.
  - right. reflexivity.
  - exists demo_yaml. split_and!; reflexivity.
  - reflexivity.
Defined.

(** C4 as stated fails: with a missing config file, [resume] set and no
    [prev_ckpt], the exception is [FileNotFoundError], not [ValueError]; with
    both files there but no [model_args] in the config, [parse_args] neither
    raises one of the two exceptions nor returns; and with a config that has
    all three entries and a date among its [training_args], printing the
    extended args raises [TypeError]. *)
Lemma parse_args_counterexample :
  (let args := demo_namespace "missing.yaml" None true false in
   resume args = true ∧ prev_ckpt args = None
   ∧ parse_args demo_env args = Raise FileNotFoundError)
  ∧
  (let env := {| path_exists := path_exists demo_env; path_isdir := path_isdir demo_env;
                 makedirs := makedirs demo_env; getcwd := getcwd demo_env;
                 load_yaml := λ _, Ok (YMap ∅); generate_id := generate_id demo_env;
                 print_json := print_json demo_env;
                 new_EncoderConfig := new_EncoderConfig demo_env;
                 new_DecoderConfig := new_DecoderConfig demo_env;
                 new_TrainingConfig := new_TrainingConfig demo_env;
                 new_VIDNetPLWrapper := new_VIDNetPLWrapper demo_env |} in
   let args := demo_namespace "config.yaml" None false false in
   missing_file env args = false ∧ resume args = false
   ∧ parse_args env args = Raise KeyError)
  ∧
  (let args := demo_namespace "config.yaml" None false false in
   missing_file dated_env args = false ∧ resume args = false
   ∧ config_has dated_env args demo_model_args dated_training_args (YInt 50)
   ∧ parse_args dated_env args = Raise TypeError).
Proof.
  split; [|split]; cbv zeta; split_and!; try (vm_compute; reflexivity).
  exists dated_yaml. split_and!; vm_compute; reflexivity.
Qed.

(** ** [train] *)

Lemma train_returns (env : TrainEnv) (args : Namespace) (lg : option Logger) (lp : option string)
    (e : yaml) :
  prepare_model env args = Ok () →
  prepare_logger env args = Ok (lg, lp) →
  max_epochs args = Some e →
  ∃ tr, train env args = Ok (tr, if resume args then prev_ckpt args else None)
        ∧ tr_logger tr = lg ∧ tr_max_epochs tr = Some e.
Proof. intros Hm Hl He. unfold train. rewrite Hm, Hl, He. simpl. by eexists. Qed.

(** Before the parsed config has set [args.max_epochs], [train] does not get
    to the [Trainer]: past the model and the logger, reading the attribute
    raises. *)
Lemma train_unset_max_epochs (env : TrainEnv) (args : Namespace) (lg : option Logger)
    (lp : option string) :
  prepare_model env args = Ok () →
  prepare_logger env args = Ok (lg, lp) →
  max_epochs args = None →
  train env args = Raise AttributeError.
Proof. intros Hm Hl He. unfold train. by rewrite Hm, Hl, He. Qed.

Example train_before_parse_args :
  let args := {| config := "config.yaml"; prev_ckpt := None; resume := false;
                 version := "0"; log_dir := Some "lightning_logs/vidnet";
                 fast_dev_run := false; pre := ""; gpus := GpusDefault;
                 logger := Some "tensorboard"; uid := None;
                 model_args := Some demo_model_args;
                 training_args := Some demo_training_args;
                 max_epochs := None |} in
  train demo_env args = Raise AttributeError.
Proof. vm_compute. reflexivity. Qed.

(** C6.  Whenever [train] gets as far as constructing the [Trainer]: if
    [fast_dev_run] is false, the [Trainer] has checkpointing enabled and among
    its callbacks a [ModelCheckpoint] that monitors ['val_f1'] in mode ['max'],
    keeps the top 2 checkpoints and saves the last one; if [fast_dev_run] is
    true, the list of callbacks is empty, [enable_checkpointing] is false, and
    [prepare_logger] returns [(None, None)], so the [Trainer] has no logger. *)
Theorem train_checkpointing (env : TrainEnv) (args : Namespace) (tr : Trainer)
    (ckpt_path : option string) :
  train env args = Ok (tr, ckpt_path) →
  (fast_dev_run args = false →
   enable_checkpointing tr = true
   ∧ ∃ mc, ModelCheckpointCb mc ∈ callbacks tr
       ∧ monitor mc = "val_f1" ∧ mode mc = "max"
       ∧ save_top_k mc = 2 ∧ save_last mc = true)
  ∧ (fast_dev_run args = true →
     callbacks tr = [] ∧ enable_checkpointing tr = false
     ∧ prepare_logger env args = Ok (None, None) ∧ tr_logger tr = None).
Proof.
  unfold train. intros H.
  apply rbind_Ok in H as (model & Hm & H).
  apply rbind_Ok in H as ([lg lp] & Hl & H).
  apply rbind_Ok in H as (me & _ & H). injection H as <- <-. simpl.
  split; intros Hf; rewrite Hf in *; simpl.
  - split; [done|]. eexists.
    split; [do 2 apply list_elem_of_further; apply list_elem_of_here | done].
  - assert (prepare_logger env args = Ok (None, None)) as Hpl
      by (unfold prepare_logger; by rewrite Hf).
    rewrite Hpl in Hl. by injection Hl as <- <-.
Qed.

Lemma train_checkpointing_witness :
  let args := extended (demo_namespace "config.yaml" None false false)
                demo_model_args demo_training_args (YInt 50) in
  let tr := {| accelerator := "auto"; devices := DevicesAuto; tr_max_epochs := Some (YInt 50);
               tr_logger := Some (TensorBoardLogger "/work" "version_0"
                                    (Some "lightning_logs/vidnet") true);
               callbacks :=
                 [ModelSummary (-1); TQDMProgressBar 1;
                  ModelCheckpointCb
                    {| dirpath := "lightning_logs/vidnet/version_0/checkpoints";
                       monitor := "val_f1";
                       filename := "{epoch:02d}-{val_f1:.4f}-{val_jaccard:.4f}";
                       verbose := true; save_last := true; save_top_k := 2; mode := "max" |};
                  LearningRateMonitor "step"];
               tr_fast_dev_run := false; enable_checkpointing := true;
               log_every_n_steps := 10 |} in
  (fast_dev_run args = false →
   enable_checkpointing tr = true
   ∧ ∃ mc, ModelCheckpointCb mc ∈ callbacks tr
       ∧ monitor mc = "val_f1" ∧ mode mc = "max"
       ∧ save_top_k mc = 2 ∧ save_last mc = true)
  ∧ (fast_dev_run args = true →
     callbacks tr = [] ∧ enable_checkpointing tr = false
     ∧ prepare_logger demo_env args = Ok (None, None) ∧ tr_logger tr = None).
Proof.
  apply (train_checkpointing demo_env
           (extended (demo_namespace "config.yaml" None false false)
              demo_model_args demo_training_args (YInt 50)) _ None).
  vm_compute. reflexivity.
Defined.

Example train_fast_dev_run :
  fst <$> (match train demo_env (extended (demo_namespace "config.yaml" None false true)
                                  demo_model_args demo_training_args (YInt 50)) with
           | Ok x => Some x | Raise _ => None end)
  = Some {| accelerator := "auto"; devices := DevicesInt 1; tr_max_epochs := Some (YInt 50);
            tr_logger := None; callbacks := []; tr_fast_dev_run := true;
            enable_checkpointing := false; log_every_n_steps := 10 |}.
Proof. vm_compute. reflexivity. Qed.

(** ** The clip loop does return *)

(** Whenever the files at indices [0], [L], [2L], ... exist and are named by
    frame numbers, the body of the clip loops returns, having appended one clip
    per such file. *)
Lemma simple_clips_returns {C} (mk : BaseLoader → Z → C) (numframes : BaseLoader → Z → Z)
    (L : Z) (obj : BaseLoader) (clips : list C) (sf0 : Z) (starts : list Z) :
  1 ≤ L →
  frame_at (files obj) 0 = Ok sf0 →
  expected_starting_frames (files obj) L (clip_count (numframes obj sf0) L) = Ok starts →
  simple_clips mk numframes L obj clips = Ok (clips ++ (mk obj <$> starts))%list.
Proof.
  intros HL H0 Hst. rewrite simple_clips_spec.
  by rewrite (clip_starting_frames_expected _ _ _ sf0 HL H0), Hst.
Qed.

Example simple_clips_bear :
  simple_clips SequenceClip_simple (λ seq_ _, _numframes seq_) 2 bear_seq []
  = Ok [SequenceClip_simple bear_seq 0; SequenceClip_simple bear_seq 2].
Proof. vm_compute. reflexivity. Qed.

Example simple_clips_no_files :
  simple_clips SequenceClip_simple (λ seq_ _, _numframes seq_) 2
    {| name := "empty"; files := []; _numframes := 0 |} []
  = Raise IndexError.
Proof. reflexivity. Qed.

(** * Further properties *)

(** ** misc/config.py: what [db_read_sequences] selects *)

Lemma drain_Ok_filter (w : World) (c : Cfg) (fs : list lambda_) (rest l : list DbSequence) :
  fst (drain w c fs rest) = Ok l → l = filter (accepted w c fs) rest.
Proof.
  intros H. pose proof (drain_Ok_total _ _ _ _ _ H) as Ht.
  rewrite (drain_total _ _ _ _ Ht) in H. simpl in H. congruence.
Qed.

(** X1.  Whatever the year and the phase, what [db_read_sequences] yields is
    taken from the [sequences] list of the db-info file, in the order of the
    file and without repeating an entry: a sub-list of it. *)
Theorem db_read_sequences_sublist (w : World) (c : Cfg) (year p : pyval) (sq : pyseq)
    (info l : list DbSequence) :
  read_db_info w (FILES_DB_INFO (FILES c)) = Ok info →
  db_read_sequences w c year p = Ok sq →
  yields w c sq = Ok l →
  l `sublist_of` info.
Proof.
  unfold db_read_sequences, db_read_info_sequences. intros -> H. simpl in H.
  injection H as <-. intros H.
  destruct (bool_decide (year ≠ PNone)), (bool_decide (p ≠ PNone));
    [destruct (py_eq p (PPhase TRAINVAL))| |destruct (py_eq p (PPhase TRAINVAL))|];
    simpl in H; try (apply drain_Ok_filter in H as ->; apply sublist_filter).
  by injection H as <-.
Qed.

Lemma db_read_sequences_sublist_witness :
  filter (selected_by_phase demo_world (set_PATH_SEQUENCES SEQUENCES_train demo_cfg)
            2017 (PStr "train")) demo_info `sublist_of` demo_info.
Proof.
  apply (db_read_sequences_sublist demo_world (set_PATH_SEQUENCES SEQUENCES_train demo_cfg)
           (PStr "2017") (PStr "train")
           (PyFilter {| fi_funs := [LamYear (PStr "2017"); LamPhase (PStr "train")];
                        fi_rest := demo_info |})); vm_compute; reflexivity.
Defined.

(** X2.  A year that [int] rejects does not make [db_read_sequences] raise:
    the call returns a filter, and the exception only comes out when the filter
    is iterated, and then only if the db-info file lists a sequence at all. *)
Theorem db_read_sequences_bad_year_is_lazy (w : World) (c : Cfg) (year p : pyval) (e : exn)
    (info : list DbSequence) :
  read_db_info w (FILES_DB_INFO (FILES c)) = Ok info →
  year ≠ PNone →
  py_int_of year = Raise e →
  ∃ sq, db_read_sequences w c year p = Ok sq
    ∧ yields w c sq = (if bool_decide (info = []) then Ok [] else Raise e).
Proof.
  unfold db_read_sequences, db_read_info_sequences. intros -> Hy He. simpl.
  rewrite (bool_decide_eq_true_2 (year ≠ PNone)) by done.
  eexists. split; [reflexivity|].
  destruct info as [|s info];
    [by destruct (bool_decide (p ≠ PNone)), (py_eq p (PPhase TRAINVAL))|].
  rewrite (bool_decide_eq_false_2 (s :: info = [])) by done.
  destruct (bool_decide (p ≠ PNone)); [destruct (py_eq p (PPhase TRAINVAL))|];
    simpl; by rewrite He.
Qed.

Lemma db_read_sequences_bad_year_is_lazy_witness :
  ∃ sq, db_read_sequences demo_world demo_cfg (PStr "DAVIS-2017") (PStr "train") = Ok sq
    ∧ yields demo_world demo_cfg sq
      = (if bool_decide (demo_info = []) then Ok [] else Raise ValueError).
Proof.
  apply (db_read_sequences_bad_year_is_lazy demo_world demo_cfg (PStr "DAVIS-2017")
           (PStr "train") ValueError demo_info); [reflexivity | discriminate | reflexivity].
Defined.

Lemma filter_none {A} (P : A → Prop) `{∀ x, Decision (P x)} (l : list A) :
  Forall (λ x, ¬ P x) l → filter P l = [].
Proof.
  induction 1 as [|x l Hx _ IH]; [done|]. by rewrite filter_cons_False.
Qed.

(** X3.  The sets read from the YAML file are strings, and a string is never
    equal to a member of the enum [phase]: with [db_phase = phase.TRAINVAL] and
    a db-info file whose [set] fields are not enum members, nothing is
    yielded. *)
Theorem db_read_sequences_TRAINVAL_empty (w : World) (c : Cfg) (year : pyval)
    (info : list DbSequence) :
  read_db_info w (FILES_DB_INFO (FILES c)) = Ok info →
  Forall (λ s, ∀ q, s_set s ≠ PPhase q) info →
  year = PNone ∨ is_Ok (py_int_of year) →
  ∃ sq, db_read_sequences w c year (PPhase TRAINVAL) = Ok sq ∧ yields w c sq = Ok [].
Proof.
  unfold db_read_sequences, db_read_info_sequences. intros -> Hset Hy. simpl.
  eexists. split; [reflexivity|].
  assert (∀ s, s ∈ info →
            py_eq (s_set s) (PPhase VAL) || py_eq (s_set s) (PPhase TRAIN) = false) as Hno.
  { intros s Hs. rewrite Forall_forall in Hset. specialize (Hset s Hs).
    destruct (s_set s) as [| | | |q]; try done; exfalso; by apply (Hset q). }
  destruct Hy as [-> | [yz Hyz]].
  - simpl. rewrite drain_total.
    + simpl. f_equal. apply filter_none, Forall_forall. intros s Hs.
      unfold accepted. simpl. by rewrite (Hno s Hs).
    + apply Forall_forall. intros s Hs. simpl. rewrite (Hno s Hs). by eexists.
  - assert (year ≠ PNone) as Hn by (intros ->; discriminate).
    rewrite (bool_decide_eq_true_2 (year ≠ PNone)) by done. simpl. rewrite drain_total.
    + simpl. f_equal. apply filter_none, Forall_forall. intros s Hs.
      unfold accepted. rewrite (accepts_year_trainval _ _ _ _ _ Hyz), (Hno s Hs).
      by rewrite andb_false_r.
    + apply Forall_forall. intros s Hs.
      rewrite (accepts_year_trainval _ _ _ _ _ Hyz). by eexists.
Qed.

Lemma db_read_sequences_TRAINVAL_empty_witness :
  ∃ sq, db_read_sequences demo_world demo_cfg (PStr "2017") (PPhase TRAINVAL) = Ok sq
    ∧ yields demo_world demo_cfg sq = Ok [].
Proof.
  apply (db_read_sequences_TRAINVAL_empty demo_world demo_cfg (PStr "2017") demo_info).
  - reflexivity.
  - repeat constructor; intros q; discriminate.
  - right. by exists 2017.
Defined.

(** X4.  The directory test of a filter reads [cfg.PATH.SEQUENCES] when the
    filter is iterated: a filter obtained before a [DAVISLoader] is constructed
    yields, afterwards, what a filter obtained afterwards yields, the path that
    [__init__] wrote being the one that counts. *)
Theorem filter_sees_new_PATH_SEQUENCES (w : World) (c : Cfg) (year p : pyval) (sq : pyseq)
    (args : Args) (augment : bool) (split_ : pyval) (vm pm ue : bool) :
  db_read_sequences w c year p = Ok sq →
  let c' := fst (DAVISLoader_init w c args augment split_ vm pm ue) in
  db_read_sequences w c' year p = Ok sq
  ∧ ∀ l, yields w c' sq = Ok l →
      Forall (λ s, p ≠ PNone → py_eq p (PPhase TRAINVAL) = false →
                   isdir w (osp_join (PATH_SEQUENCES (PATH c')) (s_name s)) = true) l.
Proof.
  intros H c'.
  assert (FILES c' = FILES c) as HF.
  { unfold c', DAVISLoader_init. cbn [fst]. by destruct (py_eq split_ _). }
  assert (db_read_sequences w c' year p = Ok sq) as H'.
  { revert H. unfold db_read_sequences, db_read_info_sequences. by rewrite HF. }
  split; [done|]. intros l Hl. apply Forall_forall. intros s Hs Hp Hne.
  revert H' Hl. unfold db_read_sequences. rewrite rbind_Ok. intros (info & _ & [= <-]).
  rewrite (bool_decide_eq_true_2 (p ≠ PNone)) by done. rewrite Hne.
  destruct (bool_decide (year ≠ PNone)); simpl; intros Hl;
    apply drain_Ok_filter in Hl; subst l;
    apply list_elem_of_filter in Hs as [Hacc _]; unfold accepted in Hacc; simpl in Hacc.
  - destruct (py_int_of year) as [yz|]; [|done]. simpl in Hacc.
    destruct (s_year s <=? yz); [|done]. simpl in Hacc.
    destruct (py_eq (s_set s) p), (isdir w _); try done.
  - destruct (py_eq (s_set s) p), (isdir w _); try done.
Qed.

Lemma filter_sees_new_PATH_SEQUENCES_witness :
  let sq := PyFilter {| fi_funs := [LamYear (PStr "2017"); LamPhase (PStr "train")];
                        fi_rest := demo_info |} in
  let c' := fst (demo_init 2) in
  db_read_sequences demo_world c' (PStr "2017") (PStr "train") = Ok sq
  ∧ ∀ l, yields demo_world c' sq = Ok l →
      Forall (λ s, PStr "train" ≠ PNone → py_eq (PStr "train") (PPhase TRAINVAL) = false →
                   isdir demo_world (osp_join (PATH_SEQUENCES (PATH c')) (s_name s)) = true) l.
Proof.
  apply (filter_sees_new_PATH_SEQUENCES demo_world demo_cfg (PStr "2017") (PStr "train")
           (PyFilter {| fi_funs := [LamYear (PStr "2017"); LamPhase (PStr "train")];
                        fi_rest := demo_info |})
           (demo_args 2) false (PStr "train") true false false).
  reflexivity.
Defined.

Example old_filter_new_path :
  yields demo_world demo_cfg
    (PyFilter {| fi_funs := [LamYear (PStr "2017"); LamPhase (PStr "train")];
                 fi_rest := demo_info |}) = Ok []
  ∧ yields demo_world (fst (demo_init 2))
      (PyFilter {| fi_funs := [LamYear (PStr "2017"); LamPhase (PStr "train")];
                   fi_rest := demo_info |}) = Ok [bear; camel].
Proof. split; vm_compute; reflexivity. Qed.

Lemma foldl_insert_name_lookup (l : list DbSequence) (d : gmap string DbSequence) (n : string) :
  foldl (λ d s, <[s_name s := s]> d) d l !! n
  = match last (filter (λ s, s_name s = n) l) with
    | Some s => Some s
    | None => d !! n
    end.
Proof.
  revert d. induction l as [|s l IH]; intros d; simpl; [done|].
  rewrite IH. rewrite filter_cons. case_decide as Hn.
  - rewrite last_cons. destruct (last _); [done|]. subst n. by rewrite lookup_insert_eq.
  - destruct (last _); [done|]. by rewrite lookup_insert_ne.
Qed.

(** X5.  [cfg.SEQUENCES], the dict built when config.py is imported, maps a
    name to the last entry of the db-info file with that name, and has no
    other keys. *)
Theorem SEQUENCES_lookup (w : World) (c : Cfg) (info : list DbSequence) :
  read_db_info w (FILES_DB_INFO (FILES c)) = Ok info →
  ∃ d, load_SEQUENCES w c = Ok d
    ∧ ∀ n, d !! n = last (filter (λ s, s_name s = n) info).
Proof.
  intros Hinfo. unfold load_SEQUENCES, db_read_sequences, db_read_info_sequences.
  rewrite Hinfo. simpl. eexists. split; [reflexivity|].
  intros n. rewrite foldl_insert_name_lookup. by destruct (last _).
Qed.

Lemma SEQUENCES_lookup_witness :
  ∃ d, load_SEQUENCES demo_world demo_cfg = Ok d
    ∧ ∀ n, d !! n = last (filter (λ s, s_name s = n) demo_info).
Proof. apply (SEQUENCES_lookup demo_world demo_cfg demo_info). reflexivity. Defined.

(** ** davis2017.py: what [__init__] checks and establishes *)

(** The loops of [__init__], as they ran. *)
Lemma init_Ok_loops (w : World) (c : Cfg) (args : Args) (augment : bool) (split_ : pyval)
    (vm pm ue : bool) (c' : Cfg) (self : DAVISLoader) :
  DAVISLoader_init w c args augment split_ vm pm ue = (c', Ok self) →
  ∃ fs info lmdb_s rest3 rest4,
    db_read_sequences w c' (arg_year args) split_
      = Ok (PyFilter {| fi_funs := fs; fi_rest := info |})
    ∧ (arg_year args = PStr "2017" ∨ arg_year args = PStr "2016")
    ∧ total_on w c' fs info
    ∧ List.length (sequences self) = List.length (filter (accepted w c' fs) info)
    ∧ List.length (annotations self) = List.length (filter (accepted w c' fs) info)
    ∧ sequence_clips_loop w c' split_ (arg_length_clip args) pm lmdb_s
        (sequences self) fs info [] = Ok (sequence_clips self, rest3)
    ∧ annotation_clips_loop w c' (arg_length_clip args)
        (annotations self) fs info [] = Ok (annotation_clips self, rest4)
    ∧ _keys_clips self
      = dict_of_zip (clip_key <$> sequence_clips self) (range_len (sequence_clips self)).
Proof.
  unfold DAVISLoader_init. intros [= Hc H]. rewrite Hc in H.
  apply rbind_Ok in H as (aug & _ & H).
  destruct (negb _) eqn:Hassert; [done|].
  destruct (_ && _) eqn:Hsingle in H; [done|].
  apply rbind_Ok in H as (db & Hdb & H).
  assert (arg_year args = PStr "2017" ∨ arg_year args = PStr "2016") as Hy.
  { apply negb_false_iff, orb_true_iff in Hassert.
    destruct (arg_year args) as [| | |y|]; try (by destruct Hassert).
    simpl in Hassert. rewrite !bool_decide_eq_true in Hassert.
    destruct Hassert as [-> | ->]; auto. }
  assert (arg_year args ≠ PNone) as Hy' by (by destruct Hy as [-> | ->]).
  destruct (db_read_sequences_filter _ _ _ _ _ Hy' Hdb) as (fs & info & ->).
  rewrite Hdb in H. exists fs, info.
  destruct (isdir w _ && isdir w _);
    (apply rbind_Ok in H as (seqs & Hseqs & H);
     apply rbind_Ok in H as (db2 & [= <-] & H);
     apply rbind_Ok in H as (annots & Hannots & H);
     apply rbind_Ok in H as (db3 & [= <-] & H);
     apply rbind_Ok in H as ([sclips rest3] & Hsc & H);
     apply rbind_Ok in H as (db4 & [= <-] & H);
     apply rbind_Ok in H as ([aclips rest4] & Hac & H);
     injection H as <-; cbn -[sequence_clips_loop annotation_clips_loop];
     simpl in Hseqs, Hannots, Hsc, Hac;
     apply comprehension_Ok in Hseqs as [Ht HFs];
     apply comprehension_Ok in Hannots as [_ HFa];
     pose proof (Forall2_length _ _ _ HFs) as Hls;
     pose proof (Forall2_length _ _ _ HFa) as Hla;
     eexists; exists rest3, rest4; split_and!; try done).
Qed.

(** X6.  [__init__] rejects its arguments before it reads any data: once
    the augmentation transform is constructed (none is without [augment]), a
    year other than the strings ["2017"] and ["2016"] fails the assertion, and
    [single_object] with the year ["2017"] raises [Exception], whatever the
    data set and the other arguments are.  The transform comes first: if its
    construction raises, [__init__] raises that exception whatever the year
    is. *)
Theorem init_rejects_arguments (w : World) (c : Cfg) (args : Args) (augment : bool)
    (split_ : pyval) (vm pm ue : bool) :
  (∀ aug, make_augmentation w args augment = Ok aug →
     arg_year args ≠ PStr "2017" → arg_year args ≠ PStr "2016" →
     snd (DAVISLoader_init w c args augment split_ vm pm ue) = Raise AssertionError)
  ∧ (∀ aug, make_augmentation w args augment = Ok aug →
       arg_year args = PStr "2017" → arg_single_object args = true →
       snd (DAVISLoader_init w c args augment split_ vm pm ue) = Raise Exception_)
  ∧ (∀ e, make_augmentation w args augment = Raise e →
       snd (DAVISLoader_init w c args augment split_ vm pm ue) = Raise e).
Proof.
  unfold DAVISLoader_init. cbn [snd]. split_and!.
  - intros aug -> H17 H16. cbn [rbind].
    assert (py_eq (arg_year args) (PStr "2017") = false) as ->.
    { destruct (arg_year args); try done. simpl. apply bool_decide_eq_false. congruence. }
    assert (py_eq (arg_year args) (PStr "2016") = false) as ->.
    { destruct (arg_year args); try done. simpl. apply bool_decide_eq_false. congruence. }
    done.
  - intros aug -> -> ->. done.
  - intros e ->. done.
Qed.

Lemma init_rejects_arguments_witness :
  snd (DAVISLoader_init demo_world demo_cfg
         {| arg_year := PInt 2017; arg_single_object := false; arg_length_clip := 2;
            arg_gt_maxseqlen := 10; arg_dataset := "davis2017";
            arg_rotation := PyObj 1; arg_translation := PyObj 2;
            arg_shear := PyObj 3; arg_zoom := PyObj 4 |}
         false (PStr "train") true false false) = Raise AssertionError
  ∧ snd (DAVISLoader_init demo_world demo_cfg
           {| arg_year := PStr "2017"; arg_single_object := true; arg_length_clip := 2;
              arg_gt_maxseqlen := 10; arg_dataset := "davis2017";
              arg_rotation := PyObj 1; arg_translation := PyObj 2;
              arg_shear := PyObj 3; arg_zoom := PyObj 4 |}
           true (PStr "train") true false false) = Raise Exception_
  ∧ snd (DAVISLoader_init no_zoom_world demo_cfg
           {| arg_year := PInt 2017; arg_single_object := false; arg_length_clip := 2;
              arg_gt_maxseqlen := 10; arg_dataset := "davis2017";
              arg_rotation := PyObj 1; arg_translation := PyObj 2;
              arg_shear := PyObj 3; arg_zoom := PyObj 0 |}
           true (PStr "train") true false false) = Raise TypeError.
Proof.
  split_and!.
  - apply (proj1 (init_rejects_arguments demo_world demo_cfg
             {| arg_year := PInt 2017; arg_single_object := false; arg_length_clip := 2;
                arg_gt_maxseqlen := 10; arg_dataset := "davis2017";
                arg_rotation := PyObj 1; arg_translation := PyObj 2;
                arg_shear := PyObj 3; arg_zoom := PyObj 4 |}
             false (PStr "train") true false false) None);
      [reflexivity | discriminate | discriminate].
  - apply (proj1 (proj2 (init_rejects_arguments demo_world demo_cfg
             {| arg_year := PStr "2017"; arg_single_object := true; arg_length_clip := 2;
                arg_gt_maxseqlen := 10; arg_dataset := "davis2017";
                arg_rotation := PyObj 1; arg_translation := PyObj 2;
                arg_shear := PyObj 3; arg_zoom := PyObj 4 |}
             true (PStr "train") true false false))
             (Some {| ra_rotation_range := PyObj 1; ra_translation_range := PyObj 2;
                      ra_shear_range := PyObj 3; ra_zoom := PyObj 4;
                      ra_interp := "nearest"; ra_lazy := true |}));
      reflexivity.
  - apply (proj2 (proj2 (init_rejects_arguments no_zoom_world demo_cfg
             {| arg_year := PInt 2017; arg_single_object := false; arg_length_clip := 2;
                arg_gt_maxseqlen := 10; arg_dataset := "davis2017";
                arg_rotation := PyObj 1; arg_translation := PyObj 2;
                arg_shear := PyObj 3; arg_zoom := PyObj 0 |}
             true (PStr "train") true false false))); reflexivity.
Defined.

(** X7.  A loader that [__init__] returned has as many sequences as
    annotations, one of each for every sequence that
    [db_read_sequences(args.year, split)] yields. *)
Theorem init_one_object_per_selected (w : World) (c : Cfg) (args : Args) (augment : bool)
    (split_ : pyval) (vm pm ue : bool) (c' : Cfg) (self : DAVISLoader) :
  DAVISLoader_init w c args augment split_ vm pm ue = (c', Ok self) →
  ∃ sq selected,
    db_read_sequences w c' (arg_year args) split_ = Ok sq
    ∧ yields w c' sq = Ok selected
    ∧ List.length (sequences self) = List.length selected
    ∧ List.length (annotations self) = List.length selected.
Proof.
  intros Hinit.
  destruct (init_Ok_loops _ _ _ _ _ _ _ _ _ _ Hinit)
    as (fs & info & ls & r3 & r4 & Hdb & _ & Ht & Hls & Hla & _).
  eexists _, _. split; [exact Hdb|]. simpl. rewrite (drain_total _ _ _ _ Ht). done.
Qed.

Lemma init_one_object_per_selected_witness :
  ∃ sq selected,
    db_read_sequences demo_world (fst (demo_init 2)) (arg_year (demo_args 2)) (PStr "train")
      = Ok sq
    ∧ yields demo_world (fst (demo_init 2)) sq = Ok selected
    ∧ List.length (sequences (loader_of (demo_init 2))) = List.length selected
    ∧ List.length (annotations (loader_of (demo_init 2))) = List.length selected.
Proof.
  apply (init_one_object_per_selected demo_world demo_cfg (demo_args 2) false (PStr "train")
           true false false (fst (demo_init 2)) (loader_of (demo_init 2))).
  vm_compute. reflexivity.
Defined.

Lemma clip_starting_frames_first_file (numframes : BaseLoader → Z → Z) (L : Z)
    (obj : BaseLoader) (starts : list Z) :
  clip_starting_frames numframes L obj = Ok starts →
  L ≠ 0
  ∧ starts ≠ []
  ∧ ∃ path z, files obj !! 0%nat = Some path ∧ frame_number path = Ok z.
Proof.
  unfold clip_starting_frames, frame_at. rewrite rbind_Ok. intros (sf0 & H0 & H).
  apply rbind_Ok in H0 as (path & Hp & Hz).
  apply rbind_Ok in H as (q & Hq & H). apply rbind_Ok in H as (more & _ & [= <-]).
  split_and!; [|done|].
  - unfold int_truediv in Hq. by destruct (Z.eqb_spec L 0).
  - exists path, sf0. split; [|done].
    apply py_index_Ok in Hp as (j & Hj & Hj0). simpl in Hj0.
    by replace j with 0%nat in Hj by lia.
Qed.

Lemma concat_zip_with_length_ge {A B C} (f : A → list B → list C) (l : list A)
    (k : list (list B)) :
  List.length l = List.length k →
  (∀ x y, y ≠ [] → f x y ≠ []) →
  Forall (λ y, y ≠ []) k →
  (List.length l ≤ List.length (List.concat (zip_with f l k)))%nat.
Proof.
  intros Hlen Hf. revert l Hlen. induction k as [|y k IH]; intros [|x l]; simpl; try done.
  intros [= Hlen]. inversion 1 as [|? ? Hy Hk]; subst.
  rewrite length_app. specialize (IH l Hlen Hk).
  specialize (Hf x y Hy). destruct (f x y); [done|]. simpl. lia.
Qed.

(** X8.  After [__init__], with [use_prev_mask = False]: the clip length is
    not zero unless no sequence was selected, every sequence and every
    annotation has a first file whose name is a frame number, and there are at
    least as many sequence clips as sequences and annotation clips as
    annotations. *)
Theorem init_clips_cover_sequences (w : World) (c : Cfg) (args : Args) (augment : bool)
    (split_ : pyval) (vm ue : bool) (c' : Cfg) (self : DAVISLoader) :
  DAVISLoader_init w c args augment split_ vm false ue = (c', Ok self) →
  (arg_length_clip args = 0 → sequences self = [] ∧ annotations self = [])
  ∧ Forall (λ o, ∃ path z, files o !! 0%nat = Some path ∧ frame_number path = Ok z)
           (sequences self ++ annotations self)
  ∧ (List.length (sequences self) ≤ List.length (sequence_clips self))%nat
  ∧ (List.length (annotations self) ≤ List.length (annotation_clips self))%nat.
Proof.
  intros Hinit.
  destruct (init_Ok _ _ _ _ _ _ _ _ _ _ Hinit)
    as (fs & info & rest' & ls & la & _ & _ & _ & Hs & Ha & _).
  destruct (Hs eq_refl) as (sst & HFs & Hsc). destruct Ha as (ast & HFa & Hac).
  assert (∀ nf (l : list BaseLoader) (k : list (list Z)),
            Forall2 (λ o starts, clip_starting_frames nf (arg_length_clip args) o = Ok starts) l k →
            (l ≠ [] → arg_length_clip args ≠ 0)
            ∧ Forall (λ o, ∃ path z, files o !! 0%nat = Some path ∧ frame_number path = Ok z) l
            ∧ Forall (λ y, y ≠ []) k) as Hall.
  { intros nf l k HF. induction HF as [|o starts l k Ho _ (_ & IH1 & IH2)].
    - split; [done|]. split; constructor.
    - apply clip_starting_frames_first_file in Ho as (HL & Hne & Hfile).
      split; [done|]. split; by constructor. }
  destruct (Hall _ _ _ HFs) as (HLs & Hfs & Hnes).
  destruct (Hall _ _ _ HFa) as (HLa & Hfa & Hnea).
  split_and!.
  - intros HL. split.
    + destruct (sequences self); [done|]. by destruct HLs.
    + destruct (annotations self); [done|]. by destruct HLa.
  - by apply Forall_app.
  - rewrite Hsc. apply concat_zip_with_length_ge; [by eapply Forall2_length| |done].
    intros x y Hy. by destruct y.
  - rewrite Hac. apply concat_zip_with_length_ge; [by eapply Forall2_length| |done].
    intros x y Hy. by destruct y.
Qed.

Lemma init_clips_cover_sequences_witness :
  let self := loader_of (demo_init 5) in
  (arg_length_clip (demo_args 5) = 0 → sequences self = [] ∧ annotations self = [])
  ∧ Forall (λ o, ∃ path z, files o !! 0%nat = Some path ∧ frame_number path = Ok z)
           (sequences self ++ annotations self)
  ∧ (List.length (sequences self) ≤ List.length (sequence_clips self))%nat
  ∧ (List.length (annotations self) ≤ List.length (annotation_clips self))%nat.
Proof.
  apply (init_clips_cover_sequences demo_world demo_cfg (demo_args 5) false (PStr "train")
           true false (fst (demo_init 5)) (loader_of (demo_init 5))).
  vm_compute. reflexivity.
Defined.

Example init_zero_clip_length :
  snd (demo_init 0) = Raise ZeroDivisionError.
Proof. vm_compute. reflexivity. Qed.

(** ** davis2017.py: the [use_prev_mask] branch *)

Lemma str_le_le (a b : string) : str_le a b ↔ String.le a b.
Proof. unfold str_le, String.le. by rewrite Is_true_true. Qed.

Global Instance str_le_trans : Transitive str_le.
Proof. intros a b d. rewrite !str_le_le. apply transitivity. Qed.

Global Instance str_le_refl : Reflexive str_le.
Proof. intros a. rewrite str_le_le. apply reflexivity. Qed.

Global Instance str_le_total : Total str_le.
Proof. intros a b. rewrite !str_le_le. apply total, _. Qed.

(** The first element of a sorted listing is its least element. *)
Lemma sort_strings_first (l : list string) (path : string) :
  sort_strings l !! 0%nat = Some path →
  path ∈ l ∧ ∀ q, q ∈ l → str_le path q.
Proof.
  unfold sort_strings. intros H0.
  pose proof (Sorted_merge_sort str_le l) as Hs.
  apply (Sorted_StronglySorted str_le) in Hs.
  pose proof (merge_sort_Permutation str_le l) as Hp.
  destruct (merge_sort str_le l) as [|x tl] eqn:Hm; [done|]. injection H0 as ->.
  apply StronglySorted_inv in Hs as [_ Hall]. split.
  - rewrite <- Hp. left.
  - intros q Hq. rewrite <- Hp in Hq. apply elem_of_cons in Hq as [-> | Hq]; [done|].
    rewrite Forall_forall in Hall. by apply Hall.
Qed.

Lemma sort_strings_nil (l : list string) : sort_strings l = [] ↔ l = [].
Proof.
  unfold sort_strings. pose proof (merge_sort_Permutation str_le l) as Hp. split.
  - intros H. rewrite H in Hp. by apply Permutation_nil_l in Hp.
  - intros ->. done.
Qed.

Lemma prev_mask_clip_Ok (w : World) (c : Cfg) (ph : pyval) (lmdb : option string)
    (s : DbSequence) (clips clips' : list SequenceClipObj) :
  prev_mask_clip w c ph lmdb s clips = Ok clips' →
  ∃ path z,
    sort_strings (glob_png w (osp_join (PATH_ANNOTATIONS (PATH c)) (s_name s))) !! 0%nat
      = Some path
    ∧ frame_number path = Ok z
    ∧ clips' = (clips ++ [SequenceClip ph (s_name s) z "*.png" lmdb])%list.
Proof.
  unfold prev_mask_clip. rewrite rbind_Ok. intros (path & Hp & H).
  apply rbind_Ok in H as (z & Hz & [= <-]).
  apply py_index_Ok in Hp as (j & Hj & Hj0). simpl in Hj0.
  replace j with 0%nat in Hj by lia. by exists path, z.
Qed.

Lemma sequence_clips_loop_prev_mask (w : World) (c : Cfg) (ph : pyval) (L : Z)
    (lmdb : option string) (fs : list lambda_) (seqs : list BaseLoader) :
  ∀ (rest : list DbSequence) (clips clips' : list SequenceClipObj) (rest' : list DbSequence),
  total_on w c fs rest →
  List.length seqs = List.length (filter (accepted w c fs) rest) →
  sequence_clips_loop w c ph L true lmdb seqs fs rest clips = Ok (clips', rest') →
  ∃ news,
    clips' = (clips ++ news)%list
    ∧ Forall2 (λ s cl, ∃ path z,
                 sort_strings (glob_png w (osp_join (PATH_ANNOTATIONS (PATH c)) (s_name s)))
                   !! 0%nat = Some path
                 ∧ frame_number path = Ok z
                 ∧ cl = SequenceClip ph (s_name s) z "*.png" lmdb)
              (filter (accepted w c fs) rest) news.
Proof.
  induction seqs as [|seq_ seqs IH]; intros rest clips clips' rest' Ht Hlen; simpl.
  - intros [= <- <-]. exists []. rewrite app_nil_r. split; [done|].
    symmetry in Hlen. apply nil_length_inv in Hlen as ->. constructor.
  - pose proof (filter_next_total w c fs rest Ht) as Hn.
    destruct (filter (accepted w c fs) rest) as [|s tl]; [done|].
    destruct Hn as (rest1 & -> & Htl & Ht1). simpl.
    destruct (prev_mask_clip w c ph lmdb s clips) as [clips1|e] eqn:Hpm; simpl; [|done].
    intros H. simpl in Hlen.
    apply prev_mask_clip_Ok in Hpm as (path & z & Hp & Hz & ->).
    destruct (IH rest1 _ _ _ Ht1 ltac:(rewrite Htl; lia) H) as (news & -> & HF).
    eexists (_ :: news). split; [by rewrite <- app_assoc|].
    rewrite Htl in HF. constructor; [|done]. by exists path, z.
Qed.

(** X9.  With [use_prev_mask = True], [__init__] makes exactly one clip for
    each sequence that [db_read_sequences] yields, in that order: a
    [SequenceClip] for that sequence's name whose starting frame is the frame
    number of the least of the [*.png] paths under
    [cfg.PATH.ANNOTATIONS/name], in whichever order [glob] lists them. *)
Theorem init_prev_mask_clips (w : World) (c : Cfg) (args : Args) (augment : bool)
    (split_ : pyval) (vm ue : bool) (c' : Cfg) (self : DAVISLoader) :
  DAVISLoader_init w c args augment split_ vm true ue = (c', Ok self) →
  ∃ sq selected lmdb,
    db_read_sequences w c' (arg_year args) split_ = Ok sq
    ∧ yields w c' sq = Ok selected
    ∧ Forall2 (λ s cl, ∃ path z,
                 cl = SequenceClip split_ (s_name s) z "*.png" lmdb
                 ∧ frame_number path = Ok z
                 ∧ path ∈ glob_png w (osp_join (PATH_ANNOTATIONS (PATH c')) (s_name s))
                 ∧ ∀ q, q ∈ glob_png w (osp_join (PATH_ANNOTATIONS (PATH c')) (s_name s)) →
                        str_le path q)
              selected (sequence_clips self).
Proof.
  intros Hinit.
  destruct (init_Ok_loops _ _ _ _ _ _ _ _ _ _ Hinit)
    as (fs & info & ls & r3 & r4 & Hdb & _ & Ht & Hls & _ & Hsc & _).
  apply sequence_clips_loop_prev_mask in Hsc as (news & Hnews & HF); [|done|done].
  simpl in Hnews. subst news.
  eexists _, _, ls. split; [exact Hdb|]. simpl. rewrite (drain_total _ _ _ _ Ht).
  split; [done|]. eapply Forall2_impl; [exact HF|].
  intros s cl (path & z & Hp & Hz & ->). exists path, z.
  apply sort_strings_first in Hp as [Hin Hmin]. done.
Qed.

Lemma init_prev_mask_clips_witness :
  let c' := fst (prev_mask_init 1) in
  ∃ sq selected lmdb,
    db_read_sequences demo_world c' (arg_year (demo_args 1)) (PStr "train") = Ok sq
    ∧ yields demo_world c' sq = Ok selected
    ∧ Forall2 (λ s cl, ∃ path z,
                 cl = SequenceClip (PStr "train") (s_name s) z "*.png" lmdb
                 ∧ frame_number path = Ok z
                 ∧ path ∈ glob_png demo_world (osp_join (PATH_ANNOTATIONS (PATH c')) (s_name s))
                 ∧ ∀ q, q ∈ glob_png demo_world
                              (osp_join (PATH_ANNOTATIONS (PATH c')) (s_name s)) →
                        str_le path q)
              selected (sequence_clips (loader_of (prev_mask_init 1))).
Proof.
  apply (init_prev_mask_clips demo_world demo_cfg (demo_args 1) false (PStr "train")
           true false (fst (prev_mask_init 1)) (loader_of (prev_mask_init 1))).
  vm_compute. reflexivity.
Defined.

Example prev_mask_clips_demo :
  sequence_clips (loader_of (prev_mask_init 1))
  = [SequenceClip (PStr "train") "bear" 0 "*.png" None;
     SequenceClip (PStr "train") "camel" 0 "*.png" None]
  ∧ List.length (annotation_clips (loader_of (prev_mask_init 1))) = 4%nat.
Proof. split; vm_compute; reflexivity. Qed.

(** ** davis2017.py: looking clips and sequences up *)

Lemma range_len_snoc {A} (l : list A) (x : A) :
  range_len (l ++ [x]) = (range_len l ++ [Z.of_nat (List.length l)])%list.
Proof.
  unfold range_len. rewrite length_app. simpl.
  replace (List.length l + 1)%nat with (S (List.length l)) by lia.
  by rewrite seq_S, fmap_app.
Qed.

Lemma range_len_length {A} (l : list A) : List.length (range_len l) = List.length l.
Proof. unfold range_len. by rewrite length_fmap, length_seq. Qed.

Lemma range_len_fmap {A B} (f : A → B) (l : list A) : range_len (f <$> l) = range_len l.
Proof. unfold range_len. by rewrite length_fmap. Qed.

Lemma dict_of_zip_snoc (keys : list string) (x : string) :
  dict_of_zip (keys ++ [x]) (range_len (keys ++ [x]))
  = <[x := Z.of_nat (List.length keys)]> (dict_of_zip keys (range_len keys)).
Proof.
  unfold dict_of_zip. rewrite range_len_snoc.
  rewrite zip_with_app by (by rewrite range_len_length).
  by rewrite foldl_app.
Qed.

(** What a dict built from [zip(keys, range(len(keys)))] holds: under a key,
    the index of its last occurrence. *)
Lemma dict_of_zip_spec (keys : list string) (k : string) :
  match dict_of_zip keys (range_len keys) !! k with
  | Some v => ∃ j : nat, v = Z.of_nat j ∧ keys !! j = Some k
                         ∧ ∀ j' : nat, (j < j')%nat → keys !! j' ≠ Some k
  | None => k ∉ keys
  end.
Proof.
  induction keys as [|x keys IH] using rev_ind.
  - unfold dict_of_zip. simpl. rewrite lookup_empty. apply not_elem_of_nil.
  - rewrite dict_of_zip_snoc. destruct (decide (x = k)) as [->|Hne].
    + rewrite lookup_insert_eq. exists (List.length keys). split; [done|]. split.
      * by rewrite lookup_app_r, Nat.sub_diag.
      * intros j' Hj'. rewrite lookup_ge_None_2; [done|]. rewrite length_app. simpl. lia.
    + rewrite lookup_insert_ne by done.
      destruct (dict_of_zip keys (range_len keys) !! k) as [v|].
      * destruct IH as (j & -> & Hj & Hlast). exists j. split; [done|].
        pose proof (lookup_lt_Some _ _ _ Hj) as Hlt. split.
        -- by rewrite lookup_app_l.
        -- intros j' Hj'. destruct (decide (j' < List.length keys)%nat).
           ++ rewrite lookup_app_l by done. by apply Hlast.
           ++ rewrite lookup_app_r by lia.
              destruct (j' - List.length keys)%nat; [by intros [= ->] | done].
      * rewrite elem_of_app, list_elem_of_singleton. intros [? | ?]; [done | congruence].
Qed.

(** X10.  After [__init__], [sequence_name_to_id_clip] undoes the naming of
    clips up to clips that share a key: for the key [name + str(starting_frame)]
    of the clip at index [i] it returns the index [j >= i] of the last clip with
    that key; and for a string that is the key of no clip it raises
    [KeyError]. *)
Theorem keys_clips_round_trip (w : World) (c : Cfg) (args : Args) (augment : bool)
    (split_ : pyval) (vm pm ue : bool) (c' : Cfg) (self : DAVISLoader) :
  DAVISLoader_init w c args augment split_ vm pm ue = (c', Ok self) →
  (∀ (i : nat) cl, sequence_clips self !! i = Some cl →
     ∃ (j : nat) cl',
       fst (sequence_name_to_id_clip (PStr (clip_key cl)) self) = Ok (Z.of_nat j)
       ∧ (i ≤ j)%nat
       ∧ sequence_clips self !! j = Some cl'
       ∧ clip_key cl' = clip_key cl
       ∧ ∀ (j' : nat) cl'', (j < j')%nat → sequence_clips self !! j' = Some cl'' →
                            clip_key cl'' ≠ clip_key cl)
  ∧ (∀ k, (∀ cl, cl ∈ sequence_clips self → clip_key cl ≠ k) →
          fst (sequence_name_to_id_clip (PStr k) self) = Raise KeyError).
Proof.
  intros Hinit.
  destruct (init_Ok_loops _ _ _ _ _ _ _ _ _ _ Hinit)
    as (fs & info & ls & r3 & r4 & _ & _ & _ & _ & _ & _ & _ & Hkeys).
  unfold sequence_name_to_id_clip, keys_clips_getitem. cbn [fst]. rewrite Hkeys. split.
  - intros i cl Hi.
    pose proof (dict_of_zip_spec (clip_key <$> sequence_clips self) (clip_key cl)) as Hspec.
    rewrite range_len_fmap in Hspec.
    assert ((clip_key <$> sequence_clips self) !! i = Some (clip_key cl)) as Hki
      by (by rewrite list_lookup_fmap, Hi).
    destruct (dict_of_zip _ _ !! clip_key cl) as [v|].
    + destruct Hspec as (j & -> & Hj & Hlast).
      apply list_lookup_fmap_Some in Hj as (cl' & Hk' & Hj).
      exists j, cl'. split_and!; try done.
      * destruct (decide (i ≤ j)%nat); [done|]. destruct (Hlast i); [lia | done].
      * intros j' cl'' Hlt Hj' Heq. apply (Hlast j' Hlt).
        by rewrite list_lookup_fmap, Hj', <- Heq.
    + destruct Hspec. by eapply list_elem_of_lookup_2.
  - intros k Hk.
    pose proof (dict_of_zip_spec (clip_key <$> sequence_clips self) k) as Hspec.
    rewrite range_len_fmap in Hspec.
    destruct (dict_of_zip _ _ !! k) as [v|]; [|done].
    destruct Hspec as (j & _ & Hj & _).
    apply list_lookup_fmap_Some in Hj as (cl & Hcl & Hj).
    destruct (Hk cl); [by eapply list_elem_of_lookup_2 | done].
Qed.

Lemma keys_clips_round_trip_witness :
  let self := loader_of (demo_init 2) in
  ∃ (j : nat) cl',
    fst (sequence_name_to_id_clip (PStr (clip_key (SequenceClip_simple bear_seq 2))) self)
      = Ok (Z.of_nat j)
    ∧ (1 ≤ j)%nat
    ∧ sequence_clips self !! j = Some cl'
    ∧ clip_key cl' = clip_key (SequenceClip_simple bear_seq 2)
    ∧ ∀ (j' : nat) cl'', (j < j')%nat → sequence_clips self !! j' = Some cl'' →
                         clip_key cl'' ≠ clip_key (SequenceClip_simple bear_seq 2).
Proof.
  apply (proj1 (keys_clips_round_trip demo_world demo_cfg (demo_args 2) false (PStr "train")
                  true false false (fst (demo_init 2)) (loader_of (demo_init 2))
                  ltac:(vm_compute; reflexivity)) 1%nat).
  vm_compute. reflexivity.
Defined.

Example keys_clips_demo :
  fst (sequence_name_to_id_clip (PStr "bear2") (loader_of (demo_init 2))) = Ok 1
  ∧ fst (sequence_name_to_id_clip (PStr "bear") (loader_of (demo_init 2))) = Raise KeyError.
Proof. split; vm_compute; reflexivity. Qed.

(** X11.  The dict [_keys] that [__init__] builds has the [Sequence] objects
    themselves as keys, not their names: on a loader that [__init__] returned,
    [sequence_name_to_id] raises [KeyError] for every string, number, [None]
    or enum member, and so does [get_raw_sample] for every string. *)
Theorem init_names_are_not_keys (w : World) (c : Cfg) (args : Args) (augment : bool)
    (split_ : pyval) (vm pm ue : bool) (c' : Cfg) (self : DAVISLoader) :
  DAVISLoader_init w c args augment split_ vm pm ue = (c', Ok self) →
  (∀ key, fst (sequence_name_to_id key self) = Raise KeyError)
  ∧ (∀ s, fst (get_raw_sample (PStr s) self) = Raise KeyError).
Proof.
  intros Hinit.
  destruct (init_Ok _ _ _ _ _ _ _ _ _ _ Hinit)
    as (fs & info & rest' & ls & la & _ & _ & _ & _ & _ & _ & _ & _ & Hkeys).
  split.
  - intros key. unfold sequence_name_to_id, dict_getitem_any. cbn [fst]. rewrite Hkeys.
    destruct (list_find _ _) as [[n [k v]]|] eqn:Hf; [|done].
    apply list_find_Some in Hf as (Hn & Hk & _). simpl in Hk.
    apply list_elem_of_lookup_2, elem_of_zip_l, list_elem_of_fmap in Hn as (o & -> & _).
    done.
  - intros s. unfold get_raw_sample. simpl.
    destruct (dict_getitem (_keys self) (PStr s)) as [sid|e] eqn:Hd.
    + apply dict_getitem_Ok in Hd. rewrite Hkeys in Hd.
      apply elem_of_zip_l in Hd. apply list_elem_of_fmap in Hd as (o & [=] & _).
    + unfold dict_getitem in Hd. by destruct (list_find _ _) as [[? [? ?]]|]; simplify_eq.
Qed.

Lemma init_names_are_not_keys_witness :
  (∀ key, fst (sequence_name_to_id key (loader_of (demo_init 2))) = Raise KeyError)
  ∧ (∀ s, fst (get_raw_sample (PStr s) (loader_of (demo_init 2))) = Raise KeyError).
Proof.
  apply (init_names_are_not_keys demo_world demo_cfg (demo_args 2) false (PStr "train")
           true false false (fst (demo_init 2)) (loader_of (demo_init 2))).
  vm_compute. reflexivity.
Defined.

Lemma py_index_range {A} (l : list A) (i : Z) :
  let n := Z.of_nat (List.length l) in
  (- n ≤ i < n → ∃ x, py_index l i = Ok x)
  ∧ (¬ (- n ≤ i < n) → py_index l i = Raise IndexError)
  ∧ (0 ≤ i < n → py_index l (i - n) = py_index l i).
Proof.
  intros n. unfold py_index. fold n. split_and!.
  - intros Hi. destruct (Z.ltb_spec i 0).
    + destruct (Z.leb_spec 0 (i + n)); [|lia]. destruct (Z.ltb_spec (i + n) n); [|lia]. simpl.
      destruct (lookup_lt_is_Some_2 l (Z.to_nat (i + n)) ltac:(lia)) as [x ->]. by exists x.
    + destruct (Z.leb_spec 0 i); [|lia]. destruct (Z.ltb_spec i n); [|lia]. simpl.
      destruct (lookup_lt_is_Some_2 l (Z.to_nat i) ltac:(lia)) as [x ->]. by exists x.
  - intros Hi. destruct (Z.ltb_spec i 0).
    + destruct (Z.leb_spec 0 (i + n)); [lia|]. done.
    + destruct (Z.leb_spec 0 i); [|lia]. destruct (Z.ltb_spec i n); [lia|]. done.
  - intros Hi. destruct (Z.ltb_spec (i - n) 0); [|lia]. destruct (Z.ltb_spec i 0); [lia|].
    by replace (i - n + n) with i by lia.
Qed.

(** X12.  On a loader with [n] sequences that [__init__] returned,
    [get_raw_sample(k)] for an [int] [k] returns a sample exactly when
    [-n <= k < n] and raises [IndexError] otherwise; [k - n] and [k] name the
    same sample for [0 <= k < n]. *)
Theorem get_raw_sample_index_range (w : World) (c : Cfg) (args : Args) (augment : bool)
    (split_ : pyval) (vm pm ue : bool) (c' : Cfg) (self : DAVISLoader) (k : Z) :
  DAVISLoader_init w c args augment split_ vm pm ue = (c', Ok self) →
  let n := Z.of_nat (List.length (sequences self)) in
  (- n ≤ k < n → ∃ r, fst (get_raw_sample (PInt k) self) = Ok r)
  ∧ (¬ (- n ≤ k < n) → fst (get_raw_sample (PInt k) self) = Raise IndexError)
  ∧ (0 ≤ k < n → get_raw_sample (PInt (k - n)) self = get_raw_sample (PInt k) self).
Proof.
  intros Hinit n.
  destruct (init_Ok_loops _ _ _ _ _ _ _ _ _ _ Hinit)
    as (fs & info & ls & r3 & r4 & _ & _ & _ & Hls & Hla & _).
  assert (Z.of_nat (List.length (annotations self)) = n) as Hn by (unfold n; lia).
  destruct (py_index_range (sequences self) k) as (Hs1 & Hs2 & Hs3).
  destruct (py_index_range (annotations self) k) as (Ha1 & Ha2 & Ha3).
  rewrite Hn in Ha1, Ha2, Ha3. fold n in Hs1, Hs2, Hs3.
  unfold get_raw_sample. cbn [fst isinstance_str isinstance_int int_value rbind]. split_and!.
  - intros Hk. destruct (Hs1 Hk) as [i ->]. destruct (Ha1 Hk) as [a ->]. by eexists.
  - intros Hk. by rewrite (Hs2 Hk).
  - intros Hk. by rewrite (Hs3 Hk), (Ha3 Hk).
Qed.

Lemma get_raw_sample_index_range_witness :
  let self := loader_of (demo_init 2) in
  let n := Z.of_nat (List.length (sequences self)) in
  (- n ≤ 1 < n → ∃ r, fst (get_raw_sample (PInt 1) self) = Ok r)
  ∧ (¬ (- n ≤ 1 < n) → fst (get_raw_sample (PInt 1) self) = Raise IndexError)
  ∧ (0 ≤ 1 < n → get_raw_sample (PInt (1 - n)) self = get_raw_sample (PInt 1) self).
Proof.
  apply (get_raw_sample_index_range demo_world demo_cfg (demo_args 2) false (PStr "train")
           true false false (fst (demo_init 2)) (loader_of (demo_init 2)) 1).
  vm_compute. reflexivity.
Defined.

(** X13.  [sequence_id_to_name_clip] returns the clip object, not a name: for
    an [int] key it is the ['images'] field of what [get_raw_sample_clip]
    returns for that key, for the indices [0, 1, ...] it runs through what
    [iternames_clips] yields, and for a string it raises [TypeError]. *)
Theorem sequence_id_to_name_clip_is_clip (self : DAVISLoader) :
  (∀ key r, isinstance_int key = true →
     fst (get_raw_sample_clip key self) = Ok r →
     fst (sequence_id_to_name_clip key self) = Ok (images r))
  ∧ (∀ (i : nat) cl,
       fst (sequence_id_to_name_clip (PInt (Z.of_nat i)) self) = Ok cl
       ↔ ∃ l, fst (iternames_clips self) = Ok l ∧ l !! i = Some cl)
  ∧ (∀ s, fst (sequence_id_to_name_clip (PStr s) self) = Raise TypeError).
Proof.
  unfold sequence_id_to_name_clip, get_raw_sample_clip, iternames_clips, list_getitem.
  cbn [fst]. split_and!.
  - intros key r Hint. rewrite Hint.
    destruct key; try done; cbn [isinstance_str rbind];
      (destruct (py_index (sequence_clips self) _) as [i|]; [|done]; simpl;
       destruct (py_index (annotation_clips self) _) as [a|]; [|done]; simpl;
       by intros [= <-]).
  - intros i cl. cbn [isinstance_int int_value]. rewrite py_index_nat. split.
    + destruct (sequence_clips self !! i) eqn:Hi; [|done]. intros [= <-]. by eexists.
    + intros (l & [= <-] & ->). done.
  - done.
Qed.

Lemma sequence_id_to_name_clip_is_clip_witness :
  fst (sequence_id_to_name_clip (PInt 1) (loader_of (demo_init 2)))
  = Ok (images {| images := SequenceClip_simple bear_seq 2;
                  sample_annotations := AnnotationClip_simple camel_annot 0 |}).
Proof.
  apply (proj1 (sequence_id_to_name_clip_is_clip (loader_of (demo_init 2))) (PInt 1)).
  - reflexivity.
  - vm_compute. reflexivity.
Defined.

(** X14.  For an [int] key, [get_raw_sample_clip] returns exactly when the
    key is a valid index of both [sequence_clips] and [annotation_clips]; with
    any other [int] it raises [IndexError], also when only one of the two
    lists is too short. *)
Theorem get_raw_sample_clip_index_range (self : DAVISLoader) (k : Z) :
  let ns := Z.of_nat (List.length (sequence_clips self)) in
  let na := Z.of_nat (List.length (annotation_clips self)) in
  (- ns ≤ k < ns ∧ - na ≤ k < na → ∃ r, fst (get_raw_sample_clip (PInt k) self) = Ok r)
  ∧ (¬ (- ns ≤ k < ns ∧ - na ≤ k < na) →
     fst (get_raw_sample_clip (PInt k) self) = Raise IndexError).
Proof.
  intros ns na.
  destruct (py_index_range (sequence_clips self) k) as (Hs1 & Hs2 & _).
  destruct (py_index_range (annotation_clips self) k) as (Ha1 & Ha2 & _).
  fold ns in Hs1, Hs2. fold na in Ha1, Ha2.
  unfold get_raw_sample_clip. cbn [fst isinstance_str isinstance_int int_value rbind]. split.
  - intros [Hks Hka]. destruct (Hs1 Hks) as [i ->]. destruct (Ha1 Hka) as [a ->]. by eexists.
  - intros Hk. destruct (decide (- ns ≤ k < ns)) as [Hks|Hks].
    + destruct (Hs1 Hks) as [i ->]. simpl. rewrite Ha2; [done|]. tauto.
    + by rewrite (Hs2 Hks).
Qed.

Lemma get_raw_sample_clip_index_range_witness :
  fst (get_raw_sample_clip (PInt 2) (loader_of (demo_init 2))) = Raise IndexError.
Proof.
  apply (proj2 (get_raw_sample_clip_index_range (loader_of (demo_init 2)) 2)).
  intros [_ [_ H]]. vm_compute in H. discriminate.
Defined.

Example get_raw_sample_clip_short_annotations :
  py_index (sequence_clips (loader_of (demo_init 2))) 2 = Ok (SequenceClip_simple camel_seq 0)
  ∧ fst (get_raw_sample_clip (PInt 2) (loader_of (demo_init 2))) = Raise IndexError.
Proof. split; vm_compute; reflexivity. Qed.

(** ** misc/timer.py *)

(** X15.  A [Timer] measures from the latest [tic]: after any series of
    [tic]s, [toc] returns the difference between its own reading of the clock
    and the reading of the last [tic], and leaves the timer as it is; on a
    timer that was never started it raises [AssertionError]. *)
Theorem toc_measures_from_last_tic {T} (fsub : T → T → T) (tics : list T) (now : T) :
  toc fsub now (foldl (λ self t, tic t self) Timer_init tics)
  = match last tics with
    | Some t0 => Ok (fsub now t0)
    | None => Raise AssertionError
    end.
Proof.
  induction tics as [|t tics _] using rev_ind; [done|].
  by rewrite foldl_snoc, last_snoc.
Qed.

(** ** train.py: from the command line to the [Trainer] *)

Lemma parse_args_Ok_inv (env : TrainEnv) (args args' : Namespace) :
  parse_args env args = Ok args' →
  missing_file env args = false
  ∧ log_dir_ready env args
  ∧ resume args && negb (truthy (prev_ckpt args)) = false
  ∧ ∃ m t e, config_has env args m t e ∧ args' = extended args m t e
             ∧ print_json env args' = Ok ().
Proof.
  unfold parse_args, missing_file, log_dir_ready. intros H.
  destruct (negb (path_exists env (config args))); [done|].
  destruct (truthy (prev_ckpt args) && negb _) eqn:Hprev; [done|].
  apply rbind_Ok in H as ([] & Hlog & H).
  destruct (resume args && negb (truthy (prev_ckpt args))) eqn:Hres; [done|].
  apply rbind_Ok in H as (cfg_ & Hl & H). apply rbind_Ok in H as (m & Hm & H).
  apply rbind_Ok in H as (t & Ht & H). apply rbind_Ok in H as (t' & Ht' & H).
  apply rbind_Ok in H as (e & He & H). cbv zeta in H.
  apply rbind_Ok in H as ([] & Hprint & [= <-]).
  assert (t' = t) as -> by congruence.
  split_and!; [done| |done|].
  - intros Hd. by rewrite Hd in Hlog.
  - exists m, t, e. split_and!; [|done|done]. by exists cfg_.
Qed.

(** X16.  [parse_args] and [train] in a row, as [main] calls them: when both
    return, the [Trainer] was given the [max_epochs] of the config file's
    [training_args]; if [resume] is set, [fit] is called with the [prev_ckpt]
    that was passed, which names an existing path; if [resume] is not set,
    [fit] is called with no checkpoint, even if a [prev_ckpt] was passed. *)
Theorem parse_args_then_train (env : TrainEnv) (args args' : Namespace) (tr : Trainer)
    (ckpt_path : option string) :
  parse_args env args = Ok args' →
  train env args' = Ok (tr, ckpt_path) →
  (∃ m t e, config_has env args m t e ∧ tr_max_epochs tr = Some e)
  ∧ (resume args = true →
     ∃ p, ckpt_path = Some p ∧ prev_ckpt args = Some p ∧ path_exists env p = true)
  ∧ (resume args = false → ckpt_path = None).
Proof.
  intros Hp Ht.
  pose proof Hp as Hp'. unfold parse_args in Hp'.
  destruct (parse_args_Ok_inv _ _ _ Hp) as (Hmiss & _ & Hres & m & t & e & Hc & -> & _).
  unfold train in Ht.
  apply rbind_Ok in Ht as (model & _ & Ht).
  apply rbind_Ok in Ht as ([lg lp] & _ & Ht).
  apply rbind_Ok in Ht as (me & [= <-] & Ht). injection Ht as <- <-. cbn.
  split_and!.
  - by exists m, t, e.
  - intros Hr. rewrite Hr. rewrite Hr in Hres. simpl in Hres. apply negb_false_iff in Hres.
    unfold missing_file in Hmiss. apply orb_false_iff in Hmiss as [_ Hmiss].
    rewrite Hres in Hmiss. simpl in Hmiss. apply negb_false_iff in Hmiss.
    destruct (prev_ckpt args) as [p|]; [|done]. by exists p.
  - by intros ->.
Qed.

Lemma parse_args_then_train_witness :
  let args := demo_namespace "config.yaml" (Some "last.ckpt") true false in
  (∃ m t e, config_has demo_env args m t e ∧ tr_max_epochs demo_trainer = Some e)
  ∧ (resume args = true →
     ∃ p, Some "last.ckpt" = Some p ∧ prev_ckpt args = Some p
          ∧ path_exists demo_env p = true)
  ∧ (resume args = false → Some "last.ckpt" = None).
Proof.
  apply (parse_args_then_train demo_env
           (demo_namespace "config.yaml" (Some "last.ckpt") true false)
           (extended (demo_namespace "config.yaml" (Some "last.ckpt") true false)
              demo_model_args demo_training_args (YInt 50))
           demo_trainer (Some "last.ckpt")).
  - reflexivity.
  - vm_compute. reflexivity.
Defined.

Example train_resumes_from_checkpoint :
  snd <$> (match train demo_env
                   (extended (demo_namespace "config.yaml" (Some "last.ckpt") true false)
                      demo_model_args demo_training_args (YInt 50)) with
           | Ok x => Some x | Raise _ => None end) = Some (Some "last.ckpt").
Proof. vm_compute. reflexivity. Qed.

(** X17.  [parse_args] can be applied to its own result: it returns that
    result again. *)
Theorem parse_args_idempotent (env : TrainEnv) (args args' : Namespace) :
  parse_args env args = Ok args' → parse_args env args' = Ok args'.
Proof.
  intros Hp.
  destruct (parse_args_Ok_inv _ _ _ Hp)
    as (Hmiss & Hlog & Hres & m & t & e & Hc & -> & Hprint).
  rewrite parse_args_present by done. cbn [resume prev_ckpt config extended].
  rewrite Hres. destruct Hc as (cfg_ & Hl & Hm & Ht & He).
  rewrite Hl. simpl. rewrite Hm. simpl. rewrite Ht. simpl. rewrite He. simpl.
  change (extended (extended args m t e) m t e) with (extended args m t e).
  by rewrite Hprint.
Qed.

Lemma parse_args_idempotent_witness :
  let args := demo_namespace "config.yaml" None false false in
  parse_args demo_env (extended args demo_model_args demo_training_args (YInt 50))
  = Ok (extended args demo_model_args demo_training_args (YInt 50)).
Proof.
  apply (parse_args_idempotent demo_env (demo_namespace "config.yaml" None false false)).
  reflexivity.
Defined.

(** X18.  [train] needs a namespace that [parse_args] has extended: without
    [model_args] it raises [KeyError] before any logger or callback is made;
    and it builds the model before it looks at the logger method, so that an
    unknown method is only reported, as [NotImplementedError], once the model
    is there. *)
Theorem train_needs_parsed_args (env : TrainEnv) (args : Namespace) :
  (model_args args = None → train env args = Raise KeyError)
  ∧ (∀ e, prepare_model env args = Raise e → train env args = Raise e)
  ∧ (∀ m, prepare_model env args = Ok () → fast_dev_run args = false →
          logger args = Some m → m ≠ "tensorboard" → m ≠ "wandb" →
          train env args = Raise NotImplementedError).
Proof.
  unfold train. split_and!.
  - intros Hm. unfold prepare_model. by rewrite Hm.
  - by intros e ->.
  - intros m -> Hf Hl Ht Hw. simpl. unfold prepare_logger. rewrite Hf, Hl. simpl.
    rewrite (bool_decide_eq_false_2 (m = "tensorboard")) by done.
    by rewrite (bool_decide_eq_false_2 (m = "wandb")) by done.
Qed.

Lemma train_needs_parsed_args_witness :
  train demo_env (demo_namespace "config.yaml" None false false) = Raise KeyError.
Proof.
  apply (proj1 (train_needs_parsed_args demo_env
                  (demo_namespace "config.yaml" None false false))).
  reflexivity.
Defined.

(** X19.  With [fast_dev_run] set, [train] ignores the logger method, the log
    directory, the version, the run id, the checkpoint prefix, the devices and
    the config path: two namespaces that agree on the model and training
    arguments, [max_epochs], [prev_ckpt] and [resume] give the same [Trainer],
    which has one device, no logger and no callbacks, and the same
    [ckpt_path]. *)
Theorem fast_dev_run_ignores_logging (env : TrainEnv) (args1 args2 : Namespace) :
  fast_dev_run args1 = true → fast_dev_run args2 = true →
  model_args args1 = model_args args2 →
  training_args args1 = training_args args2 →
  max_epochs args1 = max_epochs args2 →
  prev_ckpt args1 = prev_ckpt args2 →
  resume args1 = resume args2 →
  ∃ r, train env args1 = r ∧ train env args2 = r
    ∧ ∀ tr ck, r = Ok (tr, ck) →
        devices tr = DevicesInt 1 ∧ tr_logger tr = None ∧ callbacks tr = [].
Proof.
  intros Hf1 Hf2 Hm Ht He Hp Hr. eexists. split; [reflexivity|].
  unfold train, prepare_model, prepare_logger.
  rewrite Hf1, Hf2, Hm, Ht, He, Hp, Hr. split; [done|].
  intros tr ck H. apply rbind_Ok in H as ([] & _ & H). simpl in H.
  apply rbind_Ok in H as (me & _ & H). by injection H as <- <-.
Qed.

Lemma fast_dev_run_ignores_logging_witness :
  let args1 := extended (demo_namespace "config.yaml" None false true)
                 demo_model_args demo_training_args (YInt 50) in
  let args2 := extended {| config := "other.yaml"; prev_ckpt := None; resume := false;
                           version := "7"; log_dir := None; fast_dev_run := true;
                           pre := "run"; gpus := GpusList [0; 1]; logger := Some "wandb";
                           uid := Some "x"; model_args := None; training_args := None;
                           max_epochs := None |}
                 demo_model_args demo_training_args (YInt 50) in
  ∃ r, train demo_env args1 = r ∧ train demo_env args2 = r
    ∧ ∀ tr ck, r = Ok (tr, ck) →
        devices tr = DevicesInt 1 ∧ tr_logger tr = None ∧ callbacks tr = [].
Proof.
  intros args1 args2.
  apply (fast_dev_run_ignores_logging demo_env args1 args2); reflexivity.
Defined.

(** X20.  Where the checkpoints go: when [fast_dev_run] is not set and
    [train] gets to the [Trainer], the [ModelCheckpoint] among the callbacks
    writes to [{log_dir}/version_{version}/checkpoints] with the TensorBoard
    logger and to [{log_dir}/version_{version}/wandb/checkpoints] with the
    Weights and Biases logger, and its file names start with the prefix and a
    dash exactly when a prefix was given. *)
Theorem train_checkpoint_dirpath (env : TrainEnv) (args : Namespace) (tr : Trainer)
    (ckpt_path : option string) :
  train env args = Ok (tr, ckpt_path) →
  fast_dev_run args = false →
  let log_path := fmt (log_dir args) +:+ "/version_" +:+ version args in
  ∃ mc, callbacks tr = [ModelSummary (-1); TQDMProgressBar 1; ModelCheckpointCb mc;
                        LearningRateMonitor "step"]
    ∧ (logger args = None ∨ logger args = Some "tensorboard" →
       dirpath mc = log_path +:+ "/checkpoints")
    ∧ (logger args = Some "wandb" → dirpath mc = (log_path +:+ "/wandb") +:+ "/checkpoints")
    ∧ filename mc
      = (if bool_decide (pre args = "") then "" else pre args +:+ "-")
        +:+ "{epoch:02d}-{val_f1:.4f}-{val_jaccard:.4f}".
Proof.
  intros H Hf log_path. unfold train in H.
  apply rbind_Ok in H as (model & _ & H).
  apply rbind_Ok in H as ([lg lp] & Hl & H).
  apply rbind_Ok in H as (me & _ & H). injection H as <- <-. rewrite Hf. cbn.
  eexists. split; [reflexivity|]. cbn.
  unfold prepare_logger in Hl. rewrite Hf in Hl. split_and!.
  - intros Hlog.
    assert (default "tensorboard" (logger args) = "tensorboard") as Hd
      by (by destruct Hlog as [-> | ->]).
    rewrite Hd in Hl. simpl in Hl. by injection Hl as <- <-.
  - intros Hlog. rewrite Hlog in Hl. simpl in Hl.
    apply rbind_Ok in Hl as ([] & _ & Hl). by injection Hl as <- <-.
  - by destruct (bool_decide (pre args = "")).
Qed.

Lemma train_checkpoint_dirpath_witness :
  let args := extended (demo_namespace "config.yaml" None false false)
                demo_model_args demo_training_args (YInt 50) in
  let log_path := fmt (log_dir args) +:+ "/version_" +:+ version args in
  ∃ mc, callbacks demo_trainer
        = [ModelSummary (-1); TQDMProgressBar 1; ModelCheckpointCb mc;
           LearningRateMonitor "step"]
    ∧ (logger args = None ∨ logger args = Some "tensorboard" →
       dirpath mc = log_path +:+ "/checkpoints")
    ∧ (logger args = Some "wandb" → dirpath mc = (log_path +:+ "/wandb") +:+ "/checkpoints")
    ∧ filename mc
      = (if bool_decide (pre args = "") then "" else pre args +:+ "-")
        +:+ "{epoch:02d}-{val_f1:.4f}-{val_jaccard:.4f}".
Proof.
  apply (train_checkpoint_dirpath demo_env
           (extended (demo_namespace "config.yaml" None false false)
              demo_model_args demo_training_args (YInt 50)) demo_trainer None).
  - vm_compute. reflexivity.
  - reflexivity.
Defined.

(** ** davis2017.py: clips longer than every sequence *)

Lemma clip_starting_frames_single (numframes : BaseLoader → Z → Z) (L : Z) (obj : BaseLoader)
    (starts : list Z) :
  1 ≤ L →
  (∀ sf, numframes obj sf < L) →
  clip_starting_frames numframes L obj = Ok starts →
  ∃ sf0, frame_at (files obj) 0 = Ok sf0 ∧ starts = [sf0].
Proof.
  intros HL Hnf H.
  destruct (clip_starting_frames_Ok _ _ _ _ HL H) as (sf0 & H0 & He & _).
  exists sf0. split; [done|].
  assert (clip_count (numframes obj sf0) L = 1%nat) as Hc.
  { unfold clip_count.
    assert (numframes obj sf0 / L < 1) by (apply Z.div_lt_upper_bound; specialize (Hnf sf0); lia).
    lia. }
  rewrite Hc in He. unfold expected_starting_frames in He. cbn [seq result_mapM] in He.
  replace (Z.of_nat 0 * L) with 0 in He by lia. rewrite H0 in He. simpl in He. congruence.
Qed.

Lemma concat_single_clips {C} (mk : BaseLoader → Z → C) (l : list BaseLoader)
    (k : list (list Z)) :
  Forall2 (λ o starts, ∃ sf0, frame_at (files o) 0 = Ok sf0 ∧ starts = [sf0]) l k →
  Forall2 (λ o cl, ∃ sf0, frame_at (files o) 0 = Ok sf0 ∧ cl = mk o sf0)
          l (List.concat (zip_with (λ o starts, mk o <$> starts) l k)).
Proof.
  induction 1 as [|o starts l k (sf0 & H0 & ->) _ IH]; simpl; [constructor|].
  constructor; [by exists sf0 | done].
Qed.

Lemma Forall2_impl_elem {A B} (P Q : A → B → Prop) (l : list A) (k : list B) :
  Forall2 P l k → (∀ x y, x ∈ l → P x y → Q x y) → Forall2 Q l k.
Proof.
  induction 1 as [|x y l k Hxy _ IH]; intros HPQ; constructor.
  - apply HPQ; [left | done].
  - apply IH. intros x' y' Hx'. apply HPQ. by right.
Qed.

(** X21.  With [use_prev_mask = False] and a clip length [L >= 1] that
    exceeds the frame count of every sequence and of every annotation (as when
    whole sequences are evaluated), [__init__] makes one clip per sequence and
    one per annotation, each starting at the frame of its first file: the clip
    at index [k] belongs to [self.sequences[k]] and the annotation clip at
    index [k] to [self.annotations[k]], whether or not frames and annotations
    are in step. *)
Theorem long_clips_pair_by_index (w : World) (c : Cfg) (args : Args) (augment : bool)
    (split_ : pyval) (vm ue : bool) (c' : Cfg) (self : DAVISLoader) :
  DAVISLoader_init w c args augment split_ vm false ue = (c', Ok self) →
  1 ≤ arg_length_clip args →
  (∀ o sf, o ∈ sequences self → SequenceClip_simple_numframes w o sf < arg_length_clip args) →
  (∀ o sf, o ∈ annotations self →
           AnnotationClip_simple_numframes w o sf < arg_length_clip args) →
  Forall2 (λ o cl, ∃ sf0, frame_at (files o) 0 = Ok sf0 ∧ cl = SequenceClip_simple o sf0)
          (sequences self) (sequence_clips self)
  ∧ Forall2 (λ o cl, ∃ sf0, frame_at (files o) 0 = Ok sf0 ∧ cl = AnnotationClip_simple o sf0)
            (annotations self) (annotation_clips self)
  ∧ List.length (sequence_clips self) = List.length (annotation_clips self).
Proof.
  intros Hinit HL Hs Ha.
  destruct (init_Ok _ _ _ _ _ _ _ _ _ _ Hinit)
    as (fs & info & rest' & ls & la & _ & HFs & HFa & Hsc & Hac & _).
  destruct (Hsc eq_refl) as (sst & HFsst & ->). destruct Hac as (ast & HFast & ->).
  assert (Forall2 (λ o cl, ∃ sf0, frame_at (files o) 0 = Ok sf0 ∧ cl = SequenceClip_simple o sf0)
            (sequences self)
            (List.concat (zip_with (λ o starts, SequenceClip_simple o <$> starts)
                            (sequences self) sst))) as H1.
  { apply concat_single_clips. eapply Forall2_impl_elem; [exact HFsst|].
    intros o starts Hin Ho.
    apply (clip_starting_frames_single (SequenceClip_simple_numframes w)
             (arg_length_clip args)); [done| |done].
    intros sf. by apply Hs. }
  assert (Forall2 (λ o cl, ∃ sf0, frame_at (files o) 0 = Ok sf0 ∧ cl = AnnotationClip_simple o sf0)
            (annotations self)
            (List.concat (zip_with (λ o starts, AnnotationClip_simple o <$> starts)
                            (annotations self) ast))) as H2.
  { apply concat_single_clips. eapply Forall2_impl_elem; [exact HFast|].
    intros o starts Hin Ho.
    apply (clip_starting_frames_single (AnnotationClip_simple_numframes w)
             (arg_length_clip args)); [done| |done].
    intros sf. by apply Ha. }
  split_and!; [done|done|].
  rewrite <- (Forall2_length _ _ _ H1), <- (Forall2_length _ _ _ H2).
  by rewrite <- (Forall2_length _ _ _ HFs), <- (Forall2_length _ _ _ HFa).
Qed.

Lemma long_clips_pair_by_index_witness :
  let self := loader_of (demo_init 5) in
  Forall2 (λ o cl, ∃ sf0, frame_at (files o) 0 = Ok sf0 ∧ cl = SequenceClip_simple o sf0)
          (sequences self) (sequence_clips self)
  ∧ Forall2 (λ o cl, ∃ sf0, frame_at (files o) 0 = Ok sf0 ∧ cl = AnnotationClip_simple o sf0)
            (annotations self) (annotation_clips self)
  ∧ List.length (sequence_clips self) = List.length (annotation_clips self).
Proof.
  apply (long_clips_pair_by_index demo_world demo_cfg (demo_args 5) false (PStr "train")
           true false (fst (demo_init 5)) (loader_of (demo_init 5))).
  - vm_compute. reflexivity.
  - simpl. lia.
  - intros o sf Ho. assert (o ∈ [bear_seq; camel_seq]) as Hin by exact Ho.
    apply elem_of_cons in Hin as [-> | Hin]; [simpl; lia|].
    apply list_elem_of_singleton in Hin as ->. simpl. lia.
  - intros o sf Ho. assert (o ∈ [bear_annot; camel_annot]) as Hin by exact Ho.
    apply elem_of_cons in Hin as [-> | Hin]; [simpl; lia|].
    apply list_elem_of_singleton in Hin as ->. simpl. lia.
Defined.
